(** * SnowTransfer request handler

    A shallow embedding of [RequestHandler.ts] (the request dispatcher of
    SnowTransfer, with its [DiscordAPIError] class) and the properties of
    its specification that can be settled on it.

    Conventions of the embedding:
    - JavaScript values are a tree type [JsVal].  Objects are association
      lists kept in own-property enumeration order (the order of
      [Object.entries] and [JSON.stringify]); their keys are distinct, as in
      JavaScript.  Payloads are trees: no object is reachable along two
      paths.
    - Strings are [string]s of bytes (the UTF-8 encoding of the JavaScript
      string); white space is the ASCII white space.
    - Numbers are integers (of magnitude below 2^53, which a double
      represents exactly and prints in full).
    - Module [Exact] names the values on which these two conventions and
      the printing of a value lose nothing; a statement that depends on
      them has the condition among its hypotheses, or speaks of the
      requests that were sent.
    - A function that can throw returns a [Completion].
    - The objects the program mutates in place (the payload) are threaded
      through the functions: each sender returns the payload as it left it.
    - The platform functions [JSON.parse], [JSON.stringify], the header set
      of a multipart form, the remote server and the constant
      [Constants.OK_STATUS_CODES] are variables of a section. *)

From Stdlib Require Import ZArith String Ascii List Bool Lia DecimalString.
From stdpp Require Import base option list strings gmap.
Import ListNotations.

Open Scope string_scope.
Open Scope list_scope.

Set Warnings "-register-all".

(** ** JavaScript values and the built-ins the program uses *)

Module Js.

Inductive JsVal : Type :=
| JUndefined
| JNull
| JBool (b : bool)
| JNumber (n : Z)
| JString (s : string)
| JBuffer (bytes : string)
| JArray (items : list JsVal)
| JObject (props : list (string * JsVal)).

Inductive HTTPMethod : Type :=
| m_get | m_post | m_patch | m_head | m_put | m_delete
| m_connect | m_options | m_trace.

(** What a [throw] carries.  [DiscordAPIError] has the fields its constructor
    assigns; [TransportError] is a failure of the HTTP client. *)
Inductive JsError : Type :=
| TypeError
| SyntaxError
| Error (message : string)
| DiscordAPIError (path : string) (message : JsVal) (method : HTTPMethod)
                  (code : JsVal) (httpStatus : Z)
| TransportError (reason : string).

Inductive Completion (A : Type) : Type :=
| Normal (a : A)
| Throw (e : JsError).
Arguments Normal {A} a.
Arguments Throw {A} e.

Definition bind {A B} (c : Completion A) (k : A -> Completion B) : Completion B :=
  match c with
  | Normal a => k a
  | Throw e => Throw e
  end.

Notation "'let!' x ':=' c 'in' k" := (bind c (fun x => k))
  (at level 10, x name, c at level 100, k at level 200).

(** [ToBoolean]. *)
Definition truthy (v : JsVal) : bool :=
  match v with
  | JUndefined | JNull => false
  | JBool b => b
  | JNumber n => negb (n =? 0)%Z
  | JString s => negb (s =? "")
  | JBuffer _ | JArray _ | JObject _ => true
  end.

Inductive JsType : Type := t_undefined | t_object | t_boolean | t_number | t_string.

(** [typeof v]. *)
Definition typeof (v : JsVal) : JsType :=
  match v with
  | JUndefined => t_undefined
  | JBool _ => t_boolean
  | JNumber _ => t_number
  | JString _ => t_string
  | JNull | JBuffer _ | JArray _ | JObject _ => t_object
  end.

Definition is_string (v : JsVal) : bool :=
  match v with JString _ => true | _ => false end.

Definition is_object_type (v : JsVal) : bool :=
  match typeof v with t_object => true | _ => false end.

Fixpoint lookup_prop (k : string) (props : list (string * JsVal)) : JsVal :=
  match props with
  | [] => JUndefined
  | (k', v) :: rest => if k' =? k then v else lookup_prop k rest
  end.

(** [v.k] for the property names the program reads ([errors], [_errors],
    [code], [message], [reason], [files], [name], [file]): none of them is
    an index or a property of a prototype, so only an object has them, and
    reading them off [null] or [undefined] throws. *)
Definition get (v : JsVal) (k : string) : Completion JsVal :=
  match v with
  | JUndefined | JNull => Throw TypeError
  | JObject props => Normal (lookup_prop k props)
  | _ => Normal JUndefined
  end.

Definition nullish (v : JsVal) : bool :=
  match v with JUndefined | JNull => true | _ => false end.

(** [v.k] where the read cannot throw. *)
Definition prop (v : JsVal) (k : string) : JsVal :=
  match v with
  | JObject props => lookup_prop k props
  | _ => JUndefined
  end.

(** [delete o.k] on the property list of [o]. *)
Fixpoint delete_prop (k : string) (props : list (string * JsVal)) : list (string * JsVal) :=
  match props with
  | [] => []
  | (k', v) :: rest =>
      if k' =? k then delete_prop k rest else (k', v) :: delete_prop k rest
  end.

(** [o.k = v] where the property exists: it keeps its place. *)
Fixpoint set_prop (k : string) (v : JsVal) (props : list (string * JsVal)) : list (string * JsVal) :=
  match props with
  | [] => [(k, v)]
  | (k', v') :: rest =>
      if k' =? k then (k, v) :: rest else (k', v') :: set_prop k v rest
  end.

Definition string_of_Z (n : Z) : string := NilZero.string_of_int (Z.to_int n).
Definition string_of_nat (n : nat) : string := string_of_Z (Z.of_nat n).

Definition newline : string := String (ascii_of_nat 10) "".

(** [Array.prototype.join] on strings. *)
Fixpoint join (sep : string) (l : list string) : string :=
  match l with
  | [] => ""
  | [x] => x
  | x :: rest => x +:+ sep +:+ join sep rest
  end.

(** [ToString], as a template literal or [String(v)] applies it. *)
Fixpoint toStr (v : JsVal) : string :=
  match v with
  | JUndefined => "undefined"
  | JNull => "null"
  | JBool true => "true"
  | JBool false => "false"
  | JNumber n => string_of_Z n
  | JString s => s
  | JBuffer b => b
  | JArray items =>
      (fix join_items (xs : list JsVal) : string :=
         match xs with
         | [] => ""
         | x :: rest =>
             let sx := match x with
                       | JUndefined | JNull => ""
                       | _ => toStr x
                       end in
             match rest with
             | [] => sx
             | _ :: _ => sx +:+ "," +:+ join_items rest
             end
         end) items
  | JObject _ => "[object Object]"
  end.

(** An array element as [Array.prototype.join] writes it. *)
Definition joined (x : JsVal) : string :=
  match x with
  | JUndefined | JNull => ""
  | _ => toStr x
  end.

Definition code_of (c : ascii) : nat := nat_of_ascii c.

Definition in_range (lo hi : nat) (c : ascii) : bool :=
  (lo <=? code_of c)%nat && (code_of c <=? hi)%nat.

(** TAB, LF, VT, FF, CR and SP. *)
Definition is_space (c : ascii) : bool :=
  in_range 9 13 c || (code_of c =? 32)%nat.

Fixpoint trimStart (s : string) : string :=
  match s with
  | EmptyString => ""
  | String c t => if is_space c then trimStart t else s
  end.

Fixpoint trimEnd (s : string) : string :=
  match s with
  | EmptyString => ""
  | String c t =>
      let t' := trimEnd t in
      if is_space c && (t' =? "") then "" else String c t'
  end.

(** [String.prototype.trim]. *)
Definition trim (s : string) : string := trimEnd (trimStart s).

Definition is_digit (c : ascii) : bool := in_range 48 57 c.
Definition is_hex_digit (c : ascii) : bool :=
  is_digit c || in_range 65 70 c || in_range 97 102 c.
Definition is_octal_digit (c : ascii) : bool := in_range 48 55 c.
Definition is_binary_digit (c : ascii) : bool := in_range 48 49 c.

Fixpoint all_chars (p : ascii -> bool) (s : string) : bool :=
  match s with
  | EmptyString => true
  | String c t => p c && all_chars p t
  end.

Fixpoint skip_chars (p : ascii -> bool) (s : string) : string :=
  match s with
  | EmptyString => ""
  | String c t => if p c then skip_chars p t else s
  end.

Definition some_chars (p : ascii -> bool) (s : string) : bool :=
  negb (s =? "") && all_chars p s.

Definition is_sign (c : ascii) : bool :=
  (code_of c =? 43)%nat || (code_of c =? 45)%nat.

Definition strip_sign (s : string) : string :=
  match s with
  | String c t => if is_sign c then t else s
  | EmptyString => ""
  end.

(** [ExponentPart], or nothing, up to the end of the text. *)
Definition exponent_opt (s : string) : bool :=
  match s with
  | EmptyString => true
  | String c t =>
      ((code_of c =? 101)%nat || (code_of c =? 69)%nat)
      && some_chars is_digit (strip_sign t)
  end.

(** [StrUnsignedDecimalLiteral]. *)
Definition unsigned_decimal (s : string) : bool :=
  if s =? "Infinity" then true
  else
    let r1 := skip_chars is_digit s in
    let n1 := (String.length s - String.length r1)%nat in
    match r1 with
    | String "."%char r2 =>
        let r3 := skip_chars is_digit r2 in
        let n2 := (String.length r2 - String.length r3)%nat in
        (0 <? n1 + n2)%nat && exponent_opt r3
    | _ => (0 <? n1)%nat && exponent_opt r1
    end.

(** [NonDecimalIntegerLiteral]: [0x], [0o] or [0b] and digits, unsigned. *)
Definition non_decimal (s : string) : bool :=
  match s with
  | String "0"%char (String c t) =>
      let n := code_of c in
      if (n =? 120)%nat || (n =? 88)%nat then some_chars is_hex_digit t
      else if (n =? 111)%nat || (n =? 79)%nat then some_chars is_octal_digit t
      else if (n =? 98)%nat || (n =? 66)%nat then some_chars is_binary_digit t
      else false
  | _ => false
  end.

(** [isNaN(Number(k))] for a string [k]: [Number] trims white space, reads
    the empty text as 0, and yields NaN exactly when the rest is no
    [StrNumericLiteral]. *)
Definition isNaN_Number (k : string) : bool :=
  let s := trim k in
  if s =? "" then false
  else negb (unsigned_decimal (strip_sign s) || non_decimal s).

Definition hex_char (n : nat) : ascii :=
  nth n (list_ascii_of_string "0123456789ABCDEF") "0"%char.

(** The characters [encodeURIComponent] keeps: letters, digits and
    [- _ . ! ~ * ' ( )]. *)
Definition is_unreserved (c : ascii) : bool :=
  in_range 65 90 c || in_range 97 122 c || is_digit c
  || existsb (fun n => (code_of c =? n)%nat) [45; 95; 46; 33; 126; 42; 39; 40; 41]%nat.

Fixpoint encodeURIComponent (s : string) : string :=
  match s with
  | EmptyString => ""
  | String c t =>
      if is_unreserved c then String c (encodeURIComponent t)
      else String "%"%char
             (String (hex_char (code_of c / 16))
                (String (hex_char (code_of c mod 16)) (encodeURIComponent t)))
  end.

(** [s.includes(needle)]. *)
Fixpoint includes (needle s : string) : bool :=
  String.prefix needle s
  || match s with
     | EmptyString => false
     | String _ t => includes needle t
     end.

(** [s.startsWith(p)]. *)
Definition startsWith (p s : string) : bool := String.prefix p s.

(** The one-character strings of [s], the values of [Object.entries(s)]. *)
Fixpoint chars (s : string) : list string :=
  match s with
  | EmptyString => []
  | String c t => String c "" :: chars t
  end.

(** The bytes of a buffer, the values of [Object.entries(buffer)]. *)
Fixpoint byte_values (s : string) : list Z :=
  match s with
  | EmptyString => []
  | String c t => Z.of_nat (code_of c) :: byte_values t
  end.

Fixpoint indexed_from {A} (i : nat) (l : list A) : list (string * A) :=
  match l with
  | [] => []
  | x :: rest => (string_of_nat i, x) :: indexed_from (S i) rest
  end.

(** [Object.entries(v)]: the own enumerable properties, in order. *)
Definition entries (v : JsVal) : Completion (list (string * JsVal)) :=
  match v with
  | JUndefined | JNull => Throw TypeError
  | JBool _ | JNumber _ => Normal []
  | JString s => Normal (indexed_from 0 (map JString (chars s)))
  | JBuffer b => Normal (indexed_from 0 (map JNumber (byte_values b)))
  | JArray items => Normal (indexed_from 0 items)
  | JObject props => Normal props
  end.

End Js.
Export Js.

(** ** The normalized error ([class DiscordAPIError]) *)

Module DiscordAPIError.

(** [es.map(e => e.message)]. *)
Fixpoint map_message (es : list JsVal) : Completion (list JsVal) :=
  match es with
  | [] => Normal []
  | e :: rest =>
      let! m := get e "message" in
      let! ms := map_message rest in
      Normal (m :: ms)
  end.

(** [v._errors.map(e => e.message).join(" ")].  Only an array (or a buffer,
    whose [map] stores a zero for each [undefined]) has [map]. *)
Definition errors_text (errs : JsVal) : Completion string :=
  match errs with
  | JArray es =>
      let! ms := map_message es in
      Normal (join " " (map joined ms))
  | JBuffer b => Normal (join " " (map (fun _ => "0") (byte_values b)))
  | _ => Throw TypeError
  end.

Section Loop.
(** [flattenErrors] on the values of the entries, and the [key] of the
    current call. *)
Variable recurse : JsVal -> string -> Completion (list string).
Variable key : string.

(** [key ? (isNaN(Number(k)) ? `${key}.${k}` : `${key}[${k}]`) : k]. *)
Definition newKey_of (k : string) : string :=
  if negb (key =? "")
  then (if isNaN_Number k then key +:+ "." +:+ k else key +:+ "[" +:+ k +:+ "]")
  else k.

(** One turn of the [for] loop on the entry [[k, v]]; [messages] is the
    array built so far. *)
Definition flattenEntry (k : string) (v : JsVal) (messages : list string)
  : Completion (list string) :=
  let newKey := newKey_of k in
  let! errs := get v "_errors" in
  if truthy errs then
    let! text := errors_text errs in
    Normal (messages ++ [newKey +:+ ": " +:+ text])
  else
    let! code := get v "code" in
    let! message := get v "message" in
    if truthy code || truthy message then
      Normal (messages ++
                [trim ((if truthy code then toStr code +:+ ": " else "")
                       +:+ toStr message)])
    else
      match v with
      | JString s => Normal (messages ++ [s])
      | _ =>
          let! sub := recurse v newKey in
          Normal (messages ++ sub)
      end.

Fixpoint flattenProps (es : list (string * JsVal)) (messages : list string)
  : Completion (list string) :=
  match es with
  | [] => Normal messages
  | (k, v) :: rest =>
      if k =? "message" then flattenProps rest messages
      else
        let! messages := flattenEntry k v messages in
        flattenProps rest messages
  end.

(** The same loop over the entries of an array: the keys are the indices
    (none is ["message"]). *)
Fixpoint flattenItems (i : nat) (items : list JsVal) (messages : list string)
  : Completion (list string) :=
  match items with
  | [] => Normal messages
  | v :: rest =>
      let! messages := flattenEntry (string_of_nat i) v messages in
      flattenItems (S i) rest messages
  end.
End Loop.

(** [static flattenErrors(obj, key = "")]: the loop over
    [Object.entries(obj)].  The entries of a string are one-character
    strings, which the loop takes as they are, and those of a buffer are
    numbers, which have no entries: for these two the recursive call is
    written as the constant it is ([flattenErrors_entries] below states the
    function as the one loop with itself as the recursive call). *)
Fixpoint flattenErrors (obj : JsVal) (key : string) {struct obj}
  : Completion (list string) :=
  match obj with
  | JUndefined | JNull => Throw TypeError
  | JBool _ | JNumber _ => Normal []
  | JString s =>
      flattenItems (fun _ _ => Normal []) key 0 (map JString (chars s)) []
  | JBuffer b =>
      flattenItems (fun _ _ => Normal []) key 0 (map JNumber (byte_values b)) []
  | JArray items => flattenItems flattenErrors key 0 items []
  | JObject props => flattenProps flattenErrors key props []
  end.

(** [a || b]. *)
Definition or_else (a b : JsVal) : JsVal := if truthy a then a else b.

(** The [message] the constructor assigns. *)
Definition message_of (error : JsVal) : Completion JsVal :=
  let! errors := get error "errors" in
  let! lines := flattenErrors (or_else errors error) "" in
  let flattened := join newline lines in
  let! message := get error "message" in
  Normal (if truthy message && negb (flattened =? "")
          then JString (toStr message +:+ newline +:+ flattened)
          else or_else message (JString flattened)).

(** [new DiscordAPIError(path, error, method, status)]. *)
Definition new (path : string) (error : JsVal) (method : HTTPMethod) (status : Z)
  : Completion JsError :=
  let! message := message_of error in
  let! code := get error "code" in
  Normal (DiscordAPIError path message method code status).

End DiscordAPIError.

(** ** The flattening of a validation error, clause by clause

    The relation below is written from the description of the flattening,
    not from the loop: [Lines parent entries lines] says that walking
    [entries] under the key path [parent] yields [lines]. *)

Module FlattenSpec.

(** The key path of the entry [k] under [parent]: a numeric key is rendered
    as [parent[k]], any other as [parent.k], and a key at the top as it
    is. *)
Definition path (parent k : string) : string :=
  if parent =? "" then k
  else if isNaN_Number k then parent +:+ "." +:+ k
  else parent +:+ "[" +:+ k +:+ "]".

(** The messages of the entries of an [_errors] array, joined with
    spaces. *)
Inductive ErrorsText : JsVal -> string -> Prop :=
| ET_array (es : list JsVal) :
    Forall (fun e => nullish e = false) es ->
    ErrorsText (JArray es) (join " " (map (fun e => joined (prop e "message")) es))
| ET_buffer (b : string) :
    ErrorsText (JBuffer b) (join " " (map (fun _ => "0") (byte_values b))).

(** ["<code>: <message>"], the code left out when it is falsy, and the white
    space around the line trimmed. *)
Definition code_message_line (v : JsVal) : string :=
  trim ((if truthy (prop v "code") then toStr (prop v "code") +:+ ": " else "")
        +:+ toStr (prop v "message")).

(** The same line as the specification words it: the code left out only
    when it is absent, and nothing trimmed. *)
Definition code_message_line_as_stated (v : JsVal) : string :=
  (match prop v "code" with
   | JUndefined => ""
   | code => toStr code +:+ ": "
   end) +:+ toStr (prop v "message").

Inductive Lines : string -> list (string * JsVal) -> list string -> Prop :=
| L_done (parent : string) :
    Lines parent [] []
| L_skip_message (parent : string) (v : JsVal) rest ls :
    Lines parent rest ls ->
    Lines parent (("message", v) :: rest) ls
| L_errors (parent k : string) (v : JsVal) (text : string) rest ls :
    k <> "message" ->
    nullish v = false ->
    truthy (prop v "_errors") = true ->
    ErrorsText (prop v "_errors") text ->
    Lines parent rest ls ->
    Lines parent ((k, v) :: rest) ((path parent k +:+ ": " +:+ text) :: ls)
| L_code_message (parent k : string) (v : JsVal) rest ls :
    k <> "message" ->
    nullish v = false ->
    truthy (prop v "_errors") = false ->
    truthy (prop v "code") || truthy (prop v "message") = true ->
    Lines parent rest ls ->
    Lines parent ((k, v) :: rest) (code_message_line v :: ls)
| L_string (parent k s : string) rest ls :
    k <> "message" ->
    Lines parent rest ls ->
    Lines parent ((k, JString s) :: rest) (s :: ls)
| L_recurse (parent k : string) (v : JsVal) es sub rest ls :
    k <> "message" ->
    nullish v = false ->
    is_string v = false ->
    truthy (prop v "_errors") = false ->
    truthy (prop v "code") || truthy (prop v "message") = false ->
    entries v = Normal es ->
    Lines (path parent k) es sub ->
    Lines parent rest ls ->
    Lines parent ((k, v) :: rest) (sub ++ ls).

(** The message of the normalized error built from [error]: the lines of
    [error.errors] (of [error] itself when it has none) joined by new
    lines and appended to [error.message], with a new line between them if
    both are there, and whichever is there otherwise. *)
Definition message_from (error : JsVal) (lines : list string) : JsVal :=
  let flattened := join newline lines in
  let message := prop error "message" in
  match truthy message, negb (flattened =? "") with
  | true, true => JString (toStr message +:+ newline +:+ flattened)
  | true, false => message
  | false, _ => JString flattened
  end.

End FlattenSpec.

(** ** The dispatcher ([class RequestHandler]) *)

Module RequestHandler.

(** What the program reads of a [centra] response. *)
Record Response : Type := {
  statusCode : Z;
  content_type : option string;
  body : option string
}.

(** [form.append(field, value, { filename })]. *)
Record FormField : Type := {
  field : string;
  value : JsVal;
  filename : option JsVal
}.

(** Where the payload travels in an outbound request. *)
Inductive Payload : Type :=
| NoPayload
| Query (data : JsVal)
| BodyJson (data : JsVal)
| BodyRaw (data : JsVal)
| BodyForm (form : list FormField).

(** An outbound request, as built on the [centra] request object when
    [send()] is called. *)
Record Wire : Type := {
  w_url : string;
  w_method : HTTPMethod;
  w_path : string;
  w_headers : gmap string string;
  w_payload : Payload;
  w_timeout : option Z
}.

Inductive Reply : Type :=
| Replied (r : Response)
| Failed (reason : string).

(** The events of [HandlerEvents] that the program emits (the correlation
    identifier is random and left out). *)
Inductive Event : Type :=
| ev_request (endpoint : string) (method : HTTPMethod) (dataType : string) (data : JsVal)
| ev_done (r : Response)
| ev_requestError (e : JsError).

(** All that a run leaves outside: the requests that went over the network
    and the events emitted, oldest first. *)
Record World : Type := {
  sent : list Wire;
  events : list Event
}.

(** The fields of [this]. *)
Record Handler : Type := {
  apiURL : string;
  options_headers : gmap string string
}.

(** The state of the promise that [request] returns. *)
Inductive PromiseState : Type :=
| Pending
| Fulfilled (v : JsVal)
| Rejected (e : JsError).

(** [Finished p]: all the work the call started is over and left its promise
    in state [p].  [Running]: the fuel ran out before that. *)
Inductive Outcome : Type :=
| Running
| Finished (p : PromiseState).

(** [res(v)] and [rej(e)] act on a pending promise only. *)
Definition settle (p new : PromiseState) : PromiseState :=
  match p with
  | Pending => new
  | _ => p
  end.

Definition emit (e : Event) (w : World) : World :=
  {| sent := sent w; events := events w ++ [e] |}.

Definition max_retry_message : string := "Max amount of rety attempts reached".
Definition forbidden_dataType_message : string := "Forbidden dataType. Use json or multipart".

(** [new RequestHandler(options)]; [BASE_URL] is [Endpoints.BASE_URL] and
    [user_agent] the text built from the package and Node versions. *)
Definition new (BASE_URL user_agent : string) (token : option string) (baseHost : string)
  : Handler :=
  let headers : gmap string string := {[ "User-Agent" := user_agent ]} in
  let headers :=
    match token with
    | Some t => if negb (t =? "") then <[ "Authorization" := t ]> headers else headers
    | None => headers
    end in
  {| apiURL := baseHost +:+ BASE_URL; options_headers := headers |}.

(** [method === "get" || endpoint.includes("/bans") || endpoint.includes("/prune")] *)
Definition useParams_of (method : HTTPMethod) (endpoint : string) : bool :=
  match method with m_get => true | _ => false end
  || includes "/bans" endpoint || includes "/prune" endpoint.

Definition recoverable (status : Z) : bool :=
  (status =? 429)%Z || (status =? 502)%Z.

Definition includesZ (l : list Z) (x : Z) : bool := existsb (Z.eqb x) l.

(** [delete v.k]. *)
Definition delete_key (v : JsVal) (k : string) : JsVal :=
  match v with
  | JObject props => JObject (delete_prop k props)
  | _ => v
  end.

(** [data.files.every(f => !!f.name && !!f.file)]. *)
Fixpoint every_valid (files : list JsVal) : Completion bool :=
  match files with
  | [] => Normal true
  | f :: rest =>
      let! name := get f "name" in
      if truthy name then
        let! file := get f "file" in
        if truthy file then every_valid rest else Normal false
      else Normal false
  end.

(** The [for] loop of [_multiPartRequest]: the form and the file descriptors
    as the loop leaves them. *)
Fixpoint append_files (index : nat) (files : list JsVal) (form : list FormField)
  : Completion (list FormField * list JsVal) :=
  match files with
  | [] => Normal (form, [])
  | file :: rest =>
      let! content := get file "file" in
      let! name := get file "name" in
      let form := form ++ [{| field := "files[" +:+ string_of_nat index +:+ "]";
                              value := content;
                              filename := Some name |}] in
      let file := delete_key file "file" in
      let! r := append_files (S index) rest form in
      Normal (fst r, file :: snd r)
  end.

(** The payload once the loop has gone over the elements of [data.files]. *)
Definition with_files (data : JsVal) (files : list JsVal) : JsVal :=
  match data with
  | JObject props => JObject (set_prop "files" (JArray files) props)
  | _ => data
  end.

(** The default [data = {}] and the line
    [if (typeof data === "number") data = String(data)]. *)
Definition coerce_data (data : JsVal) : JsVal :=
  let data := match data with JUndefined => JObject [] | _ => data end in
  match data with
  | JNumber _ => JString (toStr data)
  | _ => data
  end.

Definition is_query (p : Payload) : bool :=
  match p with Query _ => true | _ => false end.

Definition has_body (p : Payload) : bool :=
  match p with BodyJson _ | BodyRaw _ | BodyForm _ => true | _ => false end.

(** The payload value an outbound JSON request carries, in its query or in
    its body. *)
Definition payload_data (p : Payload) : option JsVal :=
  match p with
  | Query d | BodyJson d | BodyRaw d => Some d
  | NoPayload | BodyForm _ => None
  end.

(** A file descriptor as [every] wants it: an object with a truthy [name]
    and a truthy [file]. *)
Definition valid_file (f : JsVal) : bool :=
  match f with
  | JObject props => truthy (lookup_prop "name" props) && truthy (lookup_prop "file" props)
  | _ => false
  end.

(** The fields that the loop of [_multiPartRequest] appends for [files],
    counting from [index]. *)
Fixpoint file_fields (index : nat) (files : list JsVal) : list FormField :=
  match files with
  | [] => []
  | f :: rest =>
      {| field := "files[" +:+ string_of_nat index +:+ "]";
         value := prop f "file";
         filename := Some (prop f "name") |} :: file_fields (S index) rest
  end.

Definition payload_json_field (text : string) : FormField :=
  {| field := "payload_json"; value := JString text; filename := None |}.

Section Platform.
(** [JSON.parse]: [None] where it throws a [SyntaxError]. *)
Variable JSON_parse : string -> option JsVal.
(** [JSON.stringify]. *)
Variable JSON_stringify : JsVal -> string.
(** [form.getHeaders()]: the content type with the boundary. *)
Variable form_getHeaders : list FormField -> gmap string string.
(** [Constants.OK_STATUS_CODES]. *)
Variable OK_STATUS_CODES : list Z.
(** The remote service: its answer to the last of the requests sent so
    far. *)
Variable server : list Wire -> Reply.
Variable this : Handler.

(** [req.send()]. *)
Definition send (req : Wire) (w : World) : Completion Response * World :=
  let w := {| sent := sent w ++ [req]; events := events w |} in
  (match server (sent w) with
   | Replied r => Normal r
   | Failed reason => Throw (TransportError reason)
   end, w).

(** [private async _request(endpoint, method, data, useParams, amount)]:
    the response or the exception, the payload as the call leaves it, and
    the world. *)
Definition _request (endpoint : string) (method : HTTPMethod) (data : JsVal)
    (useParams : bool) (amount : Z) (w : World)
  : Completion Response * JsVal * World :=
  if (3 <=? amount)%Z then (Throw (Error max_retry_message), data, w)
  else
    match (if negb (is_string data) then get data "reason" else Normal (JBool false)) with
    | Throw e => (Throw e, data, w)
    | Normal reason =>
        let headers : gmap string string :=
          if truthy reason
          then {[ "X-Audit-Log-Reason" := encodeURIComponent (toStr reason) ]}
          else ∅ in
        let data := if truthy reason then delete_key data "reason" else data in
        let payload :=
          if useParams then Query data
          else if truthy data && is_object_type data then BodyJson data
          else if truthy data then BodyRaw data
          else NoPayload in
        let '(r, w) := send {| w_url := apiURL this; w_method := method;
                               w_path := endpoint;
                               w_headers := headers ∪ options_headers this;
                               w_payload := payload; w_timeout := None |} w in
        (r, data, w)
    end.

(** [private async _multiPartRequest(endpoint, method, data, amount)]. *)
Definition _multiPartRequest (endpoint : string) (method : HTTPMethod) (data : JsVal)
    (amount : Z) (w : World)
  : Completion Response * JsVal * World :=
  if (3 <=? amount)%Z then (Throw (Error max_retry_message), data, w)
  else
    match (let! files := get data "files" in
           match files with
           | JArray items =>
               let! ok := every_valid items in
               if ok then
                 let! r := append_files 0 items [] in
                 Normal (fst r, with_files data (snd r))
               else Normal ([], data)
           | _ => Normal ([], data)
           end) with
    | Throw e => (Throw e, data, w)
    | Normal (form, data) =>
        let form := form ++ [payload_json_field (JSON_stringify data)] in
        let newHeaders := form_getHeaders form ∪ options_headers this in
        let '(r, w) := send {| w_url := apiURL this; w_method := method;
                               w_path := endpoint; w_headers := newHeaders;
                               w_payload := BodyForm form;
                               w_timeout := Some 15000%Z |} w in
        (r, data, w)
    end.

(** The [if] chain on [dataType] at the head of the [try] block. *)
Definition send_by_kind (endpoint : string) (method : HTTPMethod) (dataType : string)
    (data : JsVal) (amount : Z) (w : World)
  : Completion Response * JsVal * World :=
  if dataType =? "json" then
    _request endpoint method data (useParams_of method endpoint) amount w
  else if dataType =? "multipart" then
    _multiPartRequest endpoint method data amount w
  else (Throw (Error forbidden_dataType_message), data, w).

(** The body handed to the [DiscordAPIError] constructor. *)
Definition error_body (resp : Response) : Completion JsVal :=
  if match content_type resp with
     | Some ct => startsWith "application/json" ct
     | None => false
     end
  then match body resp with
       | Some b => match JSON_parse b with
                   | Some v => Normal v
                   | None => Throw SyntaxError
                   end
       | None => Throw SyntaxError
       end
  else match body resp with
       | Some b => Normal (JString b)
       | None => Throw TypeError
       end.

(** The [catch] block. *)
Definition catch (e : JsError) (p : PromiseState) (w : World) : PromiseState * World :=
  let w := emit (ev_requestError e) w in
  (settle p (Rejected e), w).

(** [public request(endpoint, method, dataType, data = {}, amount = 0)].
    Each unit of fuel pays for one run of the promise executor. *)
Fixpoint request (fuel : nat) (endpoint : string) (method : HTTPMethod)
    (dataType : string) (data : JsVal) (amount : Z) (w : World)
  : Outcome * JsVal * World :=
  match fuel with
  | O => (Running, data, w)
  | S fuel =>
      let data := coerce_data data in
      let p := Pending in
      let w := emit (ev_request endpoint method dataType data) w in
      let '(r, data, w) := send_by_kind endpoint method dataType data amount w in
      match r with
      | Throw e => let '(p, w) := catch e p w in (Finished p, data, w)
      | Normal resp =>
          let status := statusCode resp in
          if negb (status =? 0)%Z && negb (includesZ OK_STATUS_CODES status)
             && negb (recoverable status)
          then
            match (let! error := error_body resp in
                   DiscordAPIError.new endpoint error method status) with
            | Normal e => let '(p, w) := catch e p w in (Finished p, data, w)
            | Throw e => let '(p, w) := catch e p w in (Finished p, data, w)
            end
          else if negb (status =? 0)%Z && recoverable status then
            (* return this.request(endpoint, method, dataType, data, amount++):
               the value of [amount++] is [amount]; the executor returns
               the inner promise, and [res] and [rej] are not called *)
            let '(inner, data, w) := request fuel endpoint method dataType data amount w in
            (match inner with
             | Running => Running
             | Finished _ => Finished p
             end, data, w)
          else
            let w := emit (ev_done resp) w in
            match body resp with
            | Some b =>
                match JSON_parse b with
                | None =>
                    let p := settle p (Fulfilled JUndefined) in
                    (Finished (settle p (Fulfilled JUndefined)), data, w)
                | Some v => (Finished (settle p (Fulfilled v)), data, w)
                end
            | None => (Finished (settle p (Fulfilled JUndefined)), data, w)
            end
      end
  end.
End Platform.

End RequestHandler.

(** ** The bot methods ([class BotMethods] of [methods/Bots.ts])

    The two methods call [request] with a path of [Endpoints], the method
    [get] and the data kind "json", and leave [data] and [amount] to their
    defaults. *)

Module BotMethods.
Import RequestHandler.

Section Bots.
Variable JSON_parse : string -> option JsVal.
Variable JSON_stringify : JsVal -> string.
Variable form_getHeaders : list FormField -> gmap string string.
Variable OK_STATUS_CODES : list Z.
Variable server : list Wire -> Reply.
(** [this.requestHandler]. *)
Variable requestHandler : Handler.
(** [Endpoints.GATEWAY] and [Endpoints.GATEWAY_BOT]. *)
Variable GATEWAY : string.
Variable GATEWAY_BOT : string.

(** [public getGateway()]. *)
Definition getGateway (fuel : nat) (w : World) : Outcome * JsVal * World :=
  request JSON_parse JSON_stringify form_getHeaders OK_STATUS_CODES server requestHandler
    fuel GATEWAY m_get "json" JUndefined 0 w.

(** [public getGatewayBot()]. *)
Definition getGatewayBot (fuel : nat) (w : World) : Outcome * JsVal * World :=
  request JSON_parse JSON_stringify form_getHeaders OK_STATUS_CODES server requestHandler
    fuel GATEWAY_BOT m_get "json" JUndefined 0 w.
End Bots.

End BotMethods.

(** ** Shapes of values used in the statements *)

Module Shapes.

(** A value with no [null] and no [undefined] anywhere in it, in which
    every truthy [_errors] is an array or a buffer. *)
Fixpoint regular (v : JsVal) : bool :=
  match v with
  | JUndefined | JNull => false
  | JBool _ | JNumber _ | JString _ | JBuffer _ => true
  | JArray items =>
      (fix all (l : list JsVal) : bool :=
         match l with
         | [] => true
         | x :: rest => regular x && all rest
         end) items
  | JObject props =>
      (fix all (l : list (string * JsVal)) : bool :=
         match l with
         | [] => true
         | kv :: rest => regular (snd kv) && all rest
         end) props
      && match lookup_prop "_errors" props with
         | JArray _ | JBuffer _ => true
         | e => negb (truthy e)
         end
  end.

(** A character that may stand in the value of the audit-log header: one
    that [encodeURIComponent] keeps, or the percent sign. *)
Definition header_char (c : ascii) : bool :=
  is_unreserved c || (code_of c =? 37)%nat.

(** The name of a header that the JSON sender sets itself. *)
Definition audit_header : string := "X-Audit-Log-Reason".

(** The events of a list that are [request] events. *)
Definition is_request_event (e : RequestHandler.Event) : bool :=
  match e with RequestHandler.ev_request _ _ _ _ => true | _ => false end.

(** The three ways the executor reads the status of a response: neither
    falsy, nor a member of [OK_STATUS_CODES], nor recoverable; recoverable;
    and anything else, which it takes for a success. *)
Definition terminal (OK_STATUS_CODES : list Z) (resp : RequestHandler.Response) : bool :=
  negb (RequestHandler.statusCode resp =? 0)%Z
  && negb (RequestHandler.includesZ OK_STATUS_CODES (RequestHandler.statusCode resp))
  && negb (RequestHandler.recoverable (RequestHandler.statusCode resp)).

Definition retried (resp : RequestHandler.Response) : bool :=
  negb (RequestHandler.statusCode resp =? 0)%Z
  && RequestHandler.recoverable (RequestHandler.statusCode resp).

(** The value a success response is decoded to. *)
Definition decoded (JSON_parse : string -> option JsVal) (resp : RequestHandler.Response)
  : JsVal :=
  match RequestHandler.body resp with
  | Some b => match JSON_parse b with Some v => v | None => JUndefined end
  | None => JUndefined
  end.

(** What a terminal response is rejected with: the normalized error, or
    what reading the body or building the error throws. *)
Definition rejection (JSON_parse : string -> option JsVal) (endpoint : string)
    (method : HTTPMethod) (resp : RequestHandler.Response) : JsError :=
  match (let! error := RequestHandler.error_body JSON_parse resp in
         DiscordAPIError.new endpoint error method (RequestHandler.statusCode resp)) with
  | Normal e => e
  | Throw e => e
  end.

(** An entry that yields no line: one named "message", or one whose value
    is a boolean or a number. *)
Definition scalar_field (kv : string * JsVal) : Prop :=
  fst kv = "message"
  \/ (exists b, snd kv = JBool b) \/ (exists n, snd kv = JNumber n).

(** The request that the multipart sender builds around a form. *)
Definition multipart_wire (form_getHeaders : list RequestHandler.FormField -> gmap string string)
    (this : RequestHandler.Handler) (endpoint : string) (method : HTTPMethod)
    (form : list RequestHandler.FormField) : RequestHandler.Wire :=
  {| RequestHandler.w_url := RequestHandler.apiURL this;
     RequestHandler.w_method := method;
     RequestHandler.w_path := endpoint;
     RequestHandler.w_headers := form_getHeaders form ∪ RequestHandler.options_headers this;
     RequestHandler.w_payload := RequestHandler.BodyForm form;
     RequestHandler.w_timeout := Some 15000%Z |}.

(** The request that the JSON sender builds for an object payload, with the
    headers it adds to the defaults. *)
Definition json_wire_of (this : RequestHandler.Handler) (endpoint : string)
    (method : HTTPMethod) (useParams : bool) (headers : gmap string string)
    (props : list (string * JsVal)) : RequestHandler.Wire :=
  {| RequestHandler.w_url := RequestHandler.apiURL this;
     RequestHandler.w_method := method;
     RequestHandler.w_path := endpoint;
     RequestHandler.w_headers := headers ∪ RequestHandler.options_headers this;
     RequestHandler.w_payload :=
       if useParams then RequestHandler.Query (JObject props)
       else RequestHandler.BodyJson (JObject props);
     RequestHandler.w_timeout := None |}.

(** What [send()] returns for the answer of the server to the log. *)
Definition reply_of (server : list RequestHandler.Wire -> RequestHandler.Reply)
    (log : list RequestHandler.Wire) : Completion RequestHandler.Response :=
  match server log with
  | RequestHandler.Replied r => Normal r
  | RequestHandler.Failed reason => Throw (TransportError reason)
  end.

End Shapes.

(** ** Where the embedding is exact

    The built-ins of [Js] follow JavaScript on the values described below,
    and the form library takes the file descriptors described below.  A
    statement that depends on the text of a string, on how a value is
    printed or on what the form library takes has the condition among its
    hypotheses; a statement on what a request carries is an invariant of
    the requests that were sent, or takes the answer of the sender as a
    hypothesis. *)

Module Exact.

(** A string of ASCII characters.  Its bytes are its UTF-16 code units and
    its white space is the ASCII white space, so that [chars], [trim] and
    [isNaN_Number] are [Object.entries], [String.prototype.trim] and
    [isNaN(Number(k))] on it. *)
Definition ascii_text (s : string) : bool :=
  all_chars (fun c => (code_of c <? 128)%nat) s.

(** The scanner of [well_formed]: [pending] continuation bytes are awaited,
    the next of them between [lo] and [hi]. *)
Fixpoint utf8_from (pending lo hi : nat) (s : string) : bool :=
  match s with
  | EmptyString => (pending =? 0)%nat
  | String c t =>
      let n := code_of c in
      match pending with
      | O =>
          if (n <? 128)%nat then utf8_from 0 128 191 t
          else if in_range 194 223 c then utf8_from 1 128 191 t
          else if (n =? 224)%nat then utf8_from 2 160 191 t
          else if (n =? 237)%nat then utf8_from 2 128 159 t
          else if in_range 225 239 c then utf8_from 2 128 191 t
          else if (n =? 240)%nat then utf8_from 3 144 191 t
          else if in_range 241 243 c then utf8_from 3 128 191 t
          else if (n =? 244)%nat then utf8_from 3 128 143 t
          else false
      | S p => (lo <=? n)%nat && (n <=? hi)%nat && utf8_from p 128 191 t
      end
  end.

(** The bytes are the UTF-8 encoding of a string of Unicode scalar values:
    a JavaScript string without a lone surrogate, on which
    [encodeURIComponent] does not throw a [URIError] and returns what the
    embedding computes. *)
Definition well_formed (s : string) : bool := utf8_from 0 128 191 s.

(** A value as [JSON.parse] yields it for ASCII text, on which [ToString]
    is [toStr]: its strings and keys are ASCII, its numbers are integers
    that a double holds exactly and prints in full, it holds no buffer, and
    no object in it has an own property named "toString" (one that is not
    callable, as every JSON value, makes [ToString] throw a [TypeError]). *)
Fixpoint plain (v : JsVal) : bool :=
  match v with
  | JUndefined | JNull | JBool _ => true
  | JNumber n => (Z.abs n <? 2 ^ 53)%Z
  | JString s => ascii_text s
  | JBuffer _ => false
  | JArray items =>
      (fix all (l : list JsVal) : bool :=
         match l with
         | [] => true
         | x :: rest => plain x && all rest
         end) items
  | JObject props =>
      (fix all (l : list (string * JsVal)) : bool :=
         match l with
         | [] => true
         | kv :: rest =>
             ascii_text (fst kv) && negb (fst kv =? "toString")
             && plain (snd kv) && all rest
         end) props
  end.

(** A value that [String] prints as [toStr] does, to a text on which
    [encodeURIComponent] does not throw: a string of well-formed text, or
    another value as [JSON.parse] yields it for ASCII text. *)
Definition printable (v : JsVal) : bool :=
  match v with
  | JString s => well_formed s
  | _ => plain v
  end.

(** A file descriptor that the form library takes: its [name] is a
    non-empty string and its [file] a buffer or a non-empty string.  (With
    an array as [file], [form.append] throws; with a [name] that is no
    string, or a [file] that is neither text nor a buffer, the form cannot
    be written out.) *)
Definition appendable (f : JsVal) : bool :=
  match f with
  | JObject props =>
      match lookup_prop "name" props, lookup_prop "file" props with
      | JString name, JBuffer _ => negb (name =? "")
      | JString name, JString content => negb (name =? "") && negb (content =? "")
      | _, _ => false
      end
  | _ => false
  end.

(** The payload that a request of a JSON dispatch may carry: the payload of
    the call after the default and the conversion of a number, with or
    without its [reason]. *)
Definition carried (data p : JsVal) : Prop :=
  p = RequestHandler.coerce_data data
  \/ p = RequestHandler.delete_key (RequestHandler.coerce_data data) "reason".

End Exact.

(** ** A concrete platform for the examples *)

Module Stub.
Import RequestHandler.

(** A reader for the JSON texts of the examples: the literals, the empty
    containers and the unsigned integers.  The empty text is no JSON. *)
Definition parse (s : string) : option JsVal :=
  if s =? "null" then Some JNull
  else if s =? "true" then Some (JBool true)
  else if s =? "false" then Some (JBool false)
  else if s =? "{}" then Some (JObject [])
  else if s =? "[]" then Some (JArray [])
  else if some_chars is_digit s then
    Some (JNumber (Z.of_N (fold_left (fun acc c => (10 * acc + N.of_nat (code_of c - 48))%N)
                             (list_ascii_of_string s) 0%N)))
  else None.

Definition quote : string := String (ascii_of_nat 34) "".

(** A writer for values whose strings need no escape. *)
Fixpoint stringify (v : JsVal) : string :=
  match v with
  | JUndefined | JNull => "null"
  | JBool true => "true"
  | JBool false => "false"
  | JNumber n => string_of_Z n
  | JString s => quote +:+ s +:+ quote
  | JBuffer b =>
      "{" +:+ quote +:+ "type" +:+ quote +:+ ":" +:+ quote +:+ "Buffer" +:+ quote +:+ ","
      +:+ quote +:+ "data" +:+ quote +:+ ":["
      +:+ join "," (map string_of_Z (byte_values b)) +:+ "]}"
  | JArray items =>
      "[" +:+ join "," ((fix each (l : list JsVal) : list string :=
                           match l with
                           | [] => []
                           | x :: rest => stringify x :: each rest
                           end) items) +:+ "]"
  | JObject props =>
      "{" +:+ join "," ((fix each (l : list (string * JsVal)) : list string :=
                           match l with
                           | [] => []
                           | (k, x) :: rest =>
                               match x with
                               | JUndefined => each rest
                               | _ => (quote +:+ k +:+ quote +:+ ":" +:+ stringify x) :: each rest
                               end
                           end) props) +:+ "}"
  end.

Definition form_headers (_ : list FormField) : gmap string string :=
  {[ "content-type" := "multipart/form-data; boundary=x" ]}.

Definition OK_STATUS_CODES : list Z := [200; 201; 204; 304]%Z.

Definition handler : Handler :=
  new "/api/v10" "Discordbot (SnowTransfer)" (Some "Bot token") "https://discord.com".

Definition world0 : World := {| sent := []; events := [] |}.

Definition reply (status : Z) (text : string) : Reply :=
  Replied {| statusCode := status;
             content_type := Some "application/json";
             body := Some text |}.

(** A server that gives every request the same answer. *)
Definition always (r : Reply) : list Wire -> Reply := fun _ => r.

(** A server that answers the n-th request with the n-th reply of a script,
    and [last] once the script is over. *)
Definition script (replies : list Reply) (last : Reply) : list Wire -> Reply :=
  fun log => nth (length log - 1) replies last.

End Stub.

(** ** Properties *)

Import RequestHandler.
Import Exact.

(** *** What the senders can throw *)

Lemma get_throws_TypeError (v : JsVal) (k : string) (e : JsError) :
  get v k = Throw e -> e = TypeError.
Proof. destruct v; simpl; congruence. Qed.

Lemma every_valid_throws_TypeError (files : list JsVal) (e : JsError) :
  every_valid files = Throw e -> e = TypeError.
Proof.
  induction files as [|f rest IH]; simpl; [congruence|].
  destruct (get f "name") as [name|e1] eqn:Hn; simpl.
  - destruct (truthy name); [|congruence].
    destruct (get f "file") as [file|e2] eqn:Hf; simpl.
    + destruct (truthy file); [exact IH|congruence].
    + intros [= <-]. eauto using get_throws_TypeError.
  - intros [= <-]. eauto using get_throws_TypeError.
Qed.

Lemma append_files_throws_TypeError (files : list JsVal) :
  forall index form e, append_files index files form = Throw e -> e = TypeError.
Proof.
  induction files as [|f rest IH]; simpl; intros index form e; [congruence|].
  destruct (get f "file") as [content|e1] eqn:Hf; simpl.
  - destruct (get f "name") as [name|e2] eqn:Hn; simpl.
    + destruct (append_files _ rest _) as [r|e3] eqn:Hr; simpl; [congruence|].
      intros [= <-]. eauto.
    + intros [= <-]. eauto using get_throws_TypeError.
  - intros [= <-]. eauto using get_throws_TypeError.
Qed.

Lemma send_throws_TransportError server req w e :
  fst (send server req w) = Throw e -> exists reason, e = TransportError reason.
Proof.
  unfold send; simpl. destruct (server _); [congruence|].
  intros [= <-]. eauto.
Qed.

Lemma send_sent server req w :
  sent (snd (send server req w)) = sent w ++ [req]
  /\ events (snd (send server req w)) = events w.
Proof. unfold send; simpl. auto. Qed.

(** Below the cap, [_request] throws a [TypeError] or what the transport
    throws, and nothing else. *)
Lemma _request_throws server this endpoint method data useParams amount w e :
  (amount < 3)%Z ->
  fst (fst (_request server this endpoint method data useParams amount w)) = Throw e ->
  e = TypeError \/ exists reason, e = TransportError reason.
Proof.
  intros Hlt. unfold _request.
  destruct (3 <=? amount)%Z eqn:Hcap; [apply Z.leb_le in Hcap; lia|].
  destruct (if negb (is_string data) then get data "reason" else Normal (JBool false))
    as [reason|e1] eqn:Hr.
  - destruct (send _ _ _) as [r w'] eqn:Hs; simpl.
    intros ->. right.
    eapply send_throws_TransportError. rewrite Hs. reflexivity.
  - simpl. intros [= <-]. left.
    destruct (negb (is_string data)); [eauto using get_throws_TypeError | congruence].
Qed.

Lemma _multiPartRequest_throws JSON_stringify form_getHeaders server this
    endpoint method data amount w e :
  (amount < 3)%Z ->
  fst (fst (_multiPartRequest JSON_stringify form_getHeaders server this
              endpoint method data amount w)) = Throw e ->
  e = TypeError \/ exists reason, e = TransportError reason.
Proof.
  intros Hlt. unfold _multiPartRequest.
  destruct (3 <=? amount)%Z eqn:Hcap; [apply Z.leb_le in Hcap; lia|].
  match goal with |- context [match ?c with Normal _ => _ | Throw _ => _ end] =>
    destruct c as [[form data']|e1] eqn:Hc end.
  - destruct (send _ _ _) as [r w'] eqn:Hs; simpl.
    intros ->. right.
    eapply send_throws_TransportError. rewrite Hs. reflexivity.
  - simpl. intros [= <-]. left.
    destruct (get data "files") as [files|e2] eqn:Hf; simpl in Hc.
    + destruct files; try congruence.
      destruct (every_valid items) as [ok|e3] eqn:Hev; simpl in Hc.
      * destruct ok; [|congruence].
        destruct (append_files 0 items []) as [r|e4] eqn:Hap; simpl in Hc; [congruence|].
        injection Hc as <-. eauto using append_files_throws_TypeError.
      * injection Hc as <-. eauto using every_valid_throws_TypeError.
    + injection Hc as <-. eauto using get_throws_TypeError.
Qed.

(** *** C4: the attempt cap of the two senders *)

(** C4.  Called with an attempt counter of 3 or more, the JSON sender
    [_request] and the multipart sender [_multiPartRequest] throw the local
    error "Max amount of rety attempts reached" and leave the world as it
    was: no request goes out.  Called with a counter below 3, neither
    throws that error. *)
Theorem C4_senders_refuse_from_attempt_three :
  forall JSON_stringify form_getHeaders server this endpoint method data useParams amount w,
    ((3 <= amount)%Z ->
       _request server this endpoint method data useParams amount w
         = (Throw (Error max_retry_message), data, w)
       /\ _multiPartRequest JSON_stringify form_getHeaders server this
            endpoint method data amount w
         = (Throw (Error max_retry_message), data, w))
    /\ ((amount < 3)%Z ->
       fst (fst (_request server this endpoint method data useParams amount w))
         <> Throw (Error max_retry_message)
       /\ fst (fst (_multiPartRequest JSON_stringify form_getHeaders server this
                      endpoint method data amount w))
         <> Throw (Error max_retry_message)).
Proof.
  intros. split.
  - intros Hge. apply Z.leb_le in Hge.
    unfold _request, _multiPartRequest. rewrite Hge. auto.
  - intros Hlt. split; intros Habs.
    + apply _request_throws in Habs; [|exact Hlt].
      destruct Habs as [?|[? ?]]; discriminate.
    + apply _multiPartRequest_throws in Habs; [|exact Hlt].
      destruct Habs as [?|[? ?]]; discriminate.
Qed.

Lemma C4_witness :
  (_request (Stub.always (Stub.reply 200 "{}")) Stub.handler
     "/channels/1" m_patch (JObject []) false 3 Stub.world0
   = (Throw (Error max_retry_message), JObject [], Stub.world0)
   /\ _multiPartRequest Stub.stringify Stub.form_headers
        (Stub.always (Stub.reply 200 "{}")) Stub.handler
        "/channels/1" m_patch (JObject []) 3 Stub.world0
      = (Throw (Error max_retry_message), JObject [], Stub.world0))
  /\ (fst (fst (_request (Stub.always (Stub.reply 200 "{}")) Stub.handler
                  "/channels/1" m_patch (JObject []) false 2 Stub.world0))
        <> Throw (Error max_retry_message)
      /\ fst (fst (_multiPartRequest Stub.stringify Stub.form_headers
                     (Stub.always (Stub.reply 200 "{}")) Stub.handler
                     "/channels/1" m_patch (JObject []) 2 Stub.world0))
        <> Throw (Error max_retry_message)).
Proof.
  split.
  - apply (proj1 (C4_senders_refuse_from_attempt_three Stub.stringify Stub.form_headers
                    (Stub.always (Stub.reply 200 "{}")) Stub.handler
                    "/channels/1" m_patch (JObject []) false 3 Stub.world0)).
    lia.
  - apply (proj2 (C4_senders_refuse_from_attempt_three Stub.stringify Stub.form_headers
                    (Stub.always (Stub.reply 200 "{}")) Stub.handler
                    "/channels/1" m_patch (JObject []) false 2 Stub.world0)).
    lia.
Defined.

(** *** C5: a data kind that is neither "json" nor "multipart" *)

(** C5.  A call of [request] with a [dataType] other than "json" and
    "multipart" ends rejected with the local error "Forbidden dataType. Use
    json or multipart"; the only traces are the two events, and the list of
    requests sent over the network is unchanged.  The outcome is the same
    for every server, parser and status table. *)
Theorem C5_forbidden_dataType_rejects_locally :
  forall JSON_parse JSON_stringify form_getHeaders OK_STATUS_CODES server this
         fuel endpoint method dataType data amount w,
    dataType <> "json" ->
    dataType <> "multipart" ->
    let result := request JSON_parse JSON_stringify form_getHeaders OK_STATUS_CODES
                    server this (S fuel) endpoint method dataType data amount w in
    result
    = (Finished (Rejected (Error forbidden_dataType_message)),
       coerce_data data,
       emit (ev_requestError (Error forbidden_dataType_message))
         (emit (ev_request endpoint method dataType (coerce_data data)) w))
    /\ sent (snd result) = sent w.
Proof.
  intros until w. intros Hj Hm result. subst result.
  apply String.eqb_neq in Hj, Hm.
  cbn [request]. unfold send_by_kind. rewrite Hj, Hm.
  split; reflexivity.
Qed.

Lemma C5_witness :
  let result := request Stub.parse Stub.stringify Stub.form_headers Stub.OK_STATUS_CODES
                  (Stub.always (Stub.reply 200 "{}")) Stub.handler
                  1 "/gateway" m_get "xml" (JNumber 7) 0 Stub.world0 in
  result
  = (Finished (Rejected (Error forbidden_dataType_message)),
     JString "7",
     {| sent := [];
        events := [ev_request "/gateway" m_get "xml" (JString "7");
                   ev_requestError (Error forbidden_dataType_message)] |})
  /\ sent (snd result) = [].
Proof.
  apply (C5_forbidden_dataType_rejects_locally
           Stub.parse Stub.stringify Stub.form_headers Stub.OK_STATUS_CODES
           (Stub.always (Stub.reply 200 "{}")) Stub.handler
           0 "/gateway" m_get "xml" (JNumber 7) 0%Z Stub.world0);
    discriminate.
Defined.

(** *** Property lists *)

Lemma lookup_delete_prop_same (k : string) (props : list (string * JsVal)) :
  lookup_prop k (delete_prop k props) = JUndefined.
Proof.
  induction props as [|[k' v] rest IH]; simpl; [reflexivity|].
  destruct (k' =? k) eqn:Hk; simpl; [exact IH|].
  rewrite Hk. exact IH.
Qed.

Lemma lookup_delete_prop_other (k k' : string) (props : list (string * JsVal)) :
  k <> k' -> lookup_prop k' (delete_prop k props) = lookup_prop k' props.
Proof.
  intros Hne. induction props as [|[k0 v] rest IH]; simpl; [reflexivity|].
  destruct (k0 =? k) eqn:Hk; simpl.
  - apply String.eqb_eq in Hk. subst k0.
    apply String.eqb_neq in Hne. rewrite Hne. exact IH.
  - destruct (k0 =? k'); [reflexivity|exact IH].
Qed.

Lemma lookup_set_prop_same (k : string) (v : JsVal) (props : list (string * JsVal)) :
  lookup_prop k (set_prop k v props) = v.
Proof.
  induction props as [|[k' v'] rest IH]; simpl.
  - now rewrite String.eqb_refl.
  - destruct (k' =? k) eqn:Hk; simpl.
    + now rewrite String.eqb_refl.
    + rewrite Hk. exact IH.
Qed.

Lemma lookup_set_prop_other (k k' : string) (v : JsVal) (props : list (string * JsVal)) :
  k <> k' -> lookup_prop k' (set_prop k v props) = lookup_prop k' props.
Proof.
  intros Hne. induction props as [|[k0 v0] rest IH]; simpl.
  - apply String.eqb_neq in Hne. now rewrite Hne.
  - destruct (k0 =? k) eqn:Hk; simpl.
    + apply String.eqb_eq in Hk. subst k0.
      apply String.eqb_neq in Hne. now rewrite Hne.
    + destruct (k0 =? k'); [reflexivity|exact IH].
Qed.

Lemma prop_delete_key_same (v : JsVal) (k : string) :
  prop (delete_key v k) k = JUndefined.
Proof. destruct v; simpl; auto using lookup_delete_prop_same. Qed.

Lemma get_not_nullish (v : JsVal) (k : string) :
  nullish v = false -> get v k = Normal (prop v k).
Proof. destruct v; simpl; congruence. Qed.

(** *** C3: the audit-log reason *)

(** C3 does not hold as stated.  The multipart sender leaves [reason] in
    the payload it serializes and sets no audit-log header; and the JSON
    sender leaves a falsy [reason] (here the empty string) in the body. *)
Lemma C3_counterexample :
  (let '(_, data', w') :=
     _multiPartRequest Stub.stringify Stub.form_headers
       (Stub.always (Stub.reply 200 "{}")) Stub.handler
       "/channels/1/messages" m_post
       (JObject [("reason", JString "spam"); ("content", JString "hi")]) 0 Stub.world0 in
   get data' "reason" = Normal (JString "spam")
   /\ map (fun wire => (w_headers wire !! "X-Audit-Log-Reason", w_payload wire)) (sent w')
      = [(None,
          BodyForm [payload_json_field
                      (Stub.stringify
                         (JObject [("reason", JString "spam"); ("content", JString "hi")]))])])
  /\ (let '(_, data', w') :=
        _request (Stub.always (Stub.reply 200 "{}")) Stub.handler
          "/channels/1/messages" m_post
          (JObject [("reason", JString ""); ("content", JString "hi")])
          false 0 Stub.world0 in
      map (fun wire => (w_headers wire !! "X-Audit-Log-Reason", w_payload wire)) (sent w')
      = [(None, BodyJson (JObject [("reason", JString ""); ("content", JString "hi")]))]).
Proof. split; vm_compute; auto. Qed.

(** C3, amended.  When the JSON sender [_request] is called with an object
    payload whose [reason] is truthy and prints without an exception (a
    string of well-formed text, or another value as [JSON.parse] yields
    it), the request it sends has the header [X-Audit-Log-Reason] set to
    [encodeURIComponent] of the reason and carries (as query or as body) the
    object without its [reason] property, which is what the object of the
    caller has become once the call is below the attempt cap.  When the
    [reason] is falsy, the sender leaves the object as it is, and the
    request it sends carries that object and the default headers only.
    The multipart sender [_multiPartRequest] leaves [reason] where it is:
    the payload it returns has the [reason] that came in, and the request
    it sends ends in the field [payload_json] that serializes that payload
    and has the headers of the form over the default ones. *)
Theorem C3_json_reason_moves_to_header :
  forall JSON_stringify form_getHeaders server this endpoint method props useParams amount w,
    let json := _request server this endpoint method (JObject props) useParams amount w in
    let multipart := _multiPartRequest JSON_stringify form_getHeaders server this
                       endpoint method (JObject props) amount w in
    (truthy (lookup_prop "reason" props) = true ->
     printable (lookup_prop "reason" props) = true ->
     ((amount < 3)%Z -> snd (fst json) = JObject (delete_prop "reason" props))
     /\ forall wire,
          sent (snd json) = sent w ++ [wire] ->
          w_headers wire !! "X-Audit-Log-Reason"
          = Some (encodeURIComponent (toStr (lookup_prop "reason" props)))
          /\ payload_data (w_payload wire) = Some (JObject (delete_prop "reason" props))
          /\ lookup_prop "reason" (delete_prop "reason" props) = JUndefined)
    /\ (truthy (lookup_prop "reason" props) = false ->
        snd (fst json) = JObject props
        /\ forall wire,
             sent (snd json) = sent w ++ [wire] ->
             w_headers wire = options_headers this
             /\ payload_data (w_payload wire) = Some (JObject props))
    /\ prop (snd (fst multipart)) "reason" = lookup_prop "reason" props
    /\ forall wire,
         sent (snd multipart) = sent w ++ [wire] ->
         exists form,
           let fields := form ++ [payload_json_field (JSON_stringify (snd (fst multipart)))] in
           w_payload wire = BodyForm fields
           /\ w_headers wire = form_getHeaders fields ∪ options_headers this.
Proof.
  intros until w. intros json multipart.
  assert (Hnone : forall wire : Wire, sent w = sent w ++ [wire] -> False).
  { intros wire H. rewrite <- (app_nil_r (sent w)) in H at 1.
    apply app_inv_head in H. discriminate. }
  split; [|split; [|split]].
  - intros Ht _. subst json. unfold _request.
    destruct (3 <=? amount)%Z eqn:Hcap.
    { apply Z.leb_le in Hcap. split; [lia|].
      intros wire H. cbn [snd] in H. destruct (Hnone wire H). }
    cbn [is_string negb get]. rewrite Ht.
    cbn [delete_key truthy is_object_type typeof andb].
    unfold send. cbn [fst snd sent events].
    split; [reflexivity|].
    intros wire H. apply app_inv_head in H. injection H as <-.
    cbn [w_headers w_payload]. split; [|split].
    + apply lookup_union_Some_l. apply lookup_singleton_eq.
    + now destruct useParams.
    + apply lookup_delete_prop_same.
  - intros Hf. subst json. unfold _request.
    destruct (3 <=? amount)%Z eqn:Hcap.
    { split; [reflexivity|].
      intros wire H. cbn [snd] in H. destruct (Hnone wire H). }
    cbn [is_string negb get]. rewrite Hf.
    cbn [truthy is_object_type typeof andb].
    unfold send. cbn [fst snd sent events].
    split; [reflexivity|].
    intros wire H. apply app_inv_head in H. injection H as <-.
    cbn [w_headers w_payload]. split.
    + apply (left_id_L ∅ (∪)).
    + now destruct useParams.
  - subst multipart. unfold _multiPartRequest.
    destruct (3 <=? amount)%Z; [reflexivity|].
    match goal with |- context [match ?c with Normal _ => _ | Throw _ => _ end] =>
      destruct c as [[form data']|e1] eqn:Hc end; [|reflexivity].
    destruct (send _ _ _) as [r w1]. cbn [fst snd].
    cbn [get bind] in Hc.
    destruct (lookup_prop "files" props) as [| | | | | |items|] eqn:Hfiles;
      try (injection Hc as _ <-; reflexivity).
    destruct (every_valid items) as [ok|e]; cbn [bind] in Hc; [|discriminate].
    destruct ok; [|injection Hc as _ <-; reflexivity].
    destruct (append_files 0 items []) as [r0|e]; cbn [bind] in Hc; [|discriminate].
    injection Hc as _ <-. cbn [with_files prop].
    apply lookup_set_prop_other. discriminate.
  - subst multipart. unfold _multiPartRequest.
    destruct (3 <=? amount)%Z.
    { intros wire H. cbn [snd] in H. destruct (Hnone wire H). }
    match goal with |- context [match ?c with Normal _ => _ | Throw _ => _ end] =>
      destruct c as [[form data']|e1] end.
    2:{ intros wire H. cbn [snd] in H. destruct (Hnone wire H). }
    unfold send. cbn [fst snd sent events].
    intros wire H. apply app_inv_head in H. injection H as <-.
    exists form. cbn [w_payload w_headers]. split; reflexivity.
Qed.

Lemma C3_witness :
  let with_reason := [("reason", JString "spam & eggs"); ("content", JString "hi")] in
  let without := [("content", JString "hi")] in
  let empty_reason := [("reason", JString ""); ("content", JString "hi")] in
  let json props := _request (Stub.always (Stub.reply 200 "{}")) Stub.handler
                      "/channels/1/messages" m_post (JObject props) false 0 Stub.world0 in
  let multipart := _multiPartRequest Stub.stringify Stub.form_headers
                     (Stub.always (Stub.reply 200 "{}")) Stub.handler
                     "/channels/1/messages" m_post (JObject with_reason) 0 Stub.world0 in
  (snd (fst (json with_reason)) = JObject without
   /\ exists wire,
        sent (snd (json with_reason)) = [wire]
        /\ w_headers wire !! "X-Audit-Log-Reason" = Some "spam%20%26%20eggs"
        /\ payload_data (w_payload wire) = Some (JObject without))
  /\ (snd (fst (json empty_reason)) = JObject empty_reason
      /\ exists wire,
           sent (snd (json empty_reason)) = [wire]
           /\ w_headers wire = options_headers Stub.handler
           /\ payload_data (w_payload wire) = Some (JObject empty_reason))
  /\ prop (snd (fst multipart)) "reason" = JString "spam & eggs"
  /\ exists wire form,
       sent (snd multipart) = [wire]
       /\ w_payload wire
          = BodyForm (form ++ [payload_json_field (Stub.stringify (JObject with_reason))]).
Proof.
  intros with_reason without empty_reason json multipart.
  pose proof (C3_json_reason_moves_to_header
                Stub.stringify Stub.form_headers
                (Stub.always (Stub.reply 200 "{}")) Stub.handler
                "/channels/1/messages" m_post with_reason false 0%Z Stub.world0)
    as (Hreason & _ & Hkept & Hform).
  pose proof (C3_json_reason_moves_to_header
                Stub.stringify Stub.form_headers
                (Stub.always (Stub.reply 200 "{}")) Stub.handler
                "/channels/1/messages" m_post empty_reason false 0%Z Stub.world0)
    as (_ & Hfalsy & _).
  destruct (Hreason eq_refl eq_refl) as [Hdata Hwire].
  destruct (Hfalsy eq_refl) as [Hdata' Hwire'].
  split; [|split; [|split]].
  - split; [apply Hdata; lia|].
    eexists. split; [reflexivity|].
    match goal with |- ?h = _ /\ ?q = _ =>
      destruct (Hwire _ eq_refl) as (H1 & H2 & _); exact (conj H1 H2) end.
  - split; [exact Hdata'|].
    eexists. split; [reflexivity|]. exact (Hwire' _ eq_refl).
  - exact Hkept.
  - destruct (Hform _ eq_refl) as (form & Hp & _).
    eexists _, form. split; [reflexivity|exact Hp].
Defined.

(** *** The multipart form *)

Lemma valid_file_props (f : JsVal) :
  valid_file f = true ->
  nullish f = false
  /\ truthy (prop f "name") = true /\ truthy (prop f "file") = true.
Proof.
  destruct f; simpl; try discriminate.
  intros H. apply andb_true_iff in H. tauto.
Qed.

Lemma every_valid_all (files : list JsVal) :
  Forall (fun f => valid_file f = true) files -> every_valid files = Normal true.
Proof.
  induction 1 as [|f rest Hf _ IH]; simpl; [reflexivity|].
  apply valid_file_props in Hf. destruct Hf as (Hn & Hname & Hfile).
  rewrite !get_not_nullish by exact Hn. simpl.
  now rewrite Hname, Hfile.
Qed.

Lemma every_valid_some_invalid (files : list JsVal) :
  Forall (fun f => nullish f = false) files ->
  Exists (fun f => valid_file f = false) files ->
  every_valid files = Normal false.
Proof.
  induction 1 as [|f rest Hn _ IH]; intros Hex.
  - inversion Hex.
  - simpl. rewrite !get_not_nullish by exact Hn. simpl.
    destruct (truthy (prop f "name")) eqn:Hname; [|reflexivity].
    destruct (truthy (prop f "file")) eqn:Hfile; [|reflexivity].
    apply IH. inversion Hex as [? ? Hbad|? ? Hrest]; subst; [|exact Hrest].
    destruct f; simpl in *; try discriminate.
    rewrite Hname, Hfile in Hbad. discriminate.
Qed.

Lemma append_files_all (files : list JsVal) :
  forall index form,
    Forall (fun f => nullish f = false) files ->
    append_files index files form
    = Normal (form ++ file_fields index files,
              map (fun f => delete_key f "file") files).
Proof.
  induction files as [|f rest IH]; intros index form Hall; simpl.
  - now rewrite app_nil_r.
  - inversion Hall as [|? ? Hn Hrest]; subst.
    rewrite !get_not_nullish by exact Hn. simpl.
    rewrite IH by exact Hrest. simpl.
    now rewrite <- app_assoc.
Qed.

Lemma file_fields_length (files : list JsVal) :
  forall index, length (file_fields index files) = length files.
Proof. induction files; intros; simpl; auto. Qed.

Lemma file_fields_lookup (files : list JsVal) :
  forall index i f,
    files !! i = Some f ->
    file_fields index files !! i
    = Some {| field := "files[" +:+ string_of_nat (index + i) +:+ "]";
              value := prop f "file";
              filename := Some (prop f "name") |}.
Proof.
  induction files as [|f0 rest IH]; intros index i f Hi; [discriminate|].
  destruct i as [|i]; simpl in *.
  - injection Hi as ->. now rewrite Nat.add_0_r.
  - rewrite (IH (S index) i f Hi). now rewrite Nat.add_succ_r.
Qed.

(** A descriptor that the form library takes passes the test of [every]. *)
Lemma appendable_valid (f : JsVal) : appendable f = true -> valid_file f = true.
Proof.
  destruct f as [| | | | | | |props]; simpl; try discriminate.
  destruct (lookup_prop "name" props) as [| | | |name| | |]; try discriminate.
  destruct (lookup_prop "file" props) as [| | | |content| | |]; try discriminate;
    cbn [truthy]; intros H; rewrite ?andb_true_r; exact H.
Qed.

Lemma appendable_all_valid (files : list JsVal) :
  Forall (fun f => appendable f = true) files ->
  Forall (fun f => valid_file f = true) files.
Proof.
  intros H. eapply Forall_impl; [exact H|]. exact appendable_valid.
Qed.

(** *** C8: a multipart payload with files *)

(** C8.  When the multipart sender is called below the attempt cap with a
    payload whose [files] is an array of descriptors that the form library
    takes (each with a non-empty string as [name] and a buffer or a
    non-empty string as [file]), it sends one request whose form has, at
    position [i], the field [files[i]] holding the [file] of the i-th
    descriptor under its [name] as file name, and after them a last field
    [payload_json] holding [JSON.stringify] of the payload in which every
    descriptor has lost its [file] property. *)
Theorem C8_multipart_files_become_form_fields :
  forall JSON_stringify form_getHeaders server this endpoint method props files amount w,
    (amount < 3)%Z ->
    lookup_prop "files" props = JArray files ->
    Forall (fun f => appendable f = true) files ->
    let stripped := map (fun f => delete_key f "file") files in
    let data' := JObject (set_prop "files" (JArray stripped) props) in
    exists r wire form,
      _multiPartRequest JSON_stringify form_getHeaders server this
        endpoint method (JObject props) amount w
      = (r, data', {| sent := sent w ++ [wire]; events := events w |})
      /\ w_payload wire = BodyForm form
      /\ length form = S (length files)
      /\ (forall i f, files !! i = Some f ->
            form !! i = Some {| field := "files[" +:+ string_of_nat i +:+ "]";
                                value := prop f "file";
                                filename := Some (prop f "name") |})
      /\ form !! length files = Some (payload_json_field (JSON_stringify data'))
      /\ prop data' "files" = JArray stripped
      /\ Forall (fun f => prop f "file" = JUndefined) stripped.
Proof.
  intros until w. intros Hlt Hfiles Happ stripped data'.
  pose proof (appendable_all_valid files Happ) as Hvalid.
  assert (Hnn : Forall (fun f => nullish f = false) files).
  { eapply Forall_impl; [exact Hvalid|]. intros f Hf. now apply valid_file_props in Hf. }
  unfold _multiPartRequest.
  destruct (3 <=? amount)%Z eqn:Hcap; [apply Z.leb_le in Hcap; lia|].
  cbn [get]. rewrite Hfiles. cbn [bind].
  rewrite (every_valid_all files Hvalid). cbn [bind].
  rewrite (append_files_all files 0 [] Hnn). cbn [bind fst snd with_files app].
  unfold send. cbn [sent events].
  eexists _, _, _. split; [reflexivity|].
  cbn [w_payload]. split; [reflexivity|].
  split; [|split; [|split; [|split]]].
  - rewrite length_app, file_fields_length. simpl. lia.
  - intros i f Hi. rewrite lookup_app_l.
    + now rewrite (file_fields_lookup files 0 i f Hi).
    + rewrite file_fields_length. now apply lookup_lt_Some in Hi.
  - rewrite lookup_app_r; rewrite file_fields_length; [|lia].
    now rewrite Nat.sub_diag.
  - unfold data'. cbn [prop]. apply lookup_set_prop_same.
  - unfold stripped. apply Forall_map. apply Forall_forall.
    intros f _. apply prop_delete_key_same.
Qed.

Lemma C8_witness :
  let files := [JObject [("name", JString "a.png"); ("file", JBuffer "AB")];
                JObject [("name", JString "b.png"); ("file", JBuffer "CD")]] in
  let stripped := [JObject [("name", JString "a.png")];
                   JObject [("name", JString "b.png")]] in
  let data' := JObject [("content", JString "hi"); ("files", JArray stripped)] in
  exists r wire form,
    _multiPartRequest Stub.stringify Stub.form_headers
      (Stub.always (Stub.reply 200 "{}")) Stub.handler
      "/channels/1/messages" m_post
      (JObject [("content", JString "hi"); ("files", JArray files)]) 0 Stub.world0
    = (r, data', {| sent := [wire]; events := [] |})
    /\ w_payload wire = BodyForm form
    /\ length form = 3
    /\ (forall i f, files !! i = Some f ->
          form !! i = Some {| field := "files[" +:+ string_of_nat i +:+ "]";
                              value := prop f "file";
                              filename := Some (prop f "name") |})
    /\ form !! 2 = Some (payload_json_field (Stub.stringify data'))
    /\ prop data' "files" = JArray stripped
    /\ Forall (fun f => prop f "file" = JUndefined) stripped.
Proof.
  apply (C8_multipart_files_become_form_fields
           Stub.stringify Stub.form_headers
           (Stub.always (Stub.reply 200 "{}")) Stub.handler
           "/channels/1/messages" m_post
           [("content", JString "hi");
            ("files", JArray [JObject [("name", JString "a.png"); ("file", JBuffer "AB")];
                              JObject [("name", JString "b.png"); ("file", JBuffer "CD")]])]
           [JObject [("name", JString "a.png"); ("file", JBuffer "AB")];
            JObject [("name", JString "b.png"); ("file", JBuffer "CD")]]
           0%Z Stub.world0).
  - lia.
  - reflexivity.
  - repeat constructor.
Defined.

(** *** C10: a [files] array with an entry that is no valid descriptor *)

(** C10.  When the multipart sender is called below the attempt cap with a
    payload whose [files] is an array of values other than [null] and
    [undefined], at least one of which lacks a truthy [name] or a truthy
    [file], it sends one request whose form has the single field
    [payload_json], holding [JSON.stringify] of the payload as it came: no
    [files[i]] field is appended for any entry, and no descriptor loses its
    [file]. *)
Theorem C10_invalid_entry_appends_no_file :
  forall JSON_stringify form_getHeaders server this endpoint method props files amount w,
    (amount < 3)%Z ->
    lookup_prop "files" props = JArray files ->
    Forall (fun f => nullish f = false) files ->
    Exists (fun f => valid_file f = false) files ->
    exists r wire,
      _multiPartRequest JSON_stringify form_getHeaders server this
        endpoint method (JObject props) amount w
      = (r, JObject props, {| sent := sent w ++ [wire]; events := events w |})
      /\ w_payload wire
         = BodyForm [payload_json_field (JSON_stringify (JObject props))]
      /\ prop (JObject props) "files" = JArray files.
Proof.
  intros until w. intros Hlt Hfiles Hnn Hbad.
  unfold _multiPartRequest.
  destruct (3 <=? amount)%Z eqn:Hcap; [apply Z.leb_le in Hcap; lia|].
  cbn [get]. rewrite Hfiles. cbn [bind].
  rewrite (every_valid_some_invalid files Hnn Hbad). cbn [bind app].
  unfold send. cbn [sent events].
  eexists _, _. split; [reflexivity|].
  split; [reflexivity|exact Hfiles].
Qed.

Lemma C10_witness :
  let files := [JObject [("name", JString "a.png"); ("file", JBuffer "AB")];
                JObject [("name", JString "b.png")]] in
  let props := [("content", JString "hi"); ("files", JArray files)] in
  exists r wire,
    _multiPartRequest Stub.stringify Stub.form_headers
      (Stub.always (Stub.reply 200 "{}")) Stub.handler
      "/channels/1/messages" m_post (JObject props) 0 Stub.world0
    = (r, JObject props, {| sent := [wire]; events := [] |})
    /\ w_payload wire = BodyForm [payload_json_field (Stub.stringify (JObject props))]
    /\ prop (JObject props) "files" = JArray files.
Proof.
  apply (C10_invalid_entry_appends_no_file
           Stub.stringify Stub.form_headers
           (Stub.always (Stub.reply 200 "{}")) Stub.handler
           "/channels/1/messages" m_post
           [("content", JString "hi");
            ("files", JArray [JObject [("name", JString "a.png"); ("file", JBuffer "AB")];
                              JObject [("name", JString "b.png")]])]
           [JObject [("name", JString "a.png"); ("file", JBuffer "AB")];
            JObject [("name", JString "b.png")]]
           0%Z Stub.world0).
  - lia.
  - reflexivity.
  - repeat constructor.
  - apply Exists_cons_tl. apply Exists_cons_hd. reflexivity.
Defined.

(** *** One run of the promise executor *)

Section Dispatch.
Variable JSON_parse : string -> option JsVal.
Variable JSON_stringify : JsVal -> string.
Variable form_getHeaders : list FormField -> gmap string string.
Variable OK_STATUS_CODES : list Z.
Variable server : list Wire -> Reply.
Variable this : Handler.

Let request' := request JSON_parse JSON_stringify form_getHeaders OK_STATUS_CODES server this.
Let send_by_kind' := send_by_kind JSON_stringify form_getHeaders server this.

(** The decoded body of a success response. *)
Let decoded (resp : Response) : JsVal :=
  match body resp with
  | Some b => match JSON_parse b with Some v => v | None => JUndefined end
  | None => JUndefined
  end.

(** The sender threw: the call is rejected with what was thrown. *)
Lemma request_sender_throws fuel endpoint method dataType data amount w e data' w' :
  send_by_kind' endpoint method dataType (coerce_data data) amount
    (emit (ev_request endpoint method dataType (coerce_data data)) w)
  = (Throw e, data', w') ->
  request' (S fuel) endpoint method dataType data amount w
  = (Finished (Rejected e), data', emit (ev_requestError e) w').
Proof.
  intros Hs. unfold request', send_by_kind' in *. cbn [request].
  rewrite Hs. reflexivity.
Qed.

(** The response has status 429 or 502: the executor calls [request]
    again with the payload as the sender left it and with the same
    attempt counter, and its own promise is left pending. *)
Lemma request_recoverable fuel endpoint method dataType data amount w resp data' w' :
  send_by_kind' endpoint method dataType (coerce_data data) amount
    (emit (ev_request endpoint method dataType (coerce_data data)) w)
  = (Normal resp, data', w') ->
  recoverable (statusCode resp) = true ->
  request' (S fuel) endpoint method dataType data amount w
  = (let '(inner, d, w'') := request' fuel endpoint method dataType data' amount w' in
     (match inner with Running => Running | Finished _ => Finished Pending end, d, w'')).
Proof.
  intros Hs Hrec. unfold request', send_by_kind' in *. cbn [request].
  rewrite Hs. cbn zeta. rewrite Hrec.
  assert (Hnz : (statusCode resp =? 0)%Z = false).
  { unfold recoverable in Hrec. apply orb_true_iff in Hrec.
    destruct Hrec as [H|H]; apply Z.eqb_eq in H; rewrite H; reflexivity. }
  rewrite Hnz. cbn [negb andb]. rewrite andb_false_r. reflexivity.
Qed.

(** The response has a success status: the call is fulfilled with the
    decoded body. *)
Lemma request_success fuel endpoint method dataType data amount w resp data' w' :
  send_by_kind' endpoint method dataType (coerce_data data) amount
    (emit (ev_request endpoint method dataType (coerce_data data)) w)
  = (Normal resp, data', w') ->
  includesZ OK_STATUS_CODES (statusCode resp) = true ->
  recoverable (statusCode resp) = false ->
  request' (S fuel) endpoint method dataType data amount w
  = (Finished (Fulfilled (decoded resp)), data', emit (ev_done resp) w').
Proof.
  intros Hs Hok Hrec. unfold request', send_by_kind', decoded in *. cbn [request].
  rewrite Hs. cbn zeta. rewrite Hok, Hrec.
  cbn [negb andb]. rewrite !andb_false_r. cbn [andb].
  destruct (body resp) as [b|]; [|reflexivity].
  destruct (JSON_parse b); reflexivity.
Qed.
End Dispatch.

Lemma includesZ_In (l : list Z) (x : Z) : includesZ l x = true <-> In x l.
Proof.
  unfold includesZ. rewrite existsb_exists. split.
  - intros (y & Hy & Heq). apply Z.eqb_eq in Heq. now subst.
  - intros Hx. exists x. split; [exact Hx|apply Z.eqb_refl].
Qed.

Lemma recoverable_false (status : Z) :
  status <> 429%Z -> status <> 502%Z -> recoverable status = false.
Proof.
  intros H1 H2. unfold recoverable.
  apply Z.eqb_neq in H1, H2. now rewrite H1, H2.
Qed.

(** *** C9: decoding a success response *)

(** C9.  When the sender selected by [dataType] returns a response whose
    status is one of [OK_STATUS_CODES] (and is neither 429 nor 502), the
    call of [request] ends fulfilled, never rejected: with the parsed value
    if the body parses as JSON, and with [undefined] if there is no body or
    the body does not parse, as the empty body does not. *)
Theorem C9_success_resolves_with_decoded_body :
  forall JSON_parse JSON_stringify form_getHeaders OK_STATUS_CODES server this
         fuel endpoint method dataType data amount w resp data' w',
    send_by_kind JSON_stringify form_getHeaders server this
      endpoint method dataType (coerce_data data) amount
      (emit (ev_request endpoint method dataType (coerce_data data)) w)
    = (Normal resp, data', w') ->
    In (statusCode resp) OK_STATUS_CODES ->
    statusCode resp <> 429%Z ->
    statusCode resp <> 502%Z ->
    let outcome :=
      fst (fst (request JSON_parse JSON_stringify form_getHeaders OK_STATUS_CODES
                  server this (S fuel) endpoint method dataType data amount w)) in
    (forall b v, body resp = Some b -> JSON_parse b = Some v ->
                 outcome = Finished (Fulfilled v))
    /\ (forall b, body resp = Some b -> JSON_parse b = None ->
                  outcome = Finished (Fulfilled JUndefined))
    /\ (body resp = None -> outcome = Finished (Fulfilled JUndefined))
    /\ (JSON_parse "" = None -> body resp = Some "" ->
        outcome = Finished (Fulfilled JUndefined))
    /\ (forall e, outcome <> Finished (Rejected e)).
Proof.
  intros until w'. intros Hs Hok H429 H502 outcome.
  apply includesZ_In in Hok.
  pose proof (recoverable_false _ H429 H502) as Hrec.
  pose proof (request_success JSON_parse JSON_stringify form_getHeaders OK_STATUS_CODES
                server this fuel endpoint method dataType data amount w resp data' w'
                Hs Hok Hrec) as Hreq.
  subst outcome. rewrite Hreq. cbn [fst].
  split; [|split; [|split; [|split]]].
  - intros b v Hb Hp. now rewrite Hb, Hp.
  - intros b Hb Hp. now rewrite Hb, Hp.
  - intros Hb. now rewrite Hb.
  - intros Hp Hb. now rewrite Hb, Hp.
  - intros e. discriminate.
Qed.

Lemma C9_witness :
  let outcome (text : option string) :=
    fst (fst (request Stub.parse Stub.stringify Stub.form_headers Stub.OK_STATUS_CODES
                (Stub.always (Replied {| statusCode := 200;
                                         content_type := Some "application/json";
                                         body := text |}))
                Stub.handler 1 "/gateway" m_get "json" JUndefined 0 Stub.world0)) in
  outcome (Some "[]") = Finished (Fulfilled (JArray []))
  /\ outcome (Some "<html>") = Finished (Fulfilled JUndefined)
  /\ outcome None = Finished (Fulfilled JUndefined)
  /\ outcome (Some "") = Finished (Fulfilled JUndefined).
Proof.
  assert (H : forall text,
    let resp := {| statusCode := 200; content_type := Some "application/json";
                   body := text |} in
    exists data' w',
      send_by_kind Stub.stringify Stub.form_headers (Stub.always (Replied resp))
        Stub.handler "/gateway" m_get "json" (coerce_data JUndefined) 0
        (emit (ev_request "/gateway" m_get "json" (coerce_data JUndefined)) Stub.world0)
      = (Normal resp, data', w')).
  { intros text resp. eexists _, _. reflexivity. }
  intros outcome. split; [|split; [|split]].
  - destruct (H (Some "[]")) as (data' & w' & Hs).
    apply (proj1 (C9_success_resolves_with_decoded_body
                    Stub.parse Stub.stringify Stub.form_headers Stub.OK_STATUS_CODES
                    _ Stub.handler 0 "/gateway" m_get "json" JUndefined 0%Z Stub.world0
                    _ data' w' Hs ltac:(simpl; tauto) ltac:(discriminate) ltac:(discriminate))
             "[]" (JArray []) eq_refl eq_refl).
  - destruct (H (Some "<html>")) as (data' & w' & Hs).
    apply (proj1 (proj2 (C9_success_resolves_with_decoded_body
                    Stub.parse Stub.stringify Stub.form_headers Stub.OK_STATUS_CODES
                    _ Stub.handler 0 "/gateway" m_get "json" JUndefined 0%Z Stub.world0
                    _ data' w' Hs ltac:(simpl; tauto) ltac:(discriminate) ltac:(discriminate)))
             "<html>" eq_refl eq_refl).
  - destruct (H None) as (data' & w' & Hs).
    apply (proj1 (proj2 (proj2 (C9_success_resolves_with_decoded_body
                    Stub.parse Stub.stringify Stub.form_headers Stub.OK_STATUS_CODES
                    _ Stub.handler 0 "/gateway" m_get "json" JUndefined 0%Z Stub.world0
                    _ data' w' Hs ltac:(simpl; tauto) ltac:(discriminate) ltac:(discriminate))))
             eq_refl).
  - destruct (H (Some "")) as (data' & w' & Hs).
    apply (proj1 (proj2 (proj2 (proj2 (C9_success_resolves_with_decoded_body
                    Stub.parse Stub.stringify Stub.form_headers Stub.OK_STATUS_CODES
                    _ Stub.handler 0 "/gateway" m_get "json" JUndefined 0%Z Stub.world0
                    _ data' w' Hs ltac:(simpl; tauto) ltac:(discriminate) ltac:(discriminate)))))
             eq_refl eq_refl).
Defined.

(** *** C7: query parameters or request body *)

Lemma useParams_of_spec (method : HTTPMethod) (endpoint : string) :
  useParams_of method endpoint = true
  <-> method = m_get
      \/ includes "/bans" endpoint = true
      \/ includes "/prune" endpoint = true.
Proof.
  unfold useParams_of. rewrite !orb_true_iff.
  destruct method; intuition discriminate.
Qed.

Lemma coerce_data_idem (data : JsVal) : coerce_data (coerce_data data) = coerce_data data.
Proof. destruct data; reflexivity. Qed.

Lemma coerce_delete_key (data : JsVal) (k : string) :
  coerce_data (delete_key (coerce_data data) k) = delete_key (coerce_data data) k.
Proof. destruct data; reflexivity. Qed.

Lemma delete_prop_idem (k : string) (props : list (string * JsVal)) :
  delete_prop k (delete_prop k props) = delete_prop k props.
Proof.
  induction props as [|[k' v] rest IH]; simpl; [reflexivity|].
  destruct (k' =? k) eqn:Hk; [exact IH|].
  simpl. rewrite Hk. now rewrite IH.
Qed.

Lemma delete_key_idem (v : JsVal) (k : string) :
  delete_key (delete_key v k) k = delete_key v k.
Proof. destruct v; simpl; try reflexivity. now rewrite delete_prop_idem. Qed.

(** What a retry may carry, the first call may carry. *)
Lemma carried_after (data d1 p : JsVal) :
  carried data d1 -> carried d1 p -> carried data p.
Proof.
  unfold carried. intros [-> | ->] [-> | ->].
  - left. apply coerce_data_idem.
  - right. now rewrite coerce_data_idem.
  - right. apply coerce_delete_key.
  - right. rewrite coerce_delete_key. apply delete_key_idem.
Qed.

(** The request of the JSON sender carries the payload as the sender left
    it: in the query for [useParams], and otherwise as a JSON body when it
    is an object, as a raw body when it is another truthy value, and not at
    all when it is falsy. *)
Lemma _request_sent server this endpoint method data useParams amount w :
  let result := _request server this endpoint method data useParams amount w in
  let p := snd (fst result) in
  (p = data \/ p = delete_key data "reason")
  /\ exists new,
       sent (snd result) = sent w ++ new
       /\ Forall (fun wire =>
                    if useParams then w_payload wire = Query p
                    else (w_payload wire = BodyJson p /\ is_object_type p = true)
                         \/ (w_payload wire = BodyRaw p /\ is_object_type p = false)
                         \/ (w_payload wire = NoPayload /\ truthy p = false)) new.
Proof.
  intros result p. subst p result. unfold _request.
  destruct (3 <=? amount)%Z.
  { cbn [fst snd]. split; [now left|]. exists []. rewrite app_nil_r. auto. }
  destruct (if negb (is_string data) then get data "reason" else Normal (JBool false))
    as [reason|e].
  2:{ cbn [fst snd]. split; [now left|]. exists []. rewrite app_nil_r. auto. }
  unfold send. cbn [fst snd sent].
  split; [destruct (truthy reason); auto|].
  eexists [_]. split; [reflexivity|].
  constructor; [|constructor]. cbn [w_payload].
  destruct useParams; [reflexivity|].
  set (p := if truthy reason then delete_key data "reason" else data).
  destruct (truthy p) eqn:Ht; destruct (is_object_type p) eqn:Ho; cbn [andb]; auto.
Qed.

Section JsonDispatch.
Variable JSON_parse : string -> option JsVal.
Variable JSON_stringify : JsVal -> string.
Variable form_getHeaders : list FormField -> gmap string string.
Variable OK_STATUS_CODES : list Z.
Variable server : list Wire -> Reply.
Variable this : Handler.
Variable endpoint : string.
Variable method : HTTPMethod.

Let request' := request JSON_parse JSON_stringify form_getHeaders OK_STATUS_CODES server this.

(** Every request that a JSON dispatch sends, retries included, carries
    the payload of the call, with or without its [reason], where the
    [useParams] of the dispatch says. *)
Lemma request_json_sent :
  forall fuel data amount w,
  exists new,
    sent (snd (request' fuel endpoint method "json" data amount w)) = sent w ++ new
    /\ Forall (fun wire =>
                 exists p,
                   carried data p
                   /\ if useParams_of method endpoint then w_payload wire = Query p
                      else (w_payload wire = BodyJson p /\ is_object_type p = true)
                           \/ (w_payload wire = BodyRaw p /\ is_object_type p = false)
                           \/ (w_payload wire = NoPayload /\ truthy p = false)) new.
Proof.
  induction fuel as [|fuel IH]; intros data amount w.
  { exists []. cbn. rewrite app_nil_r. split; [reflexivity|constructor]. }
  unfold request'. cbn [request]. unfold send_by_kind. cbn [String.eqb Ascii.eqb Bool.eqb].
  set (w0 := emit _ w).
  destruct (_request_sent server this endpoint method (coerce_data data)
              (useParams_of method endpoint) amount w0) as (Hp & new & Hsent & Hall).
  destruct (_request _ _ _ _ _ _ _ _) as [[r data'] w1].
  cbn [fst snd] in Hp, Hsent, Hall. change (sent w0) with (sent w) in Hsent.
  assert (Hcar : carried data data') by exact Hp.
  assert (Hall' : Forall (fun wire =>
                 exists p,
                   carried data p
                   /\ if useParams_of method endpoint then w_payload wire = Query p
                      else (w_payload wire = BodyJson p /\ is_object_type p = true)
                           \/ (w_payload wire = BodyRaw p /\ is_object_type p = false)
                           \/ (w_payload wire = NoPayload /\ truthy p = false)) new).
  { eapply Forall_impl; [exact Hall|]. intros wire Hw. exists data'. auto. }
  assert (Hdone : forall w2 : World, sent w2 = sent w1 ->
            exists new', sent w2 = sent w ++ new'
              /\ Forall (fun wire =>
                 exists p,
                   carried data p
                   /\ if useParams_of method endpoint then w_payload wire = Query p
                      else (w_payload wire = BodyJson p /\ is_object_type p = true)
                           \/ (w_payload wire = BodyRaw p /\ is_object_type p = false)
                           \/ (w_payload wire = NoPayload /\ truthy p = false)) new').
  { intros w2 Hw2. exists new. rewrite Hw2. auto. }
  destruct r as [resp|e]; [|apply Hdone; reflexivity].
  cbn zeta.
  destruct (negb (statusCode resp =? 0)%Z && negb (includesZ OK_STATUS_CODES (statusCode resp))
            && negb (recoverable (statusCode resp))).
  { destruct (bind _ _); apply Hdone; reflexivity. }
  destruct (negb (statusCode resp =? 0)%Z && recoverable (statusCode resp)).
  - destruct (IH data' amount w1) as (new2 & Hsent2 & Hall2).
    fold request'.
    destruct (request' fuel endpoint method "json" data' amount w1) as [[inner d] w2].
    cbn [snd] in *. exists (new ++ new2). rewrite Hsent2, Hsent, app_assoc.
    split; [reflexivity|]. apply Forall_app. split; [exact Hall'|].
    eapply Forall_impl; [exact Hall2|].
    intros wire (p & Hp2 & Hw). exists p. split; [|exact Hw].
    eapply carried_after; eauto.
  - destruct (body resp) as [b|]; [destruct (JSON_parse b)|]; apply Hdone; reflexivity.
Qed.
End JsonDispatch.

(** C7.  Every request that a JSON dispatch sends over the network,
    retries included, carries the payload of the call (after the default
    and the conversion of a number, with or without its [reason]): in its
    query when the method is [get] or the endpoint contains "/bans" or
    "/prune", and only then; otherwise as its body (a JSON body for an
    object, a raw body for another truthy value) or, when the payload is
    falsy, not at all.  When the method is [get], every such request has the
    payload in its query and no body. *)
Theorem C7_json_payload_in_query_iff :
  forall JSON_parse JSON_stringify form_getHeaders OK_STATUS_CODES server this
         fuel endpoint method data amount w,
    let query_driven :=
      method = m_get
      \/ includes "/bans" endpoint = true
      \/ includes "/prune" endpoint = true in
    exists new,
      sent (snd (request JSON_parse JSON_stringify form_getHeaders OK_STATUS_CODES
                   server this fuel endpoint method "json" data amount w))
      = sent w ++ new
      /\ Forall (fun wire =>
                   (is_query (w_payload wire) = true <-> query_driven)
                   /\ (has_body (w_payload wire) = true -> ~ query_driven)
                   /\ exists p,
                        carried data p
                        /\ (query_driven -> w_payload wire = Query p)
                        /\ (~ query_driven ->
                            (w_payload wire = BodyJson p /\ is_object_type p = true)
                            \/ (w_payload wire = BodyRaw p /\ is_object_type p = false)
                            \/ (w_payload wire = NoPayload /\ truthy p = false))) new
      /\ (method = m_get ->
          Forall (fun wire => has_body (w_payload wire) = false
                              /\ exists p, carried data p /\ w_payload wire = Query p) new).
Proof.
  intros.
  pose proof (useParams_of_spec method endpoint) as Hspec. fold query_driven in Hspec.
  destruct (request_json_sent JSON_parse JSON_stringify form_getHeaders OK_STATUS_CODES
              server this endpoint method fuel data amount w) as (new & Hsent & Hall).
  exists new. split; [exact Hsent|]. split.
  - eapply Forall_impl; [exact Hall|].
    intros wire (p & Hp & Hw).
    destruct (useParams_of method endpoint).
    + assert (Hqd : query_driven) by now apply Hspec.
      rewrite Hw. cbn [is_query has_body].
      split; [tauto|]. split; [discriminate|].
      exists p. split; [exact Hp|]. split; [reflexivity|]. intros H. contradiction.
    + assert (Hnq : ~ query_driven) by (intros H; apply Hspec in H; discriminate).
      assert (Hq : is_query (w_payload wire) = false).
      { destruct Hw as [[-> _] | [[-> _] | [-> _]]]; reflexivity. }
      rewrite Hq. split; [split; [discriminate|contradiction]|]. split; [auto|].
      exists p. split; [exact Hp|]. split; [contradiction|]. intros _. exact Hw.
  - intros ->. eapply Forall_impl; [exact Hall|].
    intros wire (p & Hp & Hw). cbn in Hw. rewrite Hw. split; [reflexivity|eauto].
Qed.

Lemma C7_witness :
  let sent_by endpoint method :=
    sent (snd (request Stub.parse Stub.stringify Stub.form_headers Stub.OK_STATUS_CODES
                 (Stub.always (Stub.reply 200 "{}")) Stub.handler
                 1 endpoint method "json" (JObject [("days", JNumber 7)]) 0 Stub.world0)) in
  (sent_by "/guilds/1/prune" m_post <> []
   /\ Forall (fun wire => w_payload wire = Query (JObject [("days", JNumber 7)]))
        (sent_by "/guilds/1/prune" m_post))
  /\ (sent_by "/guilds/1" m_get <> []
      /\ Forall (fun wire => has_body (w_payload wire) = false
                             /\ w_payload wire = Query (JObject [("days", JNumber 7)]))
           (sent_by "/guilds/1" m_get))
  /\ (sent_by "/guilds/1" m_patch <> []
      /\ Forall (fun wire => w_payload wire = BodyJson (JObject [("days", JNumber 7)]))
           (sent_by "/guilds/1" m_patch)).
Proof.
  intros sent_by.
  assert (Hsame : forall p, carried (JObject [("days", JNumber 7)]) p ->
                            p = JObject [("days", JNumber 7)]).
  { intros p [-> | ->]; reflexivity. }
  split; [|split].
  - destruct (C7_json_payload_in_query_iff
                Stub.parse Stub.stringify Stub.form_headers Stub.OK_STATUS_CODES
                (Stub.always (Stub.reply 200 "{}")) Stub.handler
                1 "/guilds/1/prune" m_post (JObject [("days", JNumber 7)]) 0%Z Stub.world0)
      as (new & Hsent & Hall & _).
    split; [discriminate|].
    change (sent_by "/guilds/1/prune" m_post) with ([] ++ sent_by "/guilds/1/prune" m_post).
    unfold sent_by. rewrite Hsent. cbn [app sent Stub.world0].
    eapply Forall_impl; [exact Hall|].
    intros wire (_ & _ & p & Hp & Hq & _).
    rewrite (Hq (or_intror (or_intror eq_refl))). now rewrite (Hsame p Hp).
  - destruct (C7_json_payload_in_query_iff
                Stub.parse Stub.stringify Stub.form_headers Stub.OK_STATUS_CODES
                (Stub.always (Stub.reply 200 "{}")) Stub.handler
                1 "/guilds/1" m_get (JObject [("days", JNumber 7)]) 0%Z Stub.world0)
      as (new & Hsent & _ & Hget).
    split; [discriminate|].
    unfold sent_by. rewrite Hsent. cbn [app sent Stub.world0].
    eapply Forall_impl; [exact (Hget eq_refl)|].
    intros wire (Hb & p & Hp & Hq). rewrite Hq in *. now rewrite (Hsame p Hp).
  - destruct (C7_json_payload_in_query_iff
                Stub.parse Stub.stringify Stub.form_headers Stub.OK_STATUS_CODES
                (Stub.always (Stub.reply 200 "{}")) Stub.handler
                1 "/guilds/1" m_patch (JObject [("days", JNumber 7)]) 0%Z Stub.world0)
      as (new & Hsent & Hall & _).
    split; [discriminate|].
    unfold sent_by. rewrite Hsent. cbn [app sent Stub.world0].
    eapply Forall_impl; [exact Hall|].
    intros wire (_ & _ & p & Hp & _ & Hb).
    assert (Hnq : ~ (m_patch = m_get \/ includes "/bans" "/guilds/1" = true
                     \/ includes "/prune" "/guilds/1" = true)).
    { intros [H | [H | H]]; discriminate. }
    rewrite (Hsame p Hp) in Hb.
    destruct (Hb Hnq) as [[H _] | [[_ H] | [_ H]]]; [exact H|discriminate|discriminate].
Defined.

(** *** C1 and C2: what happens on a 429 or 502 *)

Lemma coerce_data_not_null (data : JsVal) :
  data <> JNull -> nullish (coerce_data data) = false.
Proof. destruct data; simpl; congruence. Qed.

(** Below the cap, with a payload that is not nullish and a server that
    answers, the JSON sender sends one request and returns the answer; the
    payload it leaves is no number and not nullish. *)
Lemma _request_replied server this endpoint method data useParams amount w resp :
  (amount < 3)%Z ->
  nullish data = false ->
  typeof data <> t_number ->
  (forall log, server log = Replied resp) ->
  exists data' wire,
    _request server this endpoint method data useParams amount w
    = (Normal resp, data', {| sent := sent w ++ [wire]; events := events w |})
    /\ nullish data' = false /\ typeof data' <> t_number.
Proof.
  intros Hlt Hnn Hnum Hserver. unfold _request.
  destruct (3 <=? amount)%Z eqn:Hcap; [apply Z.leb_le in Hcap; lia|].
  assert (Hr : exists reason,
             (if negb (is_string data) then get data "reason" else Normal (JBool false))
             = Normal reason).
  { destruct data; simpl in *; try congruence; eauto. }
  destruct Hr as [reason ->].
  unfold send. rewrite Hserver. cbn [sent events].
  eexists _, _. split; [reflexivity|].
  destruct (truthy reason); [|auto].
  destruct data; simpl in *; auto.
Qed.

(** C1 fails on the code.  Against a server that answers every request
    with the same 429 or 502, a JSON dispatch that starts below the attempt
    cap keeps sending: after [fuel] runs of the executor it has sent [fuel]
    requests over the network and is still running, for every [fuel].  The
    attempt counter that reaches the sender is the one of the first call
    each time, so the cap of three is never met and no fourth attempt fails
    locally. *)
Theorem C1_retry_never_reaches_the_cap :
  forall JSON_parse JSON_stringify form_getHeaders OK_STATUS_CODES server this
         resp endpoint method amount,
    recoverable (statusCode resp) = true ->
    (forall log, server log = Replied resp) ->
    (amount < 3)%Z ->
    forall fuel data w,
      data <> JNull ->
      let result := request JSON_parse JSON_stringify form_getHeaders OK_STATUS_CODES
                      server this fuel endpoint method "json" data amount w in
      fst (fst result) = Running
      /\ length (sent (snd result)) = length (sent w) + fuel.
Proof.
  intros until amount. intros Hrec Hserver Hlt.
  induction fuel as [|fuel IH]; intros data w Hd result; subst result.
  { cbn. split; [reflexivity|lia]. }
  pose proof (coerce_data_not_null data Hd) as Hnn.
  assert (Hnum : typeof (coerce_data data) <> t_number) by (destruct data; simpl; congruence).
  destruct (_request_replied server this endpoint method (coerce_data data)
              (useParams_of method endpoint) amount
              (emit (ev_request endpoint method "json" (coerce_data data)) w)
              resp Hlt Hnn Hnum Hserver) as (data' & wire & Hs & Hnn' & Hnum').
  rewrite (request_recoverable JSON_parse JSON_stringify form_getHeaders OK_STATUS_CODES
             server this fuel endpoint method "json" data amount w resp data' _ Hs Hrec).
  assert (Hd' : data' <> JNull) by (intros ->; discriminate).
  specialize (IH data' {| sent := sent (emit (ev_request endpoint method "json" (coerce_data data)) w) ++ [wire];
                          events := events (emit (ev_request endpoint method "json" (coerce_data data)) w) |} Hd').
  cbn zeta in IH. destruct IH as [Hout Hlen].
  destruct (request _ _ _ _ _ _ _ _ _ _ _ _ _) as [[inner d] w2].
  cbn [fst snd] in *. subst inner. split; [reflexivity|].
  rewrite Hlen. cbn [sent emit]. rewrite length_app. simpl. lia.
Qed.

Lemma C1_witness :
  let result := request Stub.parse Stub.stringify Stub.form_headers Stub.OK_STATUS_CODES
                  (Stub.always (Stub.reply 429 "{}")) Stub.handler
                  4 "/channels/1/messages" m_post "json"
                  (JObject [("content", JString "hi")]) 0 Stub.world0 in
  fst (fst result) = Running /\ length (sent (snd result)) = 4.
Proof.
  apply (C1_retry_never_reaches_the_cap
           Stub.parse Stub.stringify Stub.form_headers Stub.OK_STATUS_CODES
           (Stub.always (Stub.reply 429 "{}")) Stub.handler
           {| statusCode := 429; content_type := Some "application/json";
              body := Some "{}" |}
           "/channels/1/messages" m_post 0%Z
           eq_refl (fun _ => eq_refl) ltac:(lia)
           4 (JObject [("content", JString "hi")]) Stub.world0 ltac:(discriminate)).
Defined.

(** C2 fails on the code.  When the response to a dispatch has status 429
    or 502, the executor returns the promise of a second call of [request]
    (made with the same attempt counter) without calling [res] or [rej]:
    whatever becomes of the second call, the promise of the first is left
    pending, never fulfilled and never rejected. *)
Theorem C2_recoverable_status_leaves_promise_pending :
  forall JSON_parse JSON_stringify form_getHeaders OK_STATUS_CODES server this
         fuel endpoint method dataType data amount w resp data' w',
    send_by_kind JSON_stringify form_getHeaders server this
      endpoint method dataType (coerce_data data) amount
      (emit (ev_request endpoint method dataType (coerce_data data)) w)
    = (Normal resp, data', w') ->
    statusCode resp = 429%Z \/ statusCode resp = 502%Z ->
    let outcome :=
      fst (fst (request JSON_parse JSON_stringify form_getHeaders OK_STATUS_CODES
                  server this (S fuel) endpoint method dataType data amount w)) in
    outcome
    = match fst (fst (request JSON_parse JSON_stringify form_getHeaders OK_STATUS_CODES
                        server this fuel endpoint method dataType data' amount w')) with
      | Running => Running
      | Finished _ => Finished Pending
      end
    /\ (forall v, outcome <> Finished (Fulfilled v))
    /\ (forall e, outcome <> Finished (Rejected e)).
Proof.
  intros until w'. intros Hs Hstatus outcome.
  assert (Hrec : recoverable (statusCode resp) = true).
  { unfold recoverable. destruct Hstatus as [-> | ->]; reflexivity. }
  subst outcome.
  rewrite (request_recoverable JSON_parse JSON_stringify form_getHeaders OK_STATUS_CODES
             server this fuel endpoint method dataType data amount w resp data' w' Hs Hrec).
  destruct (request _ _ _ _ _ _ _ _ _ _ _ _ _) as [[inner d] w2].
  cbn [fst]. destruct inner; repeat split; intros; discriminate.
Qed.

(** The failing input of C2: the first answer is a 429 and the second a 200
    with the body [{}].  The second call completes (the [done] event is
    there), and the promise of the first call stays pending. *)
Lemma C2_witness :
  let result := request Stub.parse Stub.stringify Stub.form_headers Stub.OK_STATUS_CODES
                  (Stub.script [Stub.reply 429 "{}"] (Stub.reply 200 "{}")) Stub.handler
                  2 "/gateway" m_get "json" (JObject []) 0 Stub.world0 in
  fst (fst result) = Finished Pending
  /\ length (sent (snd result)) = 2
  /\ last (events (snd result))
     = Some (ev_done {| statusCode := 200; content_type := Some "application/json";
                        body := Some "{}" |}).
Proof.
  split; [|split; reflexivity].
  refine (proj1 (C2_recoverable_status_leaves_promise_pending
                   Stub.parse Stub.stringify Stub.form_headers Stub.OK_STATUS_CODES
                   (Stub.script [Stub.reply 429 "{}"] (Stub.reply 200 "{}")) Stub.handler
                   1 "/gateway" m_get "json" (JObject []) 0%Z Stub.world0
                   {| statusCode := 429; content_type := Some "application/json";
                      body := Some "{}" |}
                   (JObject []) _ eq_refl (or_introl eq_refl))).
Defined.

Import DiscordAPIError FlattenSpec.

(** *** C6: flattening a validation error *)

(** Structural induction on values, through arrays and property lists. *)
Lemma JsVal_nested_ind (P : JsVal -> Prop) :
  P JUndefined -> P JNull -> (forall b, P (JBool b)) -> (forall n, P (JNumber n)) ->
  (forall s, P (JString s)) -> (forall b, P (JBuffer b)) ->
  (forall items, Forall P items -> P (JArray items)) ->
  (forall props, Forall (fun kv => P (snd kv)) props -> P (JObject props)) ->
  forall v, P v.
Proof.
  intros Hu Hn Hb Hnum Hs Hbuf Harr Hobj.
  exact (fix F (v : JsVal) : P v :=
           match v with
           | JUndefined => Hu
           | JNull => Hn
           | JBool b => Hb b
           | JNumber n => Hnum n
           | JString s => Hs s
           | JBuffer b => Hbuf b
           | JArray items =>
               Harr items
                 ((fix G (l : list JsVal) : Forall P l :=
                     match l with
                     | [] => List.Forall_nil P
                     | x :: r => List.Forall_cons P x r (F x) (G r)
                     end) items)
           | JObject props =>
               Hobj props
                 ((fix G (l : list (string * JsVal)) : Forall (fun kv => P (snd kv)) l :=
                     match l with
                     | [] => List.Forall_nil _
                     | kv :: r => List.Forall_cons _ kv r (F (snd kv)) (G r)
                     end) props)
           end).
Qed.

Lemma string_of_nat_not_message (i : nat) : (string_of_nat i =? "message") = false.
Proof.
  unfold string_of_nat, string_of_Z.
  destruct (Z.to_int (Z.of_nat i)) as [d|d]; [|reflexivity].
  destruct d; reflexivity.
Qed.

Lemma map_message_spec (es : list JsVal) (ms : list JsVal) :
  map_message es = Normal ms
  <-> Forall (fun e => nullish e = false) es /\ ms = map (fun e => prop e "message") es.
Proof.
  revert ms. induction es as [|e rest IH]; intros ms; simpl.
  - split; [intros [= <-]; auto | intros [_ ->]; reflexivity].
  - split.
    + destruct (nullish e) eqn:Hn; [destruct e; discriminate|].
      rewrite (get_not_nullish e "message" Hn). simpl.
      destruct (map_message rest) as [ms'|err]; simpl; [|discriminate].
      intros [= <-]. destruct (proj1 (IH ms') eq_refl) as [Hall ->]. auto.
    + intros [Hall ->]. inversion Hall as [|? ? Hn Hrest]; subst.
      rewrite (get_not_nullish e "message" Hn). simpl.
      rewrite (proj2 (IH _) (conj Hrest eq_refl)). reflexivity.
Qed.

Lemma errors_text_spec (errs : JsVal) (text : string) :
  errors_text errs = Normal text <-> ErrorsText errs text.
Proof.
  split.
  - destruct errs; simpl; try discriminate.
    + intros [= <-]. constructor.
    + destruct (map_message items) as [ms|err] eqn:Hm; simpl; [|discriminate].
      intros [= <-]. apply map_message_spec in Hm. destruct Hm as [Hall ->].
      rewrite map_map. now constructor.
  - intros H. destruct H as [es Hall|b]; simpl; [|reflexivity].
    rewrite (proj2 (map_message_spec es _) (conj Hall eq_refl)). simpl.
    now rewrite map_map.
Qed.

Section LoopFacts.
Variable R : JsVal -> string -> Completion (list string).
Variable key : string.

Lemma newKey_of_path (k : string) : newKey_of key k = path key k.
Proof. unfold newKey_of, path. now destruct (key =? ""). Qed.

(** The entry appends its lines to the array built so far. *)
Lemma flattenEntry_acc (k : string) (v : JsVal) (acc : list string) :
  flattenEntry R key k v acc
  = let! l := flattenEntry R key k v [] in Normal (acc ++ l).
Proof.
  unfold flattenEntry.
  destruct (get v "_errors") as [errs|e]; simpl; [|reflexivity].
  destruct (truthy errs).
  { destruct (errors_text errs); reflexivity. }
  destruct (get v "code") as [code|e]; simpl; [|reflexivity].
  destruct (get v "message") as [message|e]; simpl; [|reflexivity].
  destruct (truthy code || truthy message); [reflexivity|].
  destruct v; try reflexivity;
    match goal with |- context [R ?a ?b] => destruct (R a b); reflexivity end.
Qed.

Lemma flattenProps_acc (es : list (string * JsVal)) :
  forall acc,
    flattenProps R key es acc
    = let! ms := flattenProps R key es [] in Normal (acc ++ ms).
Proof.
  induction es as [|[k v] rest IH]; intros acc; simpl.
  - now rewrite app_nil_r.
  - destruct (k =? "message"); [apply IH|].
    rewrite (flattenEntry_acc k v acc).
    destruct (flattenEntry R key k v []) as [l|e]; simpl; [|reflexivity].
    rewrite (IH (acc ++ l)), (IH l).
    destruct (flattenProps R key rest []) as [ms|e]; simpl; [|reflexivity].
    now rewrite app_assoc.
Qed.

(** The loop over an array is the loop over its entries. *)
Lemma flattenItems_entries (items : list JsVal) :
  forall i acc,
    flattenItems R key i items acc = flattenProps R key (indexed_from i items) acc.
Proof.
  induction items as [|v rest IH]; intros i acc; simpl; [reflexivity|].
  rewrite string_of_nat_not_message.
  destruct (flattenEntry R key (string_of_nat i) v acc); simpl; [apply IH|reflexivity].
Qed.

(** What one entry contributes, case by case. *)
Lemma flattenEntry_cases (k : string) (v : JsVal) (l : list string) :
  flattenEntry R key k v [] = Normal l
  <-> nullish v = false
      /\ ((truthy (prop v "_errors") = true
           /\ exists text, ErrorsText (prop v "_errors") text
                           /\ l = [path key k +:+ ": " +:+ text])
          \/ (truthy (prop v "_errors") = false
              /\ truthy (prop v "code") || truthy (prop v "message") = true
              /\ l = [code_message_line v])
          \/ (truthy (prop v "_errors") = false
              /\ truthy (prop v "code") || truthy (prop v "message") = false
              /\ exists s, v = JString s /\ l = [s])
          \/ (truthy (prop v "_errors") = false
              /\ truthy (prop v "code") || truthy (prop v "message") = false
              /\ is_string v = false
              /\ R v (path key k) = Normal l)).
Proof.
  unfold flattenEntry. rewrite newKey_of_path.
  destruct (nullish v) eqn:Hn.
  { split; [destruct v; discriminate | intros [? _]; discriminate]. }
  rewrite !(get_not_nullish v _ Hn). cbn [bind].
  destruct (truthy (prop v "_errors")) eqn:He.
  { split.
    - destruct (errors_text _) as [text|e] eqn:Ht; simpl; [|discriminate].
      intros [= <-]. apply errors_text_spec in Ht. split; [reflexivity|]. left. eauto.
    - intros [_ [(_ & text & Ht & ->) | [(? & _) | [(? & _) | (? & _)]]]]; try discriminate.
      apply errors_text_spec in Ht. rewrite Ht. reflexivity. }
  destruct (truthy (prop v "code") || truthy (prop v "message")) eqn:Hc.
  { split.
    - intros [= <-]. split; [reflexivity|]. right. left. auto.
    - intros [_ [(? & _) | [(_ & _ & ->) | [(_ & ? & _) | (_ & ? & _)]]]];
        try discriminate. reflexivity. }
  destruct (is_string v) eqn:Hs.
  { destruct v; try discriminate. split.
    - intros [= <-]. split; [reflexivity|]. right. right. left. eauto.
    - intros [_ [(? & _) | [(_ & ? & _) | [(_ & _ & s' & [= ->] & ->) | (_ & _ & ? & _)]]]];
        try discriminate. reflexivity. }
  assert (Hrec : (match v with
                  | JString s => Normal ([] ++ [s])
                  | _ => let! sub := R v (path key k) in Normal ([] ++ sub)
                  end) = R v (path key k)).
  { destruct v; try discriminate; destruct (R _ _); reflexivity. }
  rewrite Hrec. split.
  - intros HR. split; [reflexivity|]. right. right. right. auto.
  - intros [_ [(? & _) | [(_ & ? & _) | [(_ & _ & s & -> & _) | (_ & _ & _ & HR)]]]];
      try discriminate. exact HR.
Qed.
End LoopFacts.

(** The two loops agree when the function for the nested values differs on
    strings only: the loop never descends into a string. *)
Lemma flattenProps_ext R1 R2 (key : string) (es : list (string * JsVal)) :
  Forall (fun kv => is_string (snd kv) = true
                    \/ forall key', R1 (snd kv) key' = R2 (snd kv) key') es ->
  forall acc, flattenProps R1 key es acc = flattenProps R2 key es acc.
Proof.
  induction 1 as [|[k v] rest Hkv _ IH]; intros acc; simpl; [reflexivity|].
  destruct (k =? "message"); [apply IH|].
  assert (He : flattenEntry R1 key k v acc = flattenEntry R2 key k v acc).
  { unfold flattenEntry.
    destruct (get v "_errors") as [errs|e]; simpl; [|reflexivity].
    destruct (truthy errs); [reflexivity|].
    destruct (get v "code") as [code|e]; simpl; [|reflexivity].
    destruct (get v "message") as [message|e]; simpl; [|reflexivity].
    destruct (truthy code || truthy message); [reflexivity|].
    simpl in Hkv. destruct Hkv as [Hs|Hr]; [destruct v; try discriminate; reflexivity|].
    destruct v; try reflexivity; now rewrite Hr. }
  rewrite He. destruct (flattenEntry R2 key k v acc); simpl; [apply IH|reflexivity].
Qed.

Lemma indexed_from_values {A} (P : A -> Prop) (l : list A) :
  forall i, Forall P l -> Forall (fun kv => P (snd kv)) (indexed_from i l).
Proof.
  induction l as [|x rest IH]; intros i Hall; simpl; [constructor|].
  inversion Hall; subst. constructor; auto.
Qed.

(** [flattenErrors] is the loop over [Object.entries(obj)]. *)
Lemma flattenErrors_entries (obj : JsVal) (key : string) :
  flattenErrors obj key
  = let! es := entries obj in flattenProps flattenErrors key es [].
Proof.
  destruct obj; try reflexivity; cbn [flattenErrors entries bind].
  - rewrite flattenItems_entries. apply flattenProps_ext.
    apply (indexed_from_values
             (fun v => is_string v = true \/ forall key', Normal [] = flattenErrors v key')).
    apply Forall_map. apply Forall_forall. intros x _. left. reflexivity.
  - rewrite flattenItems_entries. apply flattenProps_ext.
    apply (indexed_from_values
             (fun v => is_string v = true \/ forall key', Normal [] = flattenErrors v key')).
    apply Forall_map. apply Forall_forall. intros x _. right. reflexivity.
  - apply flattenItems_entries.
Qed.

(** The loop yields the lines of the description, given that the nested
    values it descends into do. *)
Lemma flattenProps_sound (es : list (string * JsVal)) :
  Forall (fun kv => is_string (snd kv) = false ->
                    forall key ms es',
                      flattenErrors (snd kv) key = Normal ms ->
                      entries (snd kv) = Normal es' -> Lines key es' ms) es ->
  forall key ms, flattenProps flattenErrors key es [] = Normal ms -> Lines key es ms.
Proof.
  induction 1 as [|[k v] rest Hv _ IH]; intros key ms; simpl.
  - intros [= <-]. constructor.
  - destruct (k =? "message") eqn:Hk.
    { apply String.eqb_eq in Hk. subst k. intros Hrest. constructor. now apply IH. }
    apply String.eqb_neq in Hk.
    destruct (flattenEntry flattenErrors key k v []) as [l|e] eqn:Hl; simpl; [|discriminate].
    rewrite flattenProps_acc.
    destruct (flattenProps flattenErrors key rest []) as [ls|e] eqn:Hls; simpl; [|discriminate].
    intros [= <-]. specialize (IH key ls Hls).
    apply flattenEntry_cases in Hl. destruct Hl as [Hn Hcases].
    destruct Hcases as [(He & text & Ht & ->)
                       | [(He & Hc & ->)
                         | [(He & Hc & s & -> & ->)
                           | (He & Hc & Hs & HR)]]]; simpl.
    + now apply L_errors.
    + now apply L_code_message.
    + now apply L_string.
    + destruct (entries v) as [es'|e] eqn:Hes.
      * eapply L_recurse; eauto.
      * destruct v; discriminate.
Qed.

Lemma flattenErrors_sound (obj : JsVal) :
  forall key ms es,
    flattenErrors obj key = Normal ms -> entries obj = Normal es -> Lines key es ms.
Proof.
  induction obj as [| | | | | |items IH|props IH] using JsVal_nested_ind;
    intros key ms es Hf He; rewrite flattenErrors_entries, He in Hf; cbn [bind] in Hf;
    try discriminate; cbn [entries] in He; injection He as <-.
  - injection Hf as <-. constructor.
  - injection Hf as <-. constructor.
  - revert Hf. apply flattenProps_sound.
    apply (indexed_from_values
             (fun v => is_string v = false ->
                       forall key ms es', flattenErrors v key = Normal ms ->
                                          entries v = Normal es' -> Lines key es' ms)).
    apply Forall_map. apply Forall_forall. intros x _ Hs. discriminate.
  - revert Hf. apply flattenProps_sound.
    apply (indexed_from_values
             (fun v => is_string v = false ->
                       forall key ms es', flattenErrors v key = Normal ms ->
                                          entries v = Normal es' -> Lines key es' ms)).
    apply Forall_map. apply Forall_forall. intros x _ _ key' ms' es' Hf' He'.
    injection He' as <-. injection Hf' as <-. constructor.
  - revert Hf. apply flattenProps_sound.
    apply (indexed_from_values
             (fun v => is_string v = false ->
                       forall key ms es', flattenErrors v key = Normal ms ->
                                          entries v = Normal es' -> Lines key es' ms)).
    eapply Forall_impl; [exact IH|]. auto.
  - revert Hf. apply flattenProps_sound.
    eapply Forall_impl; [exact IH|]. auto.
Qed.

(** The lines of the description are what the loop yields. *)
Lemma flattenProps_complete (key : string) (es : list (string * JsVal)) (ms : list string) :
  Lines key es ms -> flattenProps flattenErrors key es [] = Normal ms.
Proof.
  induction 1 as [parent
                 |parent v rest ls _ IH
                 |parent k v text rest ls Hk Hn He Ht _ IH
                 |parent k v rest ls Hk Hn He Hc _ IH
                 |parent k s rest ls Hk _ IH
                 |parent k v es sub rest ls Hk Hn Hs He Hc Hes _ IHsub _ IH];
    cbn [flattenProps]; try reflexivity; try exact IH;
    apply String.eqb_neq in Hk; rewrite Hk.
  - rewrite (proj2 (flattenEntry_cases flattenErrors parent k v _)
               (conj Hn (or_introl (conj He (ex_intro _ text (conj Ht eq_refl)))))).
    cbn [bind]. rewrite flattenProps_acc, IH. reflexivity.
  - rewrite (proj2 (flattenEntry_cases flattenErrors parent k v _)
               (conj Hn (or_intror (or_introl (conj He (conj Hc eq_refl)))))).
    cbn [bind]. rewrite flattenProps_acc, IH. reflexivity.
  - rewrite (proj2 (flattenEntry_cases flattenErrors parent k (JString s) [s])
               (conj eq_refl (or_intror (or_intror (or_introl
                  (conj eq_refl (conj eq_refl (ex_intro _ s (conj eq_refl eq_refl))))))))).
    cbn [bind]. rewrite flattenProps_acc, IH. reflexivity.
  - assert (HR : flattenErrors v (path parent k) = Normal sub).
    { rewrite flattenErrors_entries, Hes. exact IHsub. }
    rewrite (proj2 (flattenEntry_cases flattenErrors parent k v sub)
               (conj Hn (or_intror (or_intror (or_intror
                  (conj He (conj Hc (conj Hs HR)))))))).
    cbn [bind]. rewrite flattenProps_acc, IH. reflexivity.
Qed.

(** C6 does not hold as stated.  The line of a nested object carrying
    [code] or [message] is trimmed, and its code is left out whenever it is
    falsy, not only when it is absent: a message ending in a space loses
    it, and the code 0 is not rendered. *)
Lemma C6_counterexample :
  let padded := JObject [("message", JString "Too long ")] in
  let zero := JObject [("code", JNumber 0); ("message", JString "General error")] in
  flattenErrors (JObject [("content", padded)]) ""
    <> Normal [code_message_line_as_stated padded]
  /\ flattenErrors (JObject [("content", padded)]) "" = Normal ["Too long"]
  /\ flattenErrors (JObject [("content", zero)]) ""
    <> Normal [code_message_line_as_stated zero]
  /\ flattenErrors (JObject [("content", zero)]) "" = Normal ["General error"].
Proof. repeat split; (discriminate || reflexivity). Qed.

(** C6, amended.  On a value as [JSON.parse] yields it for ASCII text
    (ASCII strings and keys, integers that a double holds exactly, no own
    property named "toString") and under an ASCII key, [flattenErrors]
    walks the entries of the value and returns exactly the lines of
    [Lines]: an entry named "message" is skipped; a value with a truthy
    [_errors] gives the key path (numeric key as [parent[index]], other key
    as [parent.key]), ": " and the messages of the entries of [_errors]
    joined with spaces; else a value with a truthy [code] or [message]
    gives "<code>: <message>", trimmed, the code left out when falsy; else
    a string is taken as it is; else the lines of the value itself, under
    its key path.  Where [Lines] has no lines ([null] or [undefined] met as
    a value, an [_errors] that is no array) [flattenErrors] throws.  The
    message of the normalized error is [error.message] and these lines
    joined by new lines: both with a new line between when both are there,
    whichever is there otherwise. *)
Theorem C6_flattenErrors_refines_description :
  forall (obj : JsVal) (key : string) (ms : list string) (error m : JsVal),
    (plain obj = true ->
     ascii_text key = true ->
     (flattenErrors obj key = Normal ms
      <-> exists es, entries obj = Normal es /\ Lines key es ms))
    /\ (plain error = true ->
        (message_of error = Normal m
         <-> nullish error = false
             /\ exists es lines,
                  entries (or_else (prop error "errors") error) = Normal es
                  /\ Lines "" es lines
                  /\ m = message_from error lines)).
Proof.
  intros obj key ms error m.
  assert (Hflat : forall obj key ms,
            flattenErrors obj key = Normal ms
            <-> exists es, entries obj = Normal es /\ Lines key es ms).
  { clear. intros obj key ms. split.
    - intros Hf. destruct (entries obj) as [es|e] eqn:He.
      + exists es. split; [reflexivity|]. eapply flattenErrors_sound; eauto.
      + rewrite flattenErrors_entries, He in Hf. discriminate.
    - intros (es & He & Hl). rewrite flattenErrors_entries, He. cbn [bind].
      now apply flattenProps_complete. }
  split; [intros _ _; apply Hflat|]. intros _.
  unfold message_of.
  destruct (nullish error) eqn:Hn.
  { split; [destruct error; discriminate | intros [? _]; discriminate]. }
  rewrite !(get_not_nullish error _ Hn). cbn [bind].
  assert (Hmsg : forall lines,
            (if truthy (prop error "message") && negb (join newline lines =? "")
             then JString (toStr (prop error "message") +:+ newline
                           +:+ join newline lines)
             else or_else (prop error "message") (JString (join newline lines)))
            = message_from error lines).
  { intros lines. unfold message_from, or_else.
    destruct (truthy (prop error "message"));
      destruct (join _ lines =? ""); reflexivity. }
  split.
  - destruct (flattenErrors _ "") as [lines|e] eqn:Hf; cbn [bind]; [|discriminate].
    intros [= <-]. split; [reflexivity|].
    apply Hflat in Hf. destruct Hf as (es & He & Hl).
    exists es, lines. rewrite Hmsg. auto.
  - intros (_ & es & lines & He & Hl & ->).
    rewrite (proj2 (Hflat _ "" lines) (ex_intro _ es (conj He Hl))). cbn [bind].
    now rewrite Hmsg.
Qed.

Lemma C6_witness :
  let error :=
    JObject [("message", JString "Invalid Form Body");
             ("code", JNumber 50035);
             ("errors",
              JObject [("embeds", JArray [JObject [("name",
                          JObject [("_errors",
                             JArray [JObject [("code", JString "BASE_TYPE_REQUIRED");
                                              ("message", JString "Required")];
                                     JObject [("message", JString "Too short")]])])]]);
                       ("message", JString "skipped");
                       ("nick", JObject [("code", JNumber 50035);
                                         ("message", JString " Bad ")]);
                       ("note", JString "plain")])] in
  let lines := ["embeds[0].name: Required Too short"; "50035:  Bad"; "plain"] in
  (exists es, entries (prop error "errors") = Normal es /\ Lines "" es lines)
  /\ nullish error = false
  /\ exists es lines',
       entries (or_else (prop error "errors") error) = Normal es
       /\ Lines "" es lines'
       /\ JString ("Invalid Form Body" +:+ newline +:+ join newline lines)
          = message_from error lines'.
Proof.
  intros error lines. split.
  - apply (proj1 (proj1 (C6_flattenErrors_refines_description
                           (prop error "errors") "" lines error JNull)
                    eq_refl eq_refl)).
    reflexivity.
  - apply (proj1 (proj2 (C6_flattenErrors_refines_description
                           JNull ""  []  error
                           (JString ("Invalid Form Body" +:+ newline +:+ join newline lines)))
                    eq_refl)).
    reflexivity.
Defined.

(** *** Scenarios *)

(** A JSON dispatch with a reason: the header carries it and the body does
    not. *)
Example scenario_reason_header :
  let '(outcome, data', w') :=
    request Stub.parse Stub.stringify Stub.form_headers Stub.OK_STATUS_CODES
      (Stub.always (Stub.reply 200 "{}")) Stub.handler
      1 "/channels/1/messages" m_post "json"
      (JObject [("reason", JString "spam"); ("content", JString "hi")]) 0 Stub.world0 in
  outcome = Finished (Fulfilled (JObject []))
  /\ map (fun wire => (w_headers wire !! "X-Audit-Log-Reason", w_payload wire)) (sent w')
     = [(Some "spam", BodyJson (JObject [("content", JString "hi")]))].
Proof. vm_compute. auto. Qed.

(** The retry after a 429 sends the payload as the first send left it: the
    reason is gone from the object, and so is the header. *)
Example scenario_retry_sends_mutated_payload :
  let '(_, _, w') :=
    request Stub.parse Stub.stringify Stub.form_headers Stub.OK_STATUS_CODES
      (Stub.script [Stub.reply 429 "{}"] (Stub.reply 200 "{}")) Stub.handler
      2 "/channels/1/messages" m_post "json"
      (JObject [("reason", JString "spam"); ("content", JString "hi")]) 0 Stub.world0 in
  map (fun wire => (w_headers wire !! "X-Audit-Log-Reason", w_payload wire)) (sent w')
  = [(Some "spam", BodyJson (JObject [("content", JString "hi")]));
     (None, BodyJson (JObject [("content", JString "hi")]))].
Proof. vm_compute. auto. Qed.

(** A terminal failure with a text body: the call is rejected with a
    [DiscordAPIError] whose message is the flattening of the text. *)
Example scenario_text_error :
  fst (fst (request Stub.parse Stub.stringify Stub.form_headers Stub.OK_STATUS_CODES
              (Stub.always (Replied {| statusCode := 403;
                                       content_type := Some "text/plain";
                                       body := Some "No" |}))
              Stub.handler 1 "/gateway" m_get "json" JUndefined 0 Stub.world0))
  = Finished (Rejected (DiscordAPIError "/gateway"
                          (JString ("N" +:+ newline +:+ "o")) m_get JUndefined 403)).
Proof. reflexivity. Qed.

Import Shapes.

(** ** Further properties of the dispatcher *)

(** *** The trace of one sender call *)

(** A sender sends at most one request, to the URL of the handler and with
    the method and path it was given, and emits no event. *)
Lemma send_by_kind_world JSON_stringify form_getHeaders server this
    endpoint method dataType data amount w :
  let result := send_by_kind JSON_stringify form_getHeaders server this
                  endpoint method dataType data amount w in
  events (snd result) = events w
  /\ exists new,
       sent (snd result) = sent w ++ new
       /\ (length new <= 1)%nat
       /\ Forall (fun wire => w_url wire = apiURL this
                              /\ w_method wire = method
                              /\ w_path wire = endpoint) new.
Proof.
  intros result. subst result. unfold send_by_kind.
  assert (Hnone : forall (r : Completion Response) (d : JsVal),
            events (snd (r, d, w)) = events w
            /\ exists new, sent (snd (r, d, w)) = sent w ++ new
                 /\ (length new <= 1)%nat
                 /\ Forall (fun wire => w_url wire = apiURL this
                              /\ w_method wire = method
                              /\ w_path wire = endpoint) new).
  { intros r d. split; [reflexivity|]. exists []. cbn. rewrite app_nil_r. auto. }
  destruct (dataType =? "json").
  { unfold _request. destruct (3 <=? amount)%Z; [apply Hnone|].
    destruct (if negb (is_string data) then _ else _); [|apply Hnone].
    unfold send. cbn [snd sent events]. split; [reflexivity|].
    eexists [_]. split; [reflexivity|]. split; [simpl; lia|].
    constructor; [|constructor]. cbn. auto. }
  destruct (dataType =? "multipart"); [|apply Hnone].
  unfold _multiPartRequest. destruct (3 <=? amount)%Z; [apply Hnone|].
  match goal with |- context [match ?c with Normal _ => _ | Throw _ => _ end] =>
    destruct c as [[form data']|e1] end; [|apply Hnone].
  unfold send. cbn [snd sent events]. split; [reflexivity|].
  eexists [_]. split; [reflexivity|]. split; [simpl; lia|].
  constructor; [|constructor]. cbn. auto.
Qed.

Section Steps.
Variable JSON_parse : string -> option JsVal.
Variable JSON_stringify : JsVal -> string.
Variable form_getHeaders : list FormField -> gmap string string.
Variable OK_STATUS_CODES : list Z.
Variable server : list Wire -> Reply.
Variable this : Handler.

Let request' := request JSON_parse JSON_stringify form_getHeaders OK_STATUS_CODES server this.
Let send_by_kind' := send_by_kind JSON_stringify form_getHeaders server this.

(** One run of the executor, by the result of the sender and the status of
    the response. *)
Lemma request_step fuel endpoint method dataType data amount w :
  request' (S fuel) endpoint method dataType data amount w
  = let '(r, d1, w1) :=
      send_by_kind' endpoint method dataType (coerce_data data) amount
        (emit (ev_request endpoint method dataType (coerce_data data)) w) in
    match r with
    | Throw e => (Finished (Rejected e), d1, emit (ev_requestError e) w1)
    | Normal resp =>
        if terminal OK_STATUS_CODES resp then
          (Finished (Rejected (rejection JSON_parse endpoint method resp)), d1,
           emit (ev_requestError (rejection JSON_parse endpoint method resp)) w1)
        else if retried resp then
          let '(inner, d, w2) := request' fuel endpoint method dataType d1 amount w1 in
          (match inner with Running => Running | Finished _ => Finished Pending end, d, w2)
        else (Finished (Fulfilled (decoded JSON_parse resp)), d1, emit (ev_done resp) w1)
    end.
Proof.
  unfold request', send_by_kind', terminal, retried, rejection, decoded.
  cbn [request].
  destruct (send_by_kind _ _ _ _ _ _ _ _ _ _) as [[r d1] w1].
  destruct r as [resp|e]; [|reflexivity].
  cbn zeta.
  destruct (negb (statusCode resp =? 0)%Z && negb (includesZ OK_STATUS_CODES (statusCode resp))
            && negb (recoverable (statusCode resp))).
  { destruct (bind _ _); reflexivity. }
  destruct (negb (statusCode resp =? 0)%Z && recoverable (statusCode resp)); [reflexivity|].
  destruct (body resp) as [b|]; [destruct (JSON_parse b)|]; reflexivity.
Qed.
End Steps.

(** *** X1: where the requests of a dispatch go, and how many there are *)

(** For every data kind and every amount of fuel, a dispatch only adds to
    the two logs; every request it sends, retries included, goes to the
    URL of the handler with the method and the path of the call; it sends
    at most one request per run of the executor, and never more requests
    than it emitted [request] events. *)
Lemma request_trace :
  forall JSON_parse JSON_stringify form_getHeaders OK_STATUS_CODES server this
         fuel endpoint method dataType data amount w,
    let result := request JSON_parse JSON_stringify form_getHeaders OK_STATUS_CODES
                    server this fuel endpoint method dataType data amount w in
    exists new evs,
      sent (snd result) = sent w ++ new
      /\ events (snd result) = events w ++ evs
      /\ Forall (fun wire => w_url wire = apiURL this
                             /\ w_method wire = method
                             /\ w_path wire = endpoint) new
      /\ (length new <= length (List.filter is_request_event evs) <= fuel)%nat.
Proof.
  intros until fuel.
  induction fuel as [|fuel IH]; intros endpoint method dataType data amount w result;
    subst result.
  { exists [], []. cbn. rewrite !app_nil_r. repeat split; auto. }
  rewrite request_step.
  set (w0 := emit _ w).
  destruct (send_by_kind_world JSON_stringify form_getHeaders server this
              endpoint method dataType (coerce_data data) amount w0)
    as (Hev & new1 & Hsent & Hlen & Hall).
  destruct (send_by_kind _ _ _ _ _ _ _ _ _ _) as [[r d1] w1].
  cbn [snd] in Hev, Hsent.
  change (sent w0) with (sent w) in Hsent.
  change (events w0)
    with (events w ++ [ev_request endpoint method dataType (coerce_data data)]) in Hev.
  assert (Hdone : forall (o : Outcome) (x : Event),
            is_request_event x = false ->
            exists new evs,
              sent (snd (o, d1, emit x w1)) = sent w ++ new
              /\ events (snd (o, d1, emit x w1)) = events w ++ evs
              /\ Forall (fun wire => w_url wire = apiURL this
                                     /\ w_method wire = method
                                     /\ w_path wire = endpoint) new
              /\ (length new <= length (List.filter is_request_event evs) <= S fuel)%nat).
  { intros o x Hx.
    exists new1, [ev_request endpoint method dataType (coerce_data data); x].
    cbn [snd emit sent events]. rewrite Hev, <- app_assoc. cbn [app List.filter is_request_event].
    rewrite Hx. cbn [length]. repeat split; auto; lia. }
  destruct r as [resp|e]; [|now apply Hdone].
  destruct (terminal OK_STATUS_CODES resp); [now apply Hdone|].
  destruct (retried resp); [|now apply Hdone].
  destruct (IH endpoint method dataType d1 amount w1) as (new2 & evs2 & Hs2 & He2 & Hall2 & Hlen2).
  destruct (request _ _ _ _ _ _ fuel _ _ _ _ _ _) as [[inner d] w2].
  cbn [snd] in *.
  exists (new1 ++ new2), (ev_request endpoint method dataType (coerce_data data) :: evs2).
  rewrite Hs2, He2, Hsent, Hev, <- !app_assoc.
  cbn [app List.filter is_request_event length].
  repeat split; auto.
  - now apply Forall_app.
  - rewrite length_app. lia.
  - lia.
Qed.

(** X1.  For every data kind and every amount of fuel, a dispatch only adds
    to the two logs; every request it sends, retries included, goes to the
    URL of the handler with the method and the path of the call; it sends
    at most one request per run of the executor, and never more requests
    than it emitted [request] events. *)
Theorem X1_dispatch_requests_target_the_endpoint :
  forall JSON_parse JSON_stringify form_getHeaders OK_STATUS_CODES server this
         fuel endpoint method dataType data amount w,
    let result := request JSON_parse JSON_stringify form_getHeaders OK_STATUS_CODES
                    server this fuel endpoint method dataType data amount w in
    exists new evs,
      sent (snd result) = sent w ++ new
      /\ events (snd result) = events w ++ evs
      /\ Forall (fun wire => w_url wire = apiURL this
                             /\ w_method wire = method
                             /\ w_path wire = endpoint) new
      /\ (length new <= length (List.filter is_request_event evs) <= fuel)%nat.
Proof.
  intros. apply request_trace.
Qed.

(** *** X2: the events of a settled call *)

(** X2.  A call of [request] first emits its [request] event.  If its
    promise ends rejected with an error, the call emitted that event and
    then [requestError] with that very error, and nothing else; if it ends
    fulfilled with a value, the call emitted that event and then [done]
    with the response the value was decoded from, and nothing else. *)
Theorem X2_events_of_a_settled_call :
  forall JSON_parse JSON_stringify form_getHeaders OK_STATUS_CODES server this
         fuel endpoint method dataType data amount w,
    let result := request JSON_parse JSON_stringify form_getHeaders OK_STATUS_CODES
                    server this (S fuel) endpoint method dataType data amount w in
    let first := ev_request endpoint method dataType (coerce_data data) in
    (exists evs, events (snd result) = events w ++ first :: evs)
    /\ (forall e, fst (fst result) = Finished (Rejected e) ->
                  events (snd result) = events w ++ [first; ev_requestError e])
    /\ (forall v, fst (fst result) = Finished (Fulfilled v) ->
                  exists resp, v = decoded JSON_parse resp
                               /\ events (snd result) = events w ++ [first; ev_done resp]).
Proof.
  intros until w. intros result first. subst result first.
  rewrite request_step.
  set (w0 := emit _ w).
  destruct (send_by_kind_world JSON_stringify form_getHeaders server this
              endpoint method dataType (coerce_data data) amount w0) as (Hev & _).
  destruct (send_by_kind _ _ _ _ _ _ _ _ _ _) as [[r d1] w1].
  cbn [snd] in Hev.
  change (events w0)
    with (events w ++ [ev_request endpoint method dataType (coerce_data data)]) in Hev.
  assert (Hemit : forall x, events (emit x w1)
            = events w ++ [ev_request endpoint method dataType (coerce_data data); x]).
  { intros x. cbn [emit events]. now rewrite Hev, <- app_assoc. }
  destruct r as [resp|e].
  2:{ cbn [fst snd]. rewrite Hemit. split; [eauto|]. split.
      - now intros e' [= <-].
      - discriminate. }
  destruct (terminal OK_STATUS_CODES resp).
  { cbn [fst snd]. rewrite Hemit. split; [eauto|]. split.
    - now intros e' [= <-].
    - discriminate. }
  destruct (retried resp).
  - destruct (request_trace
                JSON_parse JSON_stringify form_getHeaders OK_STATUS_CODES server this
                fuel endpoint method dataType d1 amount w1) as (_ & evs2 & _ & He2 & _).
    destruct (request _ _ _ _ _ _ fuel _ _ _ _ _ _) as [[inner d] w2].
    cbn [fst snd] in *. split.
    + exists evs2. now rewrite He2, Hev, <- app_assoc.
    + destruct inner; split; discriminate.
  - cbn [fst snd]. rewrite Hemit. split; [eauto|]. split.
    + discriminate.
    + intros v [= <-]. eauto.
Qed.

Lemma X2_witness :
  let result := request Stub.parse Stub.stringify Stub.form_headers Stub.OK_STATUS_CODES
                  (Stub.always (Stub.reply 200 "[]")) Stub.handler
                  1 "/gateway" m_get "json" JUndefined 0 Stub.world0 in
  exists resp,
    JArray [] = decoded Stub.parse resp
    /\ events (snd result)
       = [ev_request "/gateway" m_get "json" (JObject []); ev_done resp].
Proof.
  apply (proj2 (proj2 (X2_events_of_a_settled_call
           Stub.parse Stub.stringify Stub.form_headers Stub.OK_STATUS_CODES
           (Stub.always (Stub.reply 200 "[]")) Stub.handler
           0 "/gateway" m_get "json" JUndefined 0%Z Stub.world0)) (JArray [])).
  reflexivity.
Defined.

(** ** Further properties of the flattening *)

(** *** What the flattening can throw *)

Lemma map_message_throws_TypeError (es : list JsVal) (e : JsError) :
  map_message es = Throw e -> e = TypeError.
Proof.
  induction es as [|x rest IH]; simpl; [discriminate|].
  destruct (get x "message") as [m|e1] eqn:Hm; simpl.
  - destruct (map_message rest); simpl; [discriminate|].
    intros [= <-]. now apply IH.
  - intros [= <-]. eauto using get_throws_TypeError.
Qed.

Lemma errors_text_throws_TypeError (errs : JsVal) (e : JsError) :
  errors_text errs = Throw e -> e = TypeError.
Proof.
  destruct errs; simpl; try (intros [= <-]; reflexivity); try discriminate.
  destruct (map_message items) eqn:Hm; simpl; [discriminate|].
  intros [= <-]. eauto using map_message_throws_TypeError.
Qed.

Lemma flattenEntry_throws_TypeError R (key k : string) (v : JsVal) acc (e : JsError) :
  (is_string v = false -> forall key' e', R v key' = Throw e' -> e' = TypeError) ->
  flattenEntry R key k v acc = Throw e -> e = TypeError.
Proof.
  intros HR. unfold flattenEntry.
  destruct (get v "_errors") as [errs|e1] eqn:He; simpl;
    [|intros [= <-]; eauto using get_throws_TypeError].
  destruct (truthy errs).
  { destruct (errors_text errs) eqn:Ht; simpl; [discriminate|].
    intros [= <-]. eauto using errors_text_throws_TypeError. }
  destruct (get v "code") as [code|e1] eqn:Hc; simpl;
    [|intros [= <-]; eauto using get_throws_TypeError].
  destruct (get v "message") as [message|e1] eqn:Hm; simpl;
    [|intros [= <-]; eauto using get_throws_TypeError].
  destruct (truthy code || truthy message); [discriminate|].
  destruct v; try discriminate;
    match goal with |- context [R ?a ?b] =>
      destruct (R a b) eqn:HRv; simpl; [discriminate|intros [= <-]; eauto] end.
Qed.

Lemma flattenProps_throws_TypeError R (key : string) (es : list (string * JsVal)) :
  Forall (fun kv => is_string (snd kv) = false ->
                    forall key' e', R (snd kv) key' = Throw e' -> e' = TypeError) es ->
  forall acc e, flattenProps R key es acc = Throw e -> e = TypeError.
Proof.
  induction 1 as [|[k v] rest Hv _ IH]; intros acc e; simpl; [discriminate|].
  destruct (k =? "message"); [apply IH|].
  destruct (flattenEntry R key k v acc) as [acc'|e1] eqn:He; simpl; [apply IH|].
  intros [= <-]. eapply flattenEntry_throws_TypeError; eauto.
Qed.

(** The only exception of [flattenErrors] is a [TypeError]. *)
Lemma flattenErrors_throws_TypeError (obj : JsVal) :
  forall key e, flattenErrors obj key = Throw e -> e = TypeError.
Proof.
  induction obj as [| | | | | |items IH|props IH] using JsVal_nested_ind;
    intros key e; rewrite flattenErrors_entries; cbn [entries bind];
    try discriminate; try (intros [= <-]; reflexivity).
  - apply flattenProps_throws_TypeError.
    apply (indexed_from_values
             (fun v => is_string v = false ->
                       forall key' e', flattenErrors v key' = Throw e' -> e' = TypeError)).
    apply Forall_map, Forall_forall. intros x _ Hs. discriminate.
  - apply flattenProps_throws_TypeError.
    apply (indexed_from_values
             (fun v => is_string v = false ->
                       forall key' e', flattenErrors v key' = Throw e' -> e' = TypeError)).
    apply Forall_map, Forall_forall. intros x _ _ key' e'. discriminate.
  - apply flattenProps_throws_TypeError.
    apply (indexed_from_values
             (fun v => is_string v = false ->
                       forall key' e', flattenErrors v key' = Throw e' -> e' = TypeError)).
    eapply Forall_impl; [exact IH|]. auto.
  - apply flattenProps_throws_TypeError.
    eapply Forall_impl; [exact IH|]. auto.
Qed.

(** *** X3 and X4: what a call can be rejected with *)

Lemma send_by_kind_throws JSON_stringify form_getHeaders server this
    endpoint method dataType data amount w e :
  fst (fst (send_by_kind JSON_stringify form_getHeaders server this
              endpoint method dataType data amount w)) = Throw e ->
  (e = Error forbidden_dataType_message /\ dataType <> "json" /\ dataType <> "multipart")
  \/ (e = Error max_retry_message /\ (3 <= amount)%Z)
  \/ e = TypeError
  \/ exists reason, e = TransportError reason.
Proof.
  unfold send_by_kind.
  destruct (dataType =? "json") eqn:Hj.
  { destruct (Z.lt_ge_cases amount 3) as [Hlt|Hge].
    - intros H. apply _request_throws in H; [|exact Hlt]. tauto.
    - unfold _request. rewrite (proj2 (Z.leb_le 3 amount) Hge). cbn.
      intros [= <-]. auto. }
  destruct (dataType =? "multipart") eqn:Hm.
  { destruct (Z.lt_ge_cases amount 3) as [Hlt|Hge].
    - intros H. apply _multiPartRequest_throws in H; [|exact Hlt]. tauto.
    - unfold _multiPartRequest. rewrite (proj2 (Z.leb_le 3 amount) Hge). cbn.
      intros [= <-]. auto. }
  cbn. intros [= <-]. left. apply String.eqb_neq in Hj, Hm. auto.
Qed.

Lemma message_of_throws_TypeError (error : JsVal) (e : JsError) :
  message_of error = Throw e -> e = TypeError.
Proof.
  unfold message_of.
  destruct (get error "errors") as [errors|e1] eqn:He; simpl;
    [|intros [= <-]; eauto using get_throws_TypeError].
  destruct (flattenErrors _ "") as [lines|e1] eqn:Hf; simpl;
    [|intros [= <-]; eauto using flattenErrors_throws_TypeError].
  destruct (get error "message") as [message|e1] eqn:Hm; simpl;
    [discriminate|intros [= <-]; eauto using get_throws_TypeError].
Qed.

(** A terminal response is rejected with the normalized error, which has
    the path and the method of the call and the status of the response, or
    with a [TypeError] or a [SyntaxError]. *)
Lemma rejection_kinds JSON_parse (endpoint : string) (method : HTTPMethod)
    (resp : Response) :
  (exists msg code,
     rejection JSON_parse endpoint method resp
     = DiscordAPIError endpoint msg method code (statusCode resp))
  \/ rejection JSON_parse endpoint method resp = TypeError
  \/ rejection JSON_parse endpoint method resp = SyntaxError.
Proof.
  unfold rejection.
  destruct (error_body JSON_parse resp) as [error|e] eqn:Hb; simpl.
  - unfold DiscordAPIError.new.
    destruct (message_of error) as [msg|e] eqn:Hm; simpl.
    + destruct (get error "code") as [code|e] eqn:Hc; simpl; [eauto|].
      right. left. eauto using get_throws_TypeError.
    + right. left. eauto using message_of_throws_TypeError.
  - right. unfold error_body in Hb.
    destruct (match content_type resp with Some ct => _ | None => _ end);
      destruct (body resp) as [b|]; try destruct (JSON_parse b);
      first [discriminate | injection Hb as <-; auto].
Qed.

Lemma terminal_status OK_STATUS_CODES (resp : Response) :
  terminal OK_STATUS_CODES resp = true ->
  statusCode resp <> 0%Z
  /\ ~ In (statusCode resp) OK_STATUS_CODES
  /\ statusCode resp <> 429%Z /\ statusCode resp <> 502%Z.
Proof.
  unfold terminal, recoverable. rewrite !andb_true_iff, !negb_true_iff, orb_false_iff.
  intros [[H0 Hok] [H429 H502]].
  apply Z.eqb_neq in H0, H429, H502.
  repeat split; auto.
  intros Hin. apply includesZ_In in Hin. congruence.
Qed.

(** X3.  For a data kind other than "multipart" and a payload whose
    [reason], printed, is well-formed text, whatever a call of [request] is
    rejected with is one of: the "Forbidden dataType" error, for a data
    kind that is not "json" either; the "Max amount of rety attempts
    reached" error, for an attempt counter of 3 or more; a [TypeError]; a
    [SyntaxError]; a failure of the transport; or a [DiscordAPIError] with
    the path and the method of the call and a status that is not 0, not in
    [OK_STATUS_CODES], not 429 and not 502. *)
Theorem X3_rejection_taxonomy :
  forall JSON_parse JSON_stringify form_getHeaders OK_STATUS_CODES server this
         fuel endpoint method dataType data amount w e,
    dataType <> "multipart" ->
    well_formed (toStr (prop data "reason")) = true ->
    fst (fst (request JSON_parse JSON_stringify form_getHeaders OK_STATUS_CODES
                server this (S fuel) endpoint method dataType data amount w))
    = Finished (Rejected e) ->
    (e = Error forbidden_dataType_message /\ dataType <> "json")
    \/ (e = Error max_retry_message /\ (3 <= amount)%Z)
    \/ e = TypeError
    \/ e = SyntaxError
    \/ (exists reason, e = TransportError reason)
    \/ (exists msg code status,
          e = DiscordAPIError endpoint msg method code status
          /\ status <> 0%Z /\ ~ In status OK_STATUS_CODES
          /\ status <> 429%Z /\ status <> 502%Z).
Proof.
  intros until e. intros Hkind _. rewrite request_step.
  pose proof (send_by_kind_throws JSON_stringify form_getHeaders server this
                endpoint method dataType (coerce_data data) amount
                (emit (ev_request endpoint method dataType (coerce_data data)) w)) as Hthrow.
  destruct (send_by_kind _ _ _ _ _ _ _ _ _ _) as [[r d1] w1].
  cbn [fst] in Hthrow.
  destruct r as [resp|e0].
  2:{ cbn [fst]. intros [= <-]. specialize (Hthrow e0 eq_refl). tauto. }
  destruct (terminal OK_STATUS_CODES resp) eqn:Hterm.
  { cbn [fst]. intros [= <-].
    destruct (rejection_kinds JSON_parse endpoint method resp)
      as [(msg & code & ->) | [-> | ->]]; auto.
    apply terminal_status in Hterm.
    do 5 right. exists msg, code, (statusCode resp). tauto. }
  destruct (retried resp).
  - destruct (request _ _ _ _ _ _ fuel _ _ _ _ _ _) as [[inner d] w2].
    cbn [fst]. destruct inner; discriminate.
  - cbn [fst]. discriminate.
Qed.

Lemma X3_witness :
  let e := DiscordAPIError "/gateway" (JString "") m_get JUndefined 404 in
  (e = Error forbidden_dataType_message /\ "json" <> "json")
  \/ (e = Error max_retry_message /\ (3 <= 0)%Z)
  \/ e = TypeError
  \/ e = SyntaxError
  \/ (exists reason, e = TransportError reason)
  \/ (exists msg code status,
        e = DiscordAPIError "/gateway" msg m_get code status
        /\ status <> 0%Z /\ ~ In status Stub.OK_STATUS_CODES
        /\ status <> 429%Z /\ status <> 502%Z).
Proof.
  apply (X3_rejection_taxonomy
           Stub.parse Stub.stringify Stub.form_headers Stub.OK_STATUS_CODES
           (Stub.always (Stub.reply 404 "{}")) Stub.handler
           0 "/gateway" m_get "json" JUndefined 0%Z Stub.world0).
  - discriminate.
  - reflexivity.
  - reflexivity.
Defined.

(** X4.  For the data kinds "json" and "multipart", a call of [request] is
    rejected with the "Max amount of rety attempts reached" error exactly
    when it is entered with an attempt counter of 3 or more; it then sends
    nothing. *)
Theorem X4_retry_error_iff_entered_at_the_cap :
  forall JSON_parse JSON_stringify form_getHeaders OK_STATUS_CODES server this
         fuel endpoint method dataType data amount w,
    dataType = "json" \/ dataType = "multipart" ->
    let result := request JSON_parse JSON_stringify form_getHeaders OK_STATUS_CODES
                    server this (S fuel) endpoint method dataType data amount w in
    (fst (fst result) = Finished (Rejected (Error max_retry_message)) <-> (3 <= amount)%Z)
    /\ ((3 <= amount)%Z -> sent (snd result) = sent w).
Proof.
  intros until w. intros Hkind result.
  assert (Hcap : (3 <= amount)%Z ->
            result = (Finished (Rejected (Error max_retry_message)), coerce_data data,
                      emit (ev_requestError (Error max_retry_message))
                        (emit (ev_request endpoint method dataType (coerce_data data)) w))).
  { intros Hge. subst result. rewrite request_step.
    unfold send_by_kind, _request, _multiPartRequest.
    rewrite (proj2 (Z.leb_le 3 amount) Hge).
    destruct Hkind as [-> | ->]; reflexivity. }
  split; [split|].
  - subst result. rewrite request_step.
    pose proof (send_by_kind_throws JSON_stringify form_getHeaders server this
                  endpoint method dataType (coerce_data data) amount
                  (emit (ev_request endpoint method dataType (coerce_data data)) w)) as Hthrow.
    destruct (send_by_kind _ _ _ _ _ _ _ _ _ _) as [[r d1] w1].
    cbn [fst] in Hthrow.
    destruct r as [resp|e0].
    2:{ cbn [fst]. intros [= ->].
        destruct (Hthrow _ eq_refl) as [(H & _) | [(_ & H) | [H | (? & H)]]];
          (exact H || discriminate). }
    destruct (terminal OK_STATUS_CODES resp).
    { cbn [fst]. intros [= H].
      destruct (rejection_kinds JSON_parse endpoint method resp)
        as [(msg & code & H') | [H' | H']]; rewrite H' in H; discriminate. }
    destruct (retried resp).
    + destruct (request _ _ _ _ _ _ fuel _ _ _ _ _ _) as [[inner d] w2].
      cbn [fst]. destruct inner; discriminate.
    + cbn [fst]. discriminate.
  - intros Hge. now rewrite (Hcap Hge).
  - intros Hge. now rewrite (Hcap Hge).
Qed.

Lemma X4_witness :
  let result := request Stub.parse Stub.stringify Stub.form_headers Stub.OK_STATUS_CODES
                  (Stub.always (Stub.reply 200 "{}")) Stub.handler
                  1 "/channels/1" m_patch "multipart" (JObject []) 3 Stub.world0 in
  fst (fst result) = Finished (Rejected (Error max_retry_message))
  /\ sent (snd result) = [].
Proof.
  pose proof (X4_retry_error_iff_entered_at_the_cap
                Stub.parse Stub.stringify Stub.form_headers Stub.OK_STATUS_CODES
                (Stub.always (Stub.reply 200 "{}")) Stub.handler
                0 "/channels/1" m_patch "multipart" (JObject []) 3%Z Stub.world0
                (or_intror eq_refl)) as [Hiff Hsent].
  split; [apply Hiff; lia | apply Hsent; lia].
Defined.

(** *** X5: values on which the flattening does not throw *)

Lemma regular_array (items : list JsVal) :
  regular (JArray items) = true <-> Forall (fun v => regular v = true) items.
Proof.
  cbn [regular]. induction items as [|x rest IH].
  - split; [constructor|reflexivity].
  - rewrite andb_true_iff, IH. split.
    + intros [Hx Hr]. now constructor.
    + intros H. inversion H; auto.
Qed.

Lemma regular_props (props : list (string * JsVal)) :
  regular (JObject props) = true ->
  Forall (fun kv => regular (snd kv) = true) props.
Proof.
  cbn [regular]. rewrite andb_true_iff. intros [H _]. revert H.
  induction props as [|kv rest IH]; [constructor|].
  rewrite andb_true_iff. intros [Hx Hr]. constructor; auto.
Qed.

Lemma regular_lookup (k : string) (props : list (string * JsVal)) :
  Forall (fun kv => regular (snd kv) = true) props ->
  lookup_prop k props = JUndefined \/ regular (lookup_prop k props) = true.
Proof.
  induction 1 as [|[k' v] rest Hv _ IH]; simpl; [auto|].
  destruct (k' =? k); auto.
Qed.

Lemma regular_not_nullish (v : JsVal) : regular v = true -> nullish v = false.
Proof. destruct v; simpl; congruence. Qed.

(** The [_errors] of a regular value, when truthy, has a text. *)
Lemma regular_errors_text (v : JsVal) :
  regular v = true ->
  truthy (prop v "_errors") = true ->
  exists text, ErrorsText (prop v "_errors") text.
Proof.
  destruct v; simpl; try discriminate.
  intros Hreg Ht.
  pose proof (regular_props props Hreg) as Hall.
  cbn [regular] in Hreg. apply andb_true_iff in Hreg. destruct Hreg as [_ He].
  destruct (regular_lookup "_errors" props Hall) as [Hu|Hr];
    [rewrite Hu in Ht; discriminate|].
  destruct (lookup_prop "_errors" props) eqn:Hl;
    try (simpl in Ht, Hr; discriminate);
    try (simpl in Ht, He; rewrite Ht in He; discriminate).
  - eexists. constructor.
  - eexists. constructor.
    apply regular_array in Hr. eapply Forall_impl; [exact Hr|].
    intros x Hx. now apply regular_not_nullish.
Qed.

Lemma flattenProps_regular (es : list (string * JsVal)) :
  Forall (fun kv => regular (snd kv) = true) es ->
  Forall (fun kv => regular (snd kv) = true ->
                    forall key, exists ms, flattenErrors (snd kv) key = Normal ms) es ->
  forall key, exists ms, flattenProps flattenErrors key es [] = Normal ms.
Proof.
  intros Hreg. induction 1 as [|[k v] rest Hv _ IH]; intros key; simpl; [eauto|].
  inversion Hreg as [|? ? Hrv Hrrest]; subst. cbn [snd] in *.
  destruct (IH Hrrest key) as [ls Hls].
  destruct (k =? "message"); [eauto|].
  assert (Hentry : exists l, flattenEntry flattenErrors key k v [] = Normal l).
  { pose proof (regular_not_nullish v Hrv) as Hn.
    destruct (truthy (prop v "_errors")) eqn:He.
    { destruct (regular_errors_text v Hrv He) as [text Ht].
      eexists. apply flattenEntry_cases. split; [exact Hn|]. left. eauto. }
    destruct (truthy (prop v "code") || truthy (prop v "message")) eqn:Hc.
    { eexists. apply flattenEntry_cases. split; [exact Hn|]. right. left. eauto. }
    destruct (is_string v) eqn:Hs.
    { destruct v; try discriminate.
      eexists. apply flattenEntry_cases. split; [exact Hn|]. right. right. left. eauto. }
    destruct (Hv Hrv (path key k)) as [sub Hsub].
    exists sub. apply flattenEntry_cases. split; [exact Hn|]. right. right. right. auto. }
  destruct Hentry as [l Hl]. rewrite Hl. cbn [bind].
  rewrite flattenProps_acc, Hls. cbn [bind]. eauto.
Qed.

(** The lines of a string are its characters, whatever the key. *)
Lemma flattenItems_strings R (key : string) (s : string) :
  forall i acc,
    flattenItems R key i (map JString (chars s)) acc = Normal (acc ++ chars s).
Proof.
  induction s as [|c t IH]; intros i acc; cbn [chars map flattenItems].
  - now rewrite app_nil_r.
  - unfold flattenEntry. cbn [get bind truthy orb]. rewrite IH.
    now rewrite <- app_assoc.
Qed.

Lemma flattenErrors_string (s key : string) :
  flattenErrors (JString s) key = Normal (chars s).
Proof. cbn [flattenErrors]. now rewrite flattenItems_strings. Qed.

Lemma flattenErrors_regular (obj : JsVal) :
  regular obj = true -> forall key, exists ms, flattenErrors obj key = Normal ms.
Proof.
  induction obj as [| | | | | |items IH|props IH] using JsVal_nested_ind;
    intros Hreg key; try discriminate;
    try (rewrite flattenErrors_string; eauto);
    rewrite flattenErrors_entries; cbn [entries bind]; eauto.
  - apply flattenProps_regular.
    + apply (indexed_from_values (fun v => regular v = true)).
      apply Forall_map, Forall_forall. reflexivity.
    + apply (indexed_from_values
               (fun v => regular v = true ->
                         forall key, exists ms, flattenErrors v key = Normal ms)).
      apply Forall_map, Forall_forall. intros x _ _ key'. simpl. eauto.
  - apply flattenProps_regular.
    + apply (indexed_from_values (fun v => regular v = true)).
      now apply regular_array.
    + now apply (indexed_from_values
               (fun v => regular v = true ->
                         forall key, exists ms, flattenErrors v key = Normal ms)).
  - apply flattenProps_regular; [now apply regular_props|exact IH].
Qed.

Lemma regular_or_else_errors (error : JsVal) :
  regular error = true -> regular (or_else (prop error "errors") error) = true.
Proof.
  intros Hreg. unfold or_else.
  destruct (truthy (prop error "errors")) eqn:Ht; [|exact Hreg].
  destruct error; simpl in Ht; try discriminate.
  destruct (regular_lookup "errors" props (regular_props props Hreg)) as [Hu|Hr];
    [|exact Hr].
  simpl. rewrite Hu in Ht. discriminate.
Qed.

(** On a regular body the constructor yields the normalized error. *)
Lemma new_on_regular (path : string) (error : JsVal) (method : HTTPMethod) (status : Z) :
  regular error = true ->
  exists msg,
    message_of error = Normal msg
    /\ DiscordAPIError.new path error method status
       = Normal (DiscordAPIError path msg method (prop error "code") status).
Proof.
  intros Hreg. pose proof (regular_not_nullish error Hreg) as Hn.
  destruct (flattenErrors_regular _ (regular_or_else_errors error Hreg) "")
    as [lines Hlines].
  unfold DiscordAPIError.new, message_of.
  rewrite !(get_not_nullish error _ Hn). cbn [bind]. rewrite Hlines. cbn [bind].
  eauto.
Qed.

(** X5.  On an error body as [JSON.parse] yields it for ASCII text (ASCII
    strings and keys, integers that a double holds exactly, no own property
    named "toString"), with no [null] and no [undefined] in it and whose
    truthy [_errors] are arrays, the constructor of [DiscordAPIError] does
    not throw: it yields the error with the given path, method and status,
    the [code] of the body, and a message.  On [null] and on [undefined] it
    throws a [TypeError]. *)
Theorem X5_constructor_on_regular_bodies :
  forall (path : string) (error : JsVal) (method : HTTPMethod) (status : Z),
    (regular error = true ->
     plain error = true ->
     exists msg,
       message_of error = Normal msg
       /\ DiscordAPIError.new path error method status
          = Normal (DiscordAPIError path msg method (prop error "code") status))
    /\ (nullish error = true ->
        DiscordAPIError.new path error method status = Throw TypeError).
Proof.
  intros path error method status. split.
  - intros Hreg _. now apply new_on_regular.
  - destruct error; try discriminate; reflexivity.
Qed.

Lemma X5_witness :
  exists msg,
    message_of (JObject [("message", JString "Invalid Form Body");
                         ("code", JNumber 50035);
                         ("errors", JObject [("name", JObject [("_errors",
                            JArray [JObject [("message", JString "Required")]])])])])
    = Normal msg
    /\ DiscordAPIError.new "/channels/1"
         (JObject [("message", JString "Invalid Form Body");
                   ("code", JNumber 50035);
                   ("errors", JObject [("name", JObject [("_errors",
                      JArray [JObject [("message", JString "Required")]])])])])
         m_patch 400
       = Normal (DiscordAPIError "/channels/1" msg m_patch (JNumber 50035) 400).
Proof.
  apply (proj1 (X5_constructor_on_regular_bodies "/channels/1"
           (JObject [("message", JString "Invalid Form Body");
                     ("code", JNumber 50035);
                     ("errors", JObject [("name", JObject [("_errors",
                        JArray [JObject [("message", JString "Required")]])])])])
           m_patch 400%Z)).
  - reflexivity.
  - reflexivity.
Defined.

(** *** X6: a terminal response *)

(** X6.  When the response has a status that is not 0, not in
    [OK_STATUS_CODES], not 429 and not 502, and its body, read as the
    content type says, is a value as [JSON.parse] yields it for ASCII text,
    with no [null] and no [undefined] in it and whose truthy [_errors] are
    arrays, the call is rejected with the
    [DiscordAPIError] that has the path and method of the call, the status
    of the response, the [code] of the body and the message built from the
    body; the error is emitted as [requestError] and no other request is
    sent, whatever fuel is left. *)
Theorem X6_terminal_response_is_rejected_once :
  forall JSON_parse JSON_stringify form_getHeaders OK_STATUS_CODES server this
         fuel endpoint method dataType data amount w resp d1 w1 error,
    send_by_kind JSON_stringify form_getHeaders server this
      endpoint method dataType (coerce_data data) amount
      (emit (ev_request endpoint method dataType (coerce_data data)) w)
    = (Normal resp, d1, w1) ->
    statusCode resp <> 0%Z ->
    ~ In (statusCode resp) OK_STATUS_CODES ->
    statusCode resp <> 429%Z ->
    statusCode resp <> 502%Z ->
    error_body JSON_parse resp = Normal error ->
    regular error = true ->
    plain error = true ->
    exists msg,
      message_of error = Normal msg
      /\ request JSON_parse JSON_stringify form_getHeaders OK_STATUS_CODES
           server this (S fuel) endpoint method dataType data amount w
         = (let e := DiscordAPIError endpoint msg method (prop error "code")
                       (statusCode resp) in
            (Finished (Rejected e), d1,
             {| sent := sent w1; events := events w1 ++ [ev_requestError e] |})).
Proof.
  intros until error. intros Hs H0 Hok H429 H502 Hbody Hreg _.
  destruct (new_on_regular endpoint error method (statusCode resp) Hreg)
    as (msg & Hmsg & Hnew).
  exists msg. split; [exact Hmsg|].
  rewrite request_step, Hs.
  assert (Hterm : terminal OK_STATUS_CODES resp = true).
  { unfold terminal. rewrite (recoverable_false _ H429 H502).
    apply Z.eqb_neq in H0. rewrite H0.
    destruct (includesZ OK_STATUS_CODES (statusCode resp)) eqn:Hin; [|reflexivity].
    apply includesZ_In in Hin. contradiction. }
  rewrite Hterm. unfold rejection. rewrite Hbody. cbn [bind]. rewrite Hnew.
  reflexivity.
Qed.

Lemma X6_witness :
  let body_value := JObject [("message", JString "Unknown Channel");
                             ("code", JNumber 10003)] in
  let resp := {| statusCode := 404; content_type := Some "application/json";
                 body := Some "{}" |} in
  exists msg,
    message_of body_value = Normal msg
    /\ fst (fst (request (fun _ => Some body_value) Stub.stringify Stub.form_headers
                   Stub.OK_STATUS_CODES (Stub.always (Replied resp)) Stub.handler
                   5 "/channels/1" m_get "json" JUndefined 0 Stub.world0))
       = Finished (Rejected (DiscordAPIError "/channels/1" msg m_get (JNumber 10003) 404)).
Proof.
  intros body_value resp.
  destruct (X6_terminal_response_is_rejected_once
              (fun _ => Some body_value) Stub.stringify Stub.form_headers
              Stub.OK_STATUS_CODES (Stub.always (Replied resp)) Stub.handler
              4 "/channels/1" m_get "json" JUndefined 0%Z Stub.world0
              resp _ _ body_value eq_refl
              ltac:(discriminate) ltac:(simpl; intuition discriminate)
              ltac:(discriminate) ltac:(discriminate) eq_refl eq_refl eq_refl)
    as (msg & Hmsg & Hreq).
  exists msg. split; [exact Hmsg|]. now rewrite Hreq.
Defined.

(** *** X7 and X8: the lines of an object, entry by entry *)

Lemma flattenProps_app R (key : string) (a b : list (string * JsVal)) :
  forall acc,
    flattenProps R key (a ++ b) acc
    = let! x := flattenProps R key a acc in flattenProps R key b x.
Proof.
  induction a as [|[k v] rest IH]; intros acc; simpl; [reflexivity|].
  destruct (k =? "message"); [apply IH|].
  destruct (flattenEntry R key k v acc); simpl; [apply IH|reflexivity].
Qed.

(** X7.  The lines of an object are the lines of its entries in their
    order: for a property list split in two, they are the lines of the first
    part followed by those of the second, and the flattening throws when
    the flattening of either part does. *)
Theorem X7_flattenErrors_of_concatenated_entries :
  forall (a b : list (string * JsVal)) (key : string),
    flattenErrors (JObject (a ++ b)) key
    = let! x := flattenErrors (JObject a) key in
      let! y := flattenErrors (JObject b) key in
      Normal (x ++ y).
Proof.
  intros a b key. cbn [flattenErrors].
  rewrite flattenProps_app.
  destruct (flattenProps flattenErrors key a []) as [x|e]; cbn [bind]; [|reflexivity].
  apply flattenProps_acc.
Qed.

(** X8.  The properties named "message" have no part in the lines of an
    object: removing them leaves the lines, or the exception, as they
    were. *)
Theorem X8_message_properties_are_ignored :
  forall (props : list (string * JsVal)) (key : string),
    flattenErrors (JObject (delete_prop "message" props)) key
    = flattenErrors (JObject props) key.
Proof.
  intros props key. cbn [flattenErrors]. generalize (@nil string).
  induction props as [|[k v] rest IH]; intros acc; simpl; [reflexivity|].
  destruct (k =? "message") eqn:Hk; [apply IH|].
  simpl. rewrite Hk.
  destruct (flattenEntry flattenErrors key k v acc); simpl; [apply IH|reflexivity].
Qed.

(** *** X9 and X10: two common bodies *)

(** X9.  The message built from a body that is ASCII text is the text with
    a new line between every two characters: the flattening walks the
    characters of the string as its entries. *)
Theorem X9_text_body_is_split_into_characters :
  forall (s path : string) (method : HTTPMethod) (status : Z),
    ascii_text s = true ->
    flattenErrors (JString s) "" = Normal (chars s)
    /\ DiscordAPIError.new path (JString s) method status
       = Normal (DiscordAPIError path (JString (join newline (chars s))) method
                   JUndefined status).
Proof.
  intros s path method status _. split; [apply flattenErrors_string|].
  unfold DiscordAPIError.new, message_of. cbn [get bind or_else truthy prop].
  rewrite flattenErrors_string. reflexivity.
Qed.

Lemma X9_witness :
  flattenErrors (JString "No") "" = Normal ["N"; "o"]
  /\ DiscordAPIError.new "/gateway" (JString "No") m_get 403
     = Normal (DiscordAPIError "/gateway" (JString ("N" +:+ newline +:+ "o")) m_get
                 JUndefined 403).
Proof.
  apply (X9_text_body_is_split_into_characters "No" "/gateway" m_get 403%Z).
  reflexivity.
Defined.

Lemma flattenProps_scalars (key : string) (props : list (string * JsVal)) :
  Forall scalar_field props ->
  forall acc, flattenProps flattenErrors key props acc = Normal acc.
Proof.
  induction 1 as [|[k v] rest Hkv _ IH]; intros acc; simpl; [reflexivity|].
  destruct (k =? "message") eqn:Hk; [apply IH|].
  destruct Hkv as [Hm | [[b Hv] | [n Hv]]]; simpl in Hm || simpl in Hv.
  - apply String.eqb_neq in Hk. contradiction.
  - subst v. unfold flattenEntry. cbn. rewrite app_nil_r. apply IH.
  - subst v. unfold flattenEntry. cbn. rewrite app_nil_r. apply IH.
Qed.

Lemma lookup_scalar (k : string) (props : list (string * JsVal)) :
  Forall scalar_field props ->
  k <> "message" ->
  lookup_prop k props = JUndefined
  \/ (exists b, lookup_prop k props = JBool b)
  \/ (exists n, lookup_prop k props = JNumber n).
Proof.
  intros Hall Hk. induction Hall as [|[k' v] rest Hkv _ IH]; simpl; [auto|].
  destruct (k' =? k) eqn:Heq; [|exact IH].
  apply String.eqb_eq in Heq. subst k'.
  destruct Hkv as [Hm | H]; [simpl in Hm; contradiction | simpl in H; auto].
Qed.

(** X10.  For an error body that is an object with nothing but a "message"
    and boolean or number fields (such as [code]), the flattening yields no
    line and the message of the normalized error is the "message" of the
    body as it is, or the empty string if that is falsy. *)
Theorem X10_plain_error_body_keeps_its_message :
  forall (props : list (string * JsVal)) (path : string) (method : HTTPMethod) (status : Z),
    Forall scalar_field props ->
    flattenErrors (JObject props) "" = Normal []
    /\ DiscordAPIError.new path (JObject props) method status
       = Normal (DiscordAPIError path
                   (or_else (lookup_prop "message" props) (JString ""))
                   method (lookup_prop "code" props) status).
Proof.
  intros props path method status Hall.
  assert (Hflat : flattenErrors (JObject props) "" = Normal []).
  { cbn [flattenErrors]. now apply flattenProps_scalars. }
  split; [exact Hflat|].
  unfold DiscordAPIError.new, message_of. cbn [get bind].
  assert (Hlines : flattenErrors (or_else (lookup_prop "errors" props) (JObject props)) ""
                   = Normal []).
  { unfold or_else.
    destruct (lookup_scalar "errors" props Hall ltac:(discriminate))
      as [-> | [[b ->] | [n ->]]]; cbn [truthy].
    - exact Hflat.
    - destruct b; [reflexivity|exact Hflat].
    - destruct (negb (n =? 0)%Z); [reflexivity|exact Hflat]. }
  rewrite Hlines. cbn [bind join String.eqb negb]. rewrite andb_false_r. reflexivity.
Qed.

Lemma X10_witness :
  flattenErrors (JObject [("message", JString "Unknown Channel"); ("code", JNumber 10003)]) ""
  = Normal []
  /\ DiscordAPIError.new "/channels/1"
       (JObject [("message", JString "Unknown Channel"); ("code", JNumber 10003)])
       m_get 404
     = Normal (DiscordAPIError "/channels/1" (JString "Unknown Channel") m_get
                 (JNumber 10003) 404).
Proof.
  apply (X10_plain_error_body_keeps_its_message
           [("message", JString "Unknown Channel"); ("code", JNumber 10003)]
           "/channels/1" m_get 404%Z).
  constructor; [left; reflexivity|].
  constructor; [right; right; eexists; reflexivity|].
  constructor.
Defined.

(** *** X11: the key path of an array element *)

Lemma digit_not_space (c : ascii) : is_digit c = true -> is_space c = false.
Proof.
  unfold is_digit, is_space, in_range. intros H.
  apply andb_true_iff in H. destruct H as [H1 H2].
  apply Nat.leb_le in H1. apply Nat.leb_le in H2.
  apply orb_false_iff. split.
  - apply andb_false_iff. right. apply Nat.leb_gt. lia.
  - apply Nat.eqb_neq. lia.
Qed.

Lemma trim_digits (s : string) : all_chars is_digit s = true -> trim s = s.
Proof.
  intros Hall. unfold trim.
  assert (Hstart : trimStart s = s).
  { destruct s as [|c t]; [reflexivity|]. simpl in *.
    apply andb_true_iff in Hall. destruct Hall as [Hc _].
    now rewrite (digit_not_space c Hc). }
  rewrite Hstart. clear Hstart.
  induction s as [|c t IH]; [reflexivity|]. simpl in *.
  apply andb_true_iff in Hall. destruct Hall as [Hc Ht].
  rewrite (digit_not_space c Hc), (IH Ht). reflexivity.
Qed.

Lemma skip_digits (s : string) : all_chars is_digit s = true -> skip_chars is_digit s = "".
Proof.
  induction s as [|c t IH]; [reflexivity|]. simpl.
  intros H. apply andb_true_iff in H. destruct H as [Hc Ht].
  rewrite Hc. auto.
Qed.

(** A non-empty text of digits is a number for [Number]. *)
Lemma digits_are_numeric (s : string) :
  s <> "" -> all_chars is_digit s = true -> isNaN_Number s = false.
Proof.
  intros Hne Hall. unfold isNaN_Number. rewrite (trim_digits s Hall).
  destruct (s =? "") eqn:He; [reflexivity|].
  assert (Hsign : strip_sign s = s).
  { destruct s as [|c t]; [reflexivity|]. simpl in *.
    apply andb_true_iff in Hall. destruct Hall as [Hc _].
    unfold is_sign. unfold is_digit, in_range in Hc.
    apply andb_true_iff in Hc. destruct Hc as [H1 H2].
    apply Nat.leb_le in H1.
    assert (H43 : (code_of c =? 43)%nat = false) by (apply Nat.eqb_neq; lia).
    assert (H45 : (code_of c =? 45)%nat = false) by (apply Nat.eqb_neq; lia).
    now rewrite H43, H45. }
  rewrite Hsign. unfold unsigned_decimal.
  destruct (s =? "Infinity"); [reflexivity|].
  rewrite (skip_digits s Hall). cbn [String.length].
  rewrite Nat.sub_0_r. cbn [exponent_opt]. rewrite andb_true_r.
  destruct s; [contradiction|]. reflexivity.
Qed.

Lemma string_of_uint_digits (d : Decimal.uint) :
  all_chars is_digit (NilEmpty.string_of_uint d) = true.
Proof. induction d; simpl; auto. Qed.

Lemma string_of_nat_digits (i : nat) :
  string_of_nat i <> "" /\ all_chars is_digit (string_of_nat i) = true.
Proof.
  unfold string_of_nat, string_of_Z.
  destruct (Z.of_nat i) as [|p|p] eqn:Hz; [split; [discriminate|reflexivity]| |lia].
  cbn [Z.to_int NilZero.string_of_int NilZero.string_of_uint].
  destruct (Pos.to_uint p) eqn:Hp;
    (split; [discriminate|
             simpl; apply (string_of_uint_digits u) || reflexivity]).
Qed.

(** X11.  The index of an array element is always a numeric key: under a
    non-empty parent key the element at index [i] has the key path
    [parent[i]], and at the top it has the key path [i]. *)
Theorem X11_array_elements_get_bracketed_paths :
  forall (key : string) (i : nat),
    isNaN_Number (string_of_nat i) = false
    /\ (key <> "" ->
        newKey_of key (string_of_nat i) = key +:+ "[" +:+ string_of_nat i +:+ "]")
    /\ newKey_of "" (string_of_nat i) = string_of_nat i.
Proof.
  intros key i.
  destruct (string_of_nat_digits i) as [Hne Hall].
  pose proof (digits_are_numeric _ Hne Hall) as Hnum.
  split; [exact Hnum|]. split; [|reflexivity].
  intros Hkey. unfold newKey_of. apply String.eqb_neq in Hkey.
  now rewrite Hkey, Hnum.
Qed.

Lemma X11_witness :
  newKey_of "embeds" (string_of_nat 12) = "embeds[12]".
Proof.
  apply (proj1 (proj2 (X11_array_elements_get_bracketed_paths "embeds" 12))).
  discriminate.
Defined.

(** *** X12: the value of the audit-log header *)

Lemma hex_char_unreserved (n : nat) : (n < 16)%nat -> is_unreserved (hex_char n) = true.
Proof.
  intros H. do 16 (destruct n as [|n]; [reflexivity|]). lia.
Qed.

Lemma header_char_printable (c : ascii) :
  header_char c = true -> (32 <? code_of c)%nat && (code_of c <? 127)%nat = true.
Proof.
  unfold header_char, is_unreserved, is_digit, in_range. cbn [existsb].
  rewrite !orb_true_iff, !andb_true_iff, !Nat.leb_le, !Nat.eqb_eq, !Nat.ltb_lt.
  lia.
Qed.

Lemma encodeURIComponent_chars (s : string) :
  all_chars header_char (encodeURIComponent s) = true.
Proof.
  induction s as [|c t IH]; [reflexivity|]. cbn [encodeURIComponent].
  destruct (is_unreserved c) eqn:Hc; cbn [all_chars].
  - unfold header_char at 1. now rewrite Hc.
  - pose proof (nat_ascii_bounded c) as Hb. fold (code_of c) in Hb.
    assert (H1 : (code_of c / 16 < 16)%nat) by (apply Nat.Div0.div_lt_upper_bound; lia).
    assert (H2 : (code_of c mod 16 < 16)%nat) by (apply Nat.mod_upper_bound; lia).
    unfold header_char at 1 2 3.
    rewrite (hex_char_unreserved _ H1), (hex_char_unreserved _ H2), IH.
    reflexivity.
Qed.

Lemma all_chars_impl (p q : ascii -> bool) (s : string) :
  (forall c, p c = true -> q c = true) -> all_chars p s = true -> all_chars q s = true.
Proof.
  intros Hpq. induction s as [|c t IH]; [reflexivity|]. simpl.
  rewrite !andb_true_iff. intros [Hc Ht]. auto.
Qed.

(** X12.  Every request that the JSON sender sends for an object payload
    with a truthy [reason] carries the header [X-Audit-Log-Reason], and
    every character of its value is a letter, a digit, one of
    [- _ . ! ~ * ' ( )] or the percent sign: the value holds no space, no
    line break, no control character and no byte above 126, whatever the
    reason was. *)
Theorem X12_audit_header_value_is_printable :
  forall server this endpoint method props useParams amount w wire,
    truthy (lookup_prop "reason" props) = true ->
    In wire (sent (snd (_request server this endpoint method (JObject props)
                          useParams amount w))) ->
    In wire (sent w)
    \/ exists value,
         w_headers wire !! audit_header = Some value
         /\ all_chars header_char value = true
         /\ all_chars (fun c => (32 <? code_of c)%nat && (code_of c <? 127)%nat) value = true.
Proof.
  intros until wire. intros Hreason.
  unfold _request.
  destruct (3 <=? amount)%Z; [now left|].
  cbn [is_string negb get]. rewrite Hreason.
  unfold send. cbn [snd sent].
  rewrite in_app_iff. intros [Hold | [<- | []]]; [now left|right].
  eexists. cbn [w_headers].
  split; [apply lookup_union_Some_l; apply lookup_singleton_eq|].
  split; [apply encodeURIComponent_chars|].
  eapply all_chars_impl; [apply header_char_printable|apply encodeURIComponent_chars].
Qed.

Lemma X12_witness :
  let wire := json_wire_of Stub.handler "/guilds/1/bans/2" m_put true
                {[ audit_header := "line%20one%0Aline%20two" ]} [] in
  exists value,
    w_headers wire !! audit_header = Some value
    /\ all_chars header_char value = true
    /\ all_chars (fun c => (32 <? code_of c)%nat && (code_of c <? 127)%nat) value = true.
Proof.
  intros wire.
  destruct (X12_audit_header_value_is_printable
              (Stub.always (Stub.reply 200 "{}")) Stub.handler
              "/guilds/1/bans/2" m_put
              [("reason", JString ("line one" +:+ newline +:+ "line two"))]
              true 0%Z Stub.world0 wire eq_refl (or_introl eq_refl)) as [[]|H].
  exact H.
Defined.

(** *** X13: what a dispatch changes in the payload of the caller *)

Lemma prop_delete_key_other (v : JsVal) (k k' : string) :
  k <> k' -> prop (delete_key v k) k' = prop v k'.
Proof. intros Hne. destruct v; simpl; auto using lookup_delete_prop_other. Qed.

Lemma prop_with_files_other (data : JsVal) (files : list JsVal) (k : string) :
  k <> "files" -> prop (with_files data files) k = prop data k.
Proof.
  intros Hne. destruct data; simpl; auto.
  apply lookup_set_prop_other. congruence.
Qed.

Lemma prop_coerce_data (data : JsVal) (k : string) :
  prop (coerce_data data) k = prop data k.
Proof. destruct data; reflexivity. Qed.

(** A sender leaves every property of the payload other than [reason] and
    [files] as it was. *)
Lemma send_by_kind_frame JSON_stringify form_getHeaders server this
    endpoint method dataType data amount w (k : string) :
  k <> "reason" -> k <> "files" ->
  prop (snd (fst (send_by_kind JSON_stringify form_getHeaders server this
                    endpoint method dataType data amount w))) k
  = prop data k.
Proof.
  intros Hr Hf. unfold send_by_kind.
  destruct (dataType =? "json").
  { unfold _request. destruct (3 <=? amount)%Z; [reflexivity|].
    destruct (if negb (is_string data) then _ else _) as [reason|e]; [|reflexivity].
    destruct (send _ _ _) as [r w1]. cbn [fst snd].
    destruct (truthy reason); [|reflexivity].
    apply prop_delete_key_other. congruence. }
  destruct (dataType =? "multipart"); [|reflexivity].
  unfold _multiPartRequest. destruct (3 <=? amount)%Z; [reflexivity|].
  destruct (get data "files") as [files|e]; cbn [bind]; [|reflexivity].
  assert (Hsame : forall form,
            prop (snd (fst (let '(r, w0) := send server
                                {| w_url := apiURL this; w_method := method;
                                   w_path := endpoint;
                                   w_headers := form_getHeaders form ∪ options_headers this;
                                   w_payload := BodyForm form;
                                   w_timeout := Some 15000%Z |} w in
                            (r, data, w0)))) k = prop data k).
  { intros form. destruct (send _ _ _). reflexivity. }
  destruct files; try apply Hsame.
  destruct (every_valid items) as [ok|e]; cbn [bind]; [|reflexivity].
  destruct ok; [|apply Hsame].
  destruct (append_files 0 items []) as [r|e]; cbn [bind]; [|reflexivity].
  destruct (send _ _ _). cbn [fst snd].
  now apply prop_with_files_other.
Qed.

(** X13.  Whatever the data kind, the fuel and the answers of the server,
    a dispatch leaves every property of the payload object other than
    [reason] and [files] as the caller passed it. *)
Theorem X13_dispatch_touches_reason_and_files_only :
  forall JSON_parse JSON_stringify form_getHeaders OK_STATUS_CODES server this
         fuel endpoint method dataType data amount w (k : string),
    k <> "reason" -> k <> "files" ->
    prop (snd (fst (request JSON_parse JSON_stringify form_getHeaders OK_STATUS_CODES
                      server this fuel endpoint method dataType data amount w))) k
    = prop data k.
Proof.
  intros until fuel.
  induction fuel as [|fuel IH]; intros endpoint method dataType data amount w k Hr Hf;
    [reflexivity|].
  rewrite request_step.
  pose proof (send_by_kind_frame JSON_stringify form_getHeaders server this
                endpoint method dataType (coerce_data data) amount
                (emit (ev_request endpoint method dataType (coerce_data data)) w)
                k Hr Hf) as Hframe.
  rewrite prop_coerce_data in Hframe.
  destruct (send_by_kind _ _ _ _ _ _ _ _ _ _) as [[r d1] w1].
  cbn [fst snd] in Hframe.
  destruct r as [resp|e]; [|exact Hframe].
  destruct (terminal OK_STATUS_CODES resp); [exact Hframe|].
  destruct (retried resp); [|exact Hframe].
  specialize (IH endpoint method dataType d1 amount w1 k Hr Hf).
  destruct (request _ _ _ _ _ _ fuel _ _ _ _ _ _) as [[inner d] w2].
  cbn [fst snd] in *. congruence.
Qed.

Lemma X13_witness :
  prop (snd (fst (request Stub.parse Stub.stringify Stub.form_headers Stub.OK_STATUS_CODES
                    (Stub.always (Stub.reply 200 "{}")) Stub.handler
                    1 "/channels/1/messages" m_post "json"
                    (JObject [("reason", JString "spam"); ("content", JString "hi")])
                    0 Stub.world0))) "content"
  = JString "hi".
Proof.
  apply (X13_dispatch_touches_reason_and_files_only
           Stub.parse Stub.stringify Stub.form_headers Stub.OK_STATUS_CODES
           (Stub.always (Stub.reply 200 "{}")) Stub.handler
           1 "/channels/1/messages" m_post "json"
           (JObject [("reason", JString "spam"); ("content", JString "hi")])
           0%Z Stub.world0 "content");
    discriminate.
Defined.

(** *** X14 and X15: what every request of a dispatch carries *)

(** What holds of every request a sender sends holds of every request of
    the dispatch, retries included. *)
Lemma request_sent_invariant (P : Wire -> Prop)
    JSON_parse JSON_stringify form_getHeaders OK_STATUS_CODES server this
    endpoint method dataType amount :
  (forall data w,
     exists new,
       sent (snd (send_by_kind JSON_stringify form_getHeaders server this
                    endpoint method dataType data amount w)) = sent w ++ new
       /\ Forall P new) ->
  forall fuel data w,
    exists new,
      sent (snd (request JSON_parse JSON_stringify form_getHeaders OK_STATUS_CODES
                   server this fuel endpoint method dataType data amount w))
      = sent w ++ new
      /\ Forall P new.
Proof.
  intros Hsender.
  induction fuel as [|fuel IH]; intros data w.
  { exists []. cbn. rewrite app_nil_r. auto. }
  rewrite request_step.
  destruct (Hsender (coerce_data data)
              (emit (ev_request endpoint method dataType (coerce_data data)) w))
    as (new1 & Hsent & Hall).
  destruct (send_by_kind _ _ _ _ _ _ _ _ _ _) as [[r d1] w1].
  cbn [snd emit sent] in Hsent.
  assert (Hdone : forall (o : Outcome) (x : Event),
            exists new, sent (snd (o, d1, emit x w1)) = sent w ++ new /\ Forall P new).
  { intros o x. exists new1. cbn. auto. }
  destruct r as [resp|e]; [|apply Hdone].
  destruct (terminal OK_STATUS_CODES resp); [apply Hdone|].
  destruct (retried resp); [|apply Hdone].
  destruct (IH d1 w1) as (new2 & Hs2 & Hall2).
  destruct (request _ _ _ _ _ _ fuel _ _ _ _ _ _) as [[inner d] w2].
  cbn [snd] in *. exists (new1 ++ new2).
  rewrite Hs2, Hsent, <- app_assoc. split; [reflexivity|now apply Forall_app].
Qed.

(** A request of the JSON sender has the default headers of the handler
    under every name but that of the audit-log header, and no timeout of
    its own. *)
Lemma _request_headers server this endpoint method data useParams amount w :
  exists new,
    sent (snd (_request server this endpoint method data useParams amount w))
    = sent w ++ new
    /\ Forall (fun wire =>
                 w_url wire = apiURL this
                 /\ w_timeout wire = None
                 /\ forall k, k <> audit_header ->
                              w_headers wire !! k = options_headers this !! k) new.
Proof.
  unfold _request.
  destruct (3 <=? amount)%Z; [exists []; cbn; rewrite app_nil_r; auto|].
  destruct (if negb (is_string data) then _ else _) as [reason|e];
    [|exists []; cbn; rewrite app_nil_r; auto].
  unfold send. cbn [snd sent].
  eexists [_]. split; [reflexivity|].
  constructor; [|constructor]. cbn [w_url w_timeout w_headers].
  repeat split. intros k Hk.
  destruct (truthy reason).
  - rewrite lookup_union_r; [reflexivity|].
    apply lookup_singleton_ne. unfold audit_header in Hk. congruence.
  - now rewrite (left_id_L ∅ (∪)).
Qed.

(** X14.  For a handler built by the constructor from a token and a base
    host, every request that a JSON dispatch sends, retries included, goes
    to the base host followed by [Endpoints.BASE_URL], carries the
    [User-Agent] header, and carries the token as [Authorization] header
    when the token is a non-empty string and no such header otherwise. *)
Theorem X14_constructor_headers_on_every_json_request :
  forall JSON_parse JSON_stringify form_getHeaders OK_STATUS_CODES server
         BASE_URL user_agent token baseHost
         fuel endpoint method data amount w,
    let this := RequestHandler.new BASE_URL user_agent token baseHost in
    exists new,
      sent (snd (request JSON_parse JSON_stringify form_getHeaders OK_STATUS_CODES
                   server this fuel endpoint method "json" data amount w))
      = sent w ++ new
      /\ Forall (fun wire =>
                   w_url wire = baseHost +:+ BASE_URL
                   /\ w_headers wire !! "User-Agent" = Some user_agent
                   /\ w_headers wire !! "Authorization"
                      = match token with
                        | Some t => if t =? "" then None else Some t
                        | None => None
                        end) new.
Proof.
  intros until w. intros this.
  apply request_sent_invariant. intros data' w'.
  unfold send_by_kind. cbn [String.eqb Ascii.eqb Bool.eqb].
  destruct (_request_headers server this endpoint method data'
              (useParams_of method endpoint) amount w') as (new & Hsent & Hall).
  exists new. split; [exact Hsent|].
  eapply Forall_impl; [exact Hall|].
  intros wire (Hurl & _ & Hh).
  split; [exact Hurl|].
  rewrite !Hh by (unfold audit_header; discriminate).
  subst this. unfold RequestHandler.new. cbn [options_headers].
  destruct token as [t|].
  - destruct (t =? ""); cbn [negb].
    + split; [apply lookup_singleton_eq | now apply lookup_singleton_ne].
    + split; [rewrite lookup_insert_ne by discriminate; apply lookup_singleton_eq
             | apply lookup_insert_eq].
  - split; [apply lookup_singleton_eq | now apply lookup_singleton_ne].
Qed.

(** A request of the multipart sender. *)
Lemma _multiPartRequest_wire JSON_stringify form_getHeaders server this
    endpoint method data amount w :
  exists new,
    sent (snd (_multiPartRequest JSON_stringify form_getHeaders server this
                 endpoint method data amount w))
    = sent w ++ new
    /\ Forall (fun wire =>
                 exists form text,
                   w_payload wire = BodyForm (form ++ [payload_json_field text])
                   /\ w_timeout wire = Some 15000%Z
                   /\ forall k,
                        form_getHeaders (form ++ [payload_json_field text]) !! k = None ->
                        w_headers wire !! k = options_headers this !! k) new.
Proof.
  unfold _multiPartRequest.
  destruct (3 <=? amount)%Z; [exists []; cbn; rewrite app_nil_r; auto|].
  match goal with |- context [match ?c with Normal _ => _ | Throw _ => _ end] =>
    destruct c as [[form data']|e1] end;
    [|exists []; cbn; rewrite app_nil_r; auto].
  unfold send. cbn [snd sent].
  eexists [_]. split; [reflexivity|].
  constructor; [|constructor]. cbn [w_payload w_timeout w_headers].
  eexists _, _. split; [reflexivity|]. split; [reflexivity|].
  intros k Hk. now apply lookup_union_r.
Qed.

(** X15.  Every request that a multipart dispatch sends, retries included,
    carries a form whose last field is [payload_json], has the timeout of
    15000 ms, and has the default header of the handler under every name
    that the headers of the form do not set. *)
Theorem X15_multipart_requests_carry_payload_json :
  forall JSON_parse JSON_stringify form_getHeaders OK_STATUS_CODES server this
         fuel endpoint method data amount w,
    exists new,
      sent (snd (request JSON_parse JSON_stringify form_getHeaders OK_STATUS_CODES
                   server this fuel endpoint method "multipart" data amount w))
      = sent w ++ new
      /\ Forall (fun wire =>
                   exists form text,
                     w_payload wire = BodyForm (form ++ [payload_json_field text])
                     /\ w_timeout wire = Some 15000%Z
                     /\ forall k,
                          form_getHeaders (form ++ [payload_json_field text]) !! k = None ->
                          w_headers wire !! k = options_headers this !! k) new.
Proof.
  intros. apply request_sent_invariant. intros data' w'.
  unfold send_by_kind. cbn [String.eqb Ascii.eqb Bool.eqb].
  apply _multiPartRequest_wire.
Qed.

(** *** X16 and X17: what a retry sends *)

Lemma stripped_files_invalid (files : list JsVal) :
  files <> [] ->
  Forall (fun f => valid_file f = true) files ->
  every_valid (map (fun f => delete_key f "file") files) = Normal false.
Proof.
  intros Hne Hall. apply every_valid_some_invalid.
  - apply Forall_map. eapply Forall_impl; [exact Hall|].
    intros f Hf. destruct f; simpl in *; congruence.
  - destruct files as [|f rest]; [contradiction|].
    inversion Hall as [|? ? Hf _]; subst.
    cbn [map]. apply Exists_cons_hd.
    destruct f; simpl in *; try discriminate.
    rewrite lookup_delete_prop_same. cbn. apply andb_false_r.
Qed.

Lemma _multiPartRequest_with_files JSON_stringify form_getHeaders server this
    endpoint method props files amount w :
  (amount < 3)%Z ->
  lookup_prop "files" props = JArray files ->
  Forall (fun f => valid_file f = true) files ->
  let data' := JObject (set_prop "files"
                          (JArray (map (fun f => delete_key f "file") files)) props) in
  let wire := multipart_wire form_getHeaders this endpoint method
                (file_fields 0 files ++ [payload_json_field (JSON_stringify data')]) in
  _multiPartRequest JSON_stringify form_getHeaders server this
    endpoint method (JObject props) amount w
  = (reply_of server (sent w ++ [wire]), data',
     {| sent := sent w ++ [wire]; events := events w |}).
Proof.
  intros Hlt Hfiles Hvalid data' wire.
  assert (Hnn : Forall (fun f => nullish f = false) files).
  { eapply Forall_impl; [exact Hvalid|]. intros f Hf. now apply valid_file_props in Hf. }
  unfold _multiPartRequest.
  destruct (3 <=? amount)%Z eqn:Hcap; [apply Z.leb_le in Hcap; lia|].
  cbn [get]. rewrite Hfiles. cbn [bind].
  rewrite (every_valid_all files Hvalid). cbn [bind].
  rewrite (append_files_all files 0 [] Hnn). cbn [bind fst snd with_files app].
  reflexivity.
Qed.

Lemma _multiPartRequest_without_files JSON_stringify form_getHeaders server this
    endpoint method props files amount w :
  (amount < 3)%Z ->
  lookup_prop "files" props = JArray files ->
  every_valid files = Normal false ->
  let wire := multipart_wire form_getHeaders this endpoint method
                [payload_json_field (JSON_stringify (JObject props))] in
  _multiPartRequest JSON_stringify form_getHeaders server this
    endpoint method (JObject props) amount w
  = (reply_of server (sent w ++ [wire]), JObject props,
     {| sent := sent w ++ [wire]; events := events w |}).
Proof.
  intros Hlt Hfiles Hev wire.
  unfold _multiPartRequest.
  destruct (3 <=? amount)%Z eqn:Hcap; [apply Z.leb_le in Hcap; lia|].
  cbn [get]. rewrite Hfiles. cbn [bind]. rewrite Hev. cbn [bind app].
  reflexivity.
Qed.

(** The requests of a call are those of its first sender call, followed by
    those of the retries. *)
Lemma request_first_send JSON_parse JSON_stringify form_getHeaders OK_STATUS_CODES
    server this fuel endpoint method dataType data amount w :
  exists rest,
    sent (snd (request JSON_parse JSON_stringify form_getHeaders OK_STATUS_CODES
                 server this (S fuel) endpoint method dataType data amount w))
    = sent (snd (send_by_kind JSON_stringify form_getHeaders server this
                   endpoint method dataType (coerce_data data) amount
                   (emit (ev_request endpoint method dataType (coerce_data data)) w)))
      ++ rest.
Proof.
  rewrite request_step.
  destruct (send_by_kind _ _ _ _ _ _ _ _ _ _) as [[r d1] w1]. cbn [snd].
  assert (Hdone : forall (o : Outcome) (x : Event),
            exists rest, sent (snd (o, d1, emit x w1)) = sent w1 ++ rest).
  { intros o x. exists []. cbn. now rewrite app_nil_r. }
  destruct r as [resp|e]; [|apply Hdone].
  destruct (terminal OK_STATUS_CODES resp); [apply Hdone|].
  destruct (retried resp); [|apply Hdone].
  destruct (request_trace JSON_parse JSON_stringify form_getHeaders OK_STATUS_CODES
              server this fuel endpoint method dataType d1 amount w1)
    as (new & _ & Hs & _).
  destruct (request _ _ _ _ _ _ fuel _ _ _ _ _ _) as [[inner d] w2].
  cbn [snd] in *. eauto.
Qed.

Lemma retried_of_recoverable (resp : Response) OK_STATUS_CODES :
  statusCode resp = 429%Z \/ statusCode resp = 502%Z ->
  terminal OK_STATUS_CODES resp = false /\ retried resp = true.
Proof.
  unfold terminal, retried, recoverable.
  intros [-> | ->]; cbn; now rewrite andb_false_r.
Qed.

(** X16.  When a multipart dispatch with a non-empty array of file
    descriptors that the form library takes (a non-empty string as [name],
    a buffer or a non-empty string as [file]) is answered with a 429 or a
    502, the request of the retry
    carries no file: the first request carried the fields [files[i]] and
    took the [file] out of every descriptor of the payload object, so the
    form of the second request has the single field [payload_json]. *)
Theorem X16_multipart_retry_sends_no_file :
  forall JSON_parse JSON_stringify form_getHeaders OK_STATUS_CODES server this
         fuel endpoint method props files amount w resp,
    (amount < 3)%Z ->
    lookup_prop "files" props = JArray files ->
    files <> [] ->
    Forall (fun f => appendable f = true) files ->
    (forall wire, server (sent w ++ [wire]) = Replied resp) ->
    statusCode resp = 429%Z \/ statusCode resp = 502%Z ->
    let data' := JObject (set_prop "files"
                            (JArray (map (fun f => delete_key f "file") files)) props) in
    exists rest,
      sent (snd (request JSON_parse JSON_stringify form_getHeaders OK_STATUS_CODES
                   server this (S (S fuel)) endpoint method "multipart"
                   (JObject props) amount w))
      = sent w
        ++ multipart_wire form_getHeaders this endpoint method
             (file_fields 0 files ++ [payload_json_field (JSON_stringify data')])
        :: multipart_wire form_getHeaders this endpoint method
             [payload_json_field (JSON_stringify data')]
        :: rest.
Proof.
  intros until resp. intros Hlt Hfiles Hne Happ Hserver Hstatus data'.
  pose proof (appendable_all_valid files Happ) as Hvalid.
  destruct (retried_of_recoverable resp OK_STATUS_CODES Hstatus) as [Hterm Hretry].
  rewrite request_step. cbn [coerce_data].
  unfold send_by_kind at 1. cbn [String.eqb Ascii.eqb Bool.eqb].
  rewrite (_multiPartRequest_with_files JSON_stringify form_getHeaders server this
             endpoint method props files amount _ Hlt Hfiles Hvalid).
  cbn [emit sent events]. unfold reply_of at 1. rewrite Hserver.
  rewrite Hterm, Hretry.
  match goal with |- context [request _ _ _ _ _ _ (S fuel) _ _ _ ?d _ ?w1] =>
    destruct (request_first_send JSON_parse JSON_stringify form_getHeaders OK_STATUS_CODES
                server this fuel endpoint method "multipart" d amount w1) as (rest & Hrest)
  end.
  destruct (request _ _ _ _ _ _ (S fuel) _ _ _ _ _ _) as [[inner d] w2].
  cbn [snd] in *. exists rest. rewrite Hrest. cbn [coerce_data].
  unfold send_by_kind. cbn [String.eqb Ascii.eqb Bool.eqb].
  rewrite (_multiPartRequest_without_files JSON_stringify form_getHeaders server this
             endpoint method _ (map (fun f => delete_key f "file") files) amount _ Hlt
             (lookup_set_prop_same _ _ _) (stripped_files_invalid files Hne Hvalid)).
  cbn [snd sent emit]. now rewrite <- !app_assoc.
Qed.

Lemma X16_witness :
  let files := [JObject [("name", JString "a.png"); ("file", JBuffer "AB")]] in
  let data' := JObject [("content", JString "hi");
                        ("files", JArray [JObject [("name", JString "a.png")]])] in
  exists rest,
    sent (snd (request Stub.parse Stub.stringify Stub.form_headers Stub.OK_STATUS_CODES
                 (Stub.always (Stub.reply 429 "{}")) Stub.handler
                 2 "/channels/1/messages" m_post "multipart"
                 (JObject [("content", JString "hi"); ("files", JArray files)])
                 0 Stub.world0))
    = multipart_wire Stub.form_headers Stub.handler "/channels/1/messages" m_post
        (file_fields 0 files ++ [payload_json_field (Stub.stringify data')])
      :: multipart_wire Stub.form_headers Stub.handler "/channels/1/messages" m_post
           [payload_json_field (Stub.stringify data')]
      :: rest.
Proof.
  apply (X16_multipart_retry_sends_no_file
           Stub.parse Stub.stringify Stub.form_headers Stub.OK_STATUS_CODES
           (Stub.always (Stub.reply 429 "{}")) Stub.handler
           0 "/channels/1/messages" m_post
           [("content", JString "hi");
            ("files", JArray [JObject [("name", JString "a.png"); ("file", JBuffer "AB")]])]
           [JObject [("name", JString "a.png"); ("file", JBuffer "AB")]]
           0%Z Stub.world0
           {| statusCode := 429; content_type := Some "application/json";
              body := Some "{}" |}).
  - lia.
  - reflexivity.
  - discriminate.
  - repeat constructor.
  - reflexivity.
  - left. reflexivity.
Defined.

Lemma _request_object server this endpoint method props useParams amount w :
  (amount < 3)%Z ->
  let reason := lookup_prop "reason" props in
  let headers : gmap string string :=
    if truthy reason then {[ audit_header := encodeURIComponent (toStr reason) ]} else ∅ in
  let props' := if truthy reason then delete_prop "reason" props else props in
  let wire := json_wire_of this endpoint method useParams headers props' in
  _request server this endpoint method (JObject props) useParams amount w
  = (reply_of server (sent w ++ [wire]), JObject props',
     {| sent := sent w ++ [wire]; events := events w |}).
Proof.
  intros Hlt reason headers props' wire.
  unfold _request.
  destruct (3 <=? amount)%Z eqn:Hcap; [apply Z.leb_le in Hcap; lia|].
  cbn [is_string negb get]. fold reason.
  subst wire headers props'. unfold json_wire_of, send, reply_of, audit_header.
  destruct (truthy reason); cbn [delete_key truthy is_object_type typeof andb sent events];
    destruct useParams; reflexivity.
Qed.

(** X17.  When the JSON sender has answered the first run of a dispatch,
    whose payload is an object with a non-empty string of well-formed text
    as [reason], with a response of status 429 or 502, the request it sent
    had the audit-log header, and the request of the retry goes out without
    it: the first run took the [reason] out of the payload object, so the
    second request is built from the object without it and carries the
    default headers only. *)
Theorem X17_json_retry_loses_the_audit_header :
  forall JSON_parse JSON_stringify form_getHeaders OK_STATUS_CODES server this
         fuel endpoint method props amount w resp d1 w1 s,
    lookup_prop "reason" props = JString s ->
    s <> "" ->
    well_formed s = true ->
    send_by_kind JSON_stringify form_getHeaders server this
      endpoint method "json" (JObject props) amount
      (emit (ev_request endpoint method "json" (JObject props)) w)
    = (Normal resp, d1, w1) ->
    statusCode resp = 429%Z \/ statusCode resp = 502%Z ->
    let useParams := useParams_of method endpoint in
    let props' := delete_prop "reason" props in
    d1 = JObject props'
    /\ sent w1
       = sent w ++ [json_wire_of this endpoint method useParams
                      {[ audit_header := encodeURIComponent s ]} props']
    /\ exists rest,
         sent (snd (request JSON_parse JSON_stringify form_getHeaders OK_STATUS_CODES
                      server this (S (S fuel)) endpoint method "json"
                      (JObject props) amount w))
         = sent w1 ++ json_wire_of this endpoint method useParams ∅ props' :: rest.
Proof.
  intros until s. intros Hs Hne Hwf Hsend Hstatus useParams props'.
  assert (Ht : truthy (JString s) = true).
  { cbn [truthy]. apply String.eqb_neq in Hne. now rewrite Hne. }
  destruct (retried_of_recoverable resp OK_STATUS_CODES Hstatus) as [Hterm Hretry].
  assert (Hlt : (amount < 3)%Z).
  { destruct (Z.lt_ge_cases amount 3) as [Hlt|Hge]; [exact Hlt|].
    unfold send_by_kind, _request in Hsend. cbn [String.eqb Ascii.eqb Bool.eqb] in Hsend.
    rewrite (proj2 (Z.leb_le 3 amount) Hge) in Hsend. discriminate. }
  pose proof Hsend as Hsend'.
  unfold send_by_kind in Hsend'. cbn [String.eqb Ascii.eqb Bool.eqb] in Hsend'.
  rewrite (_request_object server this endpoint method props
             (useParams_of method endpoint) amount _ Hlt) in Hsend'.
  rewrite Hs, Ht in Hsend'. cbn [toStr emit sent events] in Hsend'.
  injection Hsend' as Hreply <- <-.
  split; [reflexivity|]. split; [reflexivity|].
  rewrite request_step. cbn [coerce_data]. rewrite Hsend, Hterm, Hretry.
  match goal with |- context [request _ _ _ _ _ _ (S fuel) _ _ _ ?d _ ?w1] =>
    destruct (request_first_send JSON_parse JSON_stringify form_getHeaders OK_STATUS_CODES
                server this fuel endpoint method "json" d amount w1) as (rest & Hrest)
  end.
  destruct (request _ _ _ _ _ _ (S fuel) _ _ _ _ _ _) as [[inner d] w2].
  cbn [snd] in *. exists rest. rewrite Hrest. cbn [coerce_data].
  unfold send_by_kind. cbn [String.eqb Ascii.eqb Bool.eqb].
  rewrite (_request_object server this endpoint method (delete_prop "reason" props)
             (useParams_of method endpoint) amount _ Hlt).
  rewrite lookup_delete_prop_same. cbn [truthy].
  cbn [snd sent emit]. now rewrite <- !app_assoc.
Qed.

Lemma X17_witness :
  exists rest,
    sent (snd (request Stub.parse Stub.stringify Stub.form_headers Stub.OK_STATUS_CODES
                 (Stub.always (Stub.reply 502 "{}")) Stub.handler
                 2 "/channels/1" m_delete "json"
                 (JObject [("reason", JString "spam")]) 0 Stub.world0))
    = json_wire_of Stub.handler "/channels/1" m_delete false
        {[ audit_header := "spam" ]} []
      :: json_wire_of Stub.handler "/channels/1" m_delete false ∅ []
      :: rest.
Proof.
  refine (proj2 (proj2 (X17_json_retry_loses_the_audit_header
           Stub.parse Stub.stringify Stub.form_headers Stub.OK_STATUS_CODES
           (Stub.always (Stub.reply 502 "{}")) Stub.handler
           0 "/channels/1" m_delete [("reason", JString "spam")] 0%Z Stub.world0
           {| statusCode := 502; content_type := Some "application/json";
              body := Some "{}" |}
           (JObject [])
           {| sent := [json_wire_of Stub.handler "/channels/1" m_delete false
                         {[ audit_header := "spam" ]} []];
              events := [ev_request "/channels/1" m_delete "json"
                           (JObject [("reason", JString "spam")])] |}
           "spam" eq_refl ltac:(discriminate) eq_refl eq_refl (or_intror eq_refl)))).
Defined.

(** *** X18: the bot methods *)

Lemma status_ok_not_retried OK_STATUS_CODES (resp : Response) :
  In (statusCode resp) OK_STATUS_CODES ->
  statusCode resp <> 429%Z -> statusCode resp <> 502%Z ->
  terminal OK_STATUS_CODES resp = false /\ retried resp = false.
Proof.
  intros Hok H429 H502. unfold terminal, retried.
  rewrite (recoverable_false _ H429 H502).
  apply includesZ_In in Hok. rewrite Hok.
  cbn [negb]. now rewrite !andb_false_r.
Qed.

(** X18.  [getGateway] and [getGatewayBot] send one [get] request to their
    endpoint, with the empty object as query, no body and the default
    headers only; when the answer has a success status, they are fulfilled
    with the decoded body, and the events are [request] and [done]. *)
Theorem X18_bot_methods_get_the_gateway :
  forall JSON_parse JSON_stringify form_getHeaders OK_STATUS_CODES server requestHandler
         GATEWAY GATEWAY_BOT fuel w resp,
    (forall wire, server (sent w ++ [wire]) = Replied resp) ->
    In (statusCode resp) OK_STATUS_CODES ->
    statusCode resp <> 429%Z ->
    statusCode resp <> 502%Z ->
    let outcome_for (endpoint : string) :=
      (Finished (Fulfilled (decoded JSON_parse resp)), JObject [],
       {| sent := sent w ++ [json_wire_of requestHandler endpoint m_get true ∅ []];
          events := events w ++ [ev_request endpoint m_get "json" (JObject []);
                                 ev_done resp] |}) in
    BotMethods.getGateway JSON_parse JSON_stringify form_getHeaders OK_STATUS_CODES
      server requestHandler GATEWAY (S fuel) w = outcome_for GATEWAY
    /\ BotMethods.getGatewayBot JSON_parse JSON_stringify form_getHeaders OK_STATUS_CODES
         server requestHandler GATEWAY_BOT (S fuel) w = outcome_for GATEWAY_BOT.
Proof.
  intros until resp. intros Hserver Hok H429 H502 outcome_for.
  destruct (status_ok_not_retried OK_STATUS_CODES resp Hok H429 H502) as [Hterm Hretry].
  assert (H : forall endpoint,
            request JSON_parse JSON_stringify form_getHeaders OK_STATUS_CODES
              server requestHandler (S fuel) endpoint m_get "json" JUndefined 0 w
            = outcome_for endpoint).
  { intros endpoint. rewrite request_step. cbn [coerce_data].
    unfold send_by_kind. cbn [String.eqb Ascii.eqb Bool.eqb].
    rewrite (_request_object server requestHandler endpoint m_get []
               (useParams_of m_get endpoint) 0 _ ltac:(lia)).
    cbn [lookup_prop truthy emit sent events useParams_of orb].
    unfold reply_of. rewrite Hserver, Hterm, Hretry.
    subst outcome_for. cbn [emit sent events].
    unfold emit. cbn [sent events]. now rewrite <- app_assoc. }
  split; apply H.
Qed.

Lemma X18_witness :
  let resp := {| statusCode := 200; content_type := Some "application/json";
                 body := Some "[]" |} in
  fst (fst (BotMethods.getGateway Stub.parse Stub.stringify Stub.form_headers
              Stub.OK_STATUS_CODES (Stub.always (Replied resp)) Stub.handler
              "/gateway" 1 Stub.world0))
  = Finished (Fulfilled (JArray [])).
Proof.
  intros resp.
  rewrite (proj1 (X18_bot_methods_get_the_gateway
                    Stub.parse Stub.stringify Stub.form_headers Stub.OK_STATUS_CODES
                    (Stub.always (Replied resp)) Stub.handler
                    "/gateway" "/gateway/bot" 0 Stub.world0 resp
                    (fun _ => eq_refl) ltac:(simpl; tauto)
                    ltac:(discriminate) ltac:(discriminate))).
  reflexivity.
Defined.

(** *** X19 and X20: the payload [null], and a failing transport *)

(** X19.  The default [data = {}] stands in for [undefined] only: a
    dispatch of the data kind "json" or "multipart" with the payload [null]
    sends no request at all, and below the attempt cap it is rejected with
    the [TypeError] of reading a property of [null]; the events are
    [request], with [null] as data, and [requestError]. *)
Theorem X19_null_payload_is_rejected_without_a_request :
  forall JSON_parse JSON_stringify form_getHeaders OK_STATUS_CODES server this
         fuel endpoint method dataType amount w,
    dataType = "json" \/ dataType = "multipart" ->
    let result := request JSON_parse JSON_stringify form_getHeaders OK_STATUS_CODES
                    server this (S fuel) endpoint method dataType JNull amount w in
    sent (snd result) = sent w
    /\ ((amount < 3)%Z ->
        fst (fst result) = Finished (Rejected TypeError)
        /\ events (snd result)
           = events w ++ [ev_request endpoint method dataType JNull;
                          ev_requestError TypeError]).
Proof.
  intros until w. intros Hkind result. subst result.
  rewrite request_step. cbn [coerce_data].
  unfold send_by_kind, _request, _multiPartRequest.
  destruct (3 <=? amount)%Z eqn:Hcap.
  - apply Z.leb_le in Hcap.
    destruct Hkind as [-> | ->]; cbn [String.eqb Ascii.eqb Bool.eqb fst snd emit sent];
      (split; [reflexivity|lia]).
  - destruct Hkind as [-> | ->];
      cbn [String.eqb Ascii.eqb Bool.eqb is_string negb get bind fst snd emit sent events];
      (split; [reflexivity|]); intros _; (split; [reflexivity|]);
      now rewrite <- app_assoc.
Qed.

Lemma X19_witness :
  let result := request Stub.parse Stub.stringify Stub.form_headers Stub.OK_STATUS_CODES
                  (Stub.always (Stub.reply 200 "{}")) Stub.handler
                  1 "/channels/1" m_patch "json" JNull 0 Stub.world0 in
  fst (fst result) = Finished (Rejected TypeError)
  /\ events (snd result)
     = [ev_request "/channels/1" m_patch "json" JNull; ev_requestError TypeError].
Proof.
  apply (proj2 (X19_null_payload_is_rejected_without_a_request
                  Stub.parse Stub.stringify Stub.form_headers Stub.OK_STATUS_CODES
                  (Stub.always (Stub.reply 200 "{}")) Stub.handler
                  0 "/channels/1" m_patch "json" 0%Z Stub.world0 (or_introl eq_refl))).
  lia.
Defined.

(** X20.  An exception of the sender is never retried: when the sender
    of the first run throws (a failure of the transport, for one), the
    call is rejected with what it threw, [requestError] with that error is
    the last event, and no request is sent beyond those of that one sender
    call, whatever fuel is left.  Only a response of status 429 or 502
    leads to a second run. *)
Theorem X20_sender_exception_is_not_retried :
  forall JSON_parse JSON_stringify form_getHeaders OK_STATUS_CODES server this
         fuel endpoint method dataType data amount w e d1 w1,
    send_by_kind JSON_stringify form_getHeaders server this
      endpoint method dataType (coerce_data data) amount
      (emit (ev_request endpoint method dataType (coerce_data data)) w)
    = (Throw e, d1, w1) ->
    let result := request JSON_parse JSON_stringify form_getHeaders OK_STATUS_CODES
                    server this (S fuel) endpoint method dataType data amount w in
    fst (fst result) = Finished (Rejected e)
    /\ sent (snd result) = sent w1
    /\ (length (sent w1) <= S (length (sent w)))%nat
    /\ events (snd result)
       = events w ++ [ev_request endpoint method dataType (coerce_data data);
                      ev_requestError e].
Proof.
  intros until w1. intros Hsend result. subst result.
  rewrite request_step, Hsend. cbn [fst snd emit sent events].
  destruct (send_by_kind_world JSON_stringify form_getHeaders server this
              endpoint method dataType (coerce_data data) amount
              (emit (ev_request endpoint method dataType (coerce_data data)) w))
    as (Hev & new & Hsent & Hlen & _).
  rewrite Hsend in Hev, Hsent. cbn [snd emit sent events] in Hev, Hsent.
  split; [reflexivity|]. split; [reflexivity|]. split.
  - rewrite Hsent, length_app. lia.
  - now rewrite Hev, <- app_assoc.
Qed.

Lemma X20_witness :
  let result := request Stub.parse Stub.stringify Stub.form_headers Stub.OK_STATUS_CODES
                  (Stub.always (Failed "ECONNRESET")) Stub.handler
                  3 "/gateway" m_get "json" JUndefined 0 Stub.world0 in
  fst (fst result) = Finished (Rejected (TransportError "ECONNRESET"))
  /\ sent (snd result) = [json_wire_of Stub.handler "/gateway" m_get true ∅ []]
  /\ (1 <= 1)%nat
  /\ events (snd result)
     = [ev_request "/gateway" m_get "json" (JObject []);
        ev_requestError (TransportError "ECONNRESET")].
Proof.
  apply (X20_sender_exception_is_not_retried
           Stub.parse Stub.stringify Stub.form_headers Stub.OK_STATUS_CODES
           (Stub.always (Failed "ECONNRESET")) Stub.handler
           2 "/gateway" m_get "json" JUndefined 0%Z Stub.world0
           (TransportError "ECONNRESET") (JObject [])
           {| sent := [json_wire_of Stub.handler "/gateway" m_get true ∅ []];
              events := [ev_request "/gateway" m_get "json" (JObject [])] |}).
  reflexivity.
Defined.

Lemma request_first_event JSON_parse JSON_stringify form_getHeaders OK_STATUS_CODES
    server this fuel endpoint method dataType data amount w :
  exists evs,
    events (snd (request JSON_parse JSON_stringify form_getHeaders OK_STATUS_CODES
                   server this (S fuel) endpoint method dataType data amount w))
    = events w ++ ev_request endpoint method dataType (coerce_data data) :: evs.
Proof.
  rewrite request_step.
  set (w0 := emit _ w).
  destruct (send_by_kind_world JSON_stringify form_getHeaders server this
              endpoint method dataType (coerce_data data) amount w0) as (Hev & _).
  destruct (send_by_kind _ _ _ _ _ _ _ _ _ _) as [[r d1] w1].
  cbn [snd] in Hev.
  change (events w0)
    with (events w ++ [ev_request endpoint method dataType (coerce_data data)]) in Hev.
  assert (Hdone : forall (o : Outcome) (x : Event),
            exists evs, events (snd (o, d1, emit x w1))
              = events w ++ ev_request endpoint method dataType (coerce_data data) :: evs).
  { intros o x. exists [x]. cbn [snd emit events]. now rewrite Hev, <- app_assoc. }
  destruct r as [resp|e]; [|apply Hdone].
  destruct (terminal OK_STATUS_CODES resp); [apply Hdone|].
  destruct (retried resp); [|apply Hdone].
  destruct (request_trace JSON_parse JSON_stringify form_getHeaders OK_STATUS_CODES
              server this fuel endpoint method dataType d1 amount w1)
    as (_ & evs2 & _ & He2 & _).
  destruct (request _ _ _ _ _ _ fuel _ _ _ _ _ _) as [[inner d] w2].
  cbn [snd] in *. exists evs2. now rewrite He2, Hev, <- app_assoc.
Qed.

(** *** X21: a number as payload *)

Lemma string_of_Z_not_empty (n : Z) : string_of_Z n <> "".
Proof.
  unfold string_of_Z. destruct n as [|p|p]; cbn [Z.to_int NilZero.string_of_int].
  - discriminate.
  - unfold NilZero.string_of_uint. destruct (Pos.to_uint p); discriminate.
  - discriminate.
Qed.

(** X21.  A number passed as payload of a JSON dispatch (an integer that a
    double holds exactly) is sent as its decimal text, never as a JSON
    number: in the query when the request is query-driven, and as a raw
    body otherwise (also for the number 0, whose text is truthy); the
    [request] event shows the text too. *)
Theorem X21_number_payload_is_sent_as_text :
  forall JSON_parse JSON_stringify form_getHeaders OK_STATUS_CODES server this
         fuel endpoint method (n : Z) amount w,
    (amount < 3)%Z ->
    (Z.abs n < 2 ^ 53)%Z ->
    let text := JString (string_of_Z n) in
    let result := request JSON_parse JSON_stringify form_getHeaders OK_STATUS_CODES
                    server this (S fuel) endpoint method "json" (JNumber n) amount w in
    exists wire rest evs,
      sent (snd result) = sent w ++ wire :: rest
      /\ w_payload wire
         = (if useParams_of method endpoint then Query text else BodyRaw text)
      /\ events (snd result) = events w ++ ev_request endpoint method "json" text :: evs.
Proof.
  intros until w. intros Hlt _ text result. subst result.
  destruct (request_first_send JSON_parse JSON_stringify form_getHeaders OK_STATUS_CODES
              server this fuel endpoint method "json" (JNumber n) amount w)
    as (rest & Hrest).
  destruct (request_first_event JSON_parse JSON_stringify form_getHeaders
              OK_STATUS_CODES server this fuel endpoint method "json" (JNumber n) amount w)
    as (evs & Hevs).
  rewrite Hrest, Hevs. clear Hrest Hevs. subst text.
  cbn [coerce_data toStr].
  unfold send_by_kind, _request. cbn [String.eqb Ascii.eqb Bool.eqb].
  destruct (3 <=? amount)%Z eqn:Hcap; [apply Z.leb_le in Hcap; lia|].
  cbn [is_string negb truthy]. unfold send. cbn [snd sent emit].
  rewrite <- app_assoc. cbn [app].
  eexists _, rest, evs. split; [reflexivity|].
  split; [|reflexivity]. cbn [w_payload].
  destruct (useParams_of method endpoint); [reflexivity|].
  cbn [truthy is_object_type typeof andb].
  pose proof (string_of_Z_not_empty n) as Hne. apply String.eqb_neq in Hne.
  now rewrite Hne.
Qed.

Lemma X21_witness :
  let result := request Stub.parse Stub.stringify Stub.form_headers Stub.OK_STATUS_CODES
                  (Stub.always (Stub.reply 200 "{}")) Stub.handler
                  1 "/channels/1/messages" m_post "json" (JNumber 0) 0 Stub.world0 in
  exists wire rest evs,
    sent (snd result) = wire :: rest
    /\ w_payload wire = BodyRaw (JString "0")
    /\ events (snd result)
       = ev_request "/channels/1/messages" m_post "json" (JString "0") :: evs.
Proof.
  apply (X21_number_payload_is_sent_as_text
           Stub.parse Stub.stringify Stub.form_headers Stub.OK_STATUS_CODES
           (Stub.always (Stub.reply 200 "{}")) Stub.handler
           0 "/channels/1/messages" m_post 0%Z 0%Z Stub.world0).
  - lia.
  - reflexivity.
Defined.
